(** * SkillSwap backend: connection state machine, skill resolver, chat

    A shallow embedding of the controllers and Mongoose models of the
    SkillSwap backend, and the properties its specification states about
    them.

    - Collections are lists of documents in insertion order; [findOne]
      returns the first document that satisfies the query.
    - An identifier is text: an [ObjectId] is kept as [toString()]
      prints it, 24 hexadecimal digits in lower case ([canonicalId]).
      Stored identifiers and the authenticated user's [_id] are in that
      form.  The store casts the text of a request before it compares it
      ([castObjectId]: the digits are read without regard to case), and on
      a text in printed form the cast changes nothing.  The queries below
      compare the text as it is: they are the queries of the code on
      identifiers in printed form, and what is proved of a request that
      names a document by an identifier is proved of a text in that form,
      or of the identifier of a stored document.  [sendMessageCast] writes
      the cast out, for the one guard of the code that compares the text
      of the request itself.  Every identifier of a request that reaches a
      query in the connection and chat controllers has passed
      [mongoose.Types.ObjectId.isValid], so casting it does not throw.
    - The driver draws the [_id] of a new document and the clock gives its
      timestamps: both are inputs ([oid], [now]) of the operations that
      create or save a document.  The store rejects a repeated [_id] with
      E11000, as the [_id] index does.
    - A controller is a function from the request and the database to the
      response and the database after it. *)

From Stdlib Require Import List String Ascii Bool Arith PeanoNat NArith Lia.
From Stdlib Require Import Sorted Permutation.
From Stdlib Require OrderedTypeEx.
Import ListNotations.
Local Open Scope string_scope.
Local Open Scope list_scope.

(** ** JavaScript strings *)

Module JS.

(** White space of [String.prototype.trim], for code units below 256. *)
Definition isWhiteSpace (c : ascii) : bool :=
  let n := nat_of_ascii c in
  existsb (Nat.eqb n) [9; 10; 11; 12; 13; 32; 160].

Fixpoint trimStart (s : string) : string :=
  match s with
  | EmptyString => EmptyString
  | String c r => if isWhiteSpace c then trimStart r else s
  end.

Fixpoint trimEnd (s : string) : string :=
  match s with
  | EmptyString => EmptyString
  | String c r =>
      match trimEnd r with
      | EmptyString => if isWhiteSpace c then EmptyString else String c EmptyString
      | r' => String c r'
      end
  end.

Definition trim (s : string) : string := trimEnd (trimStart s).

(** A string is truthy when it is not empty. *)
Definition truthy (s : string) : bool := negb (s =? "").

(** ASCII case folding, as a case-insensitive comparison of names does. *)
Definition toLowerChar (c : ascii) : ascii :=
  let n := nat_of_ascii c in
  if ((65 <=? n) && (n <=? 90))%nat then ascii_of_nat (n + 32) else c.

Fixpoint toLowerCase (s : string) : string :=
  match s with
  | EmptyString => EmptyString
  | String c r => String (toLowerChar c) (toLowerCase r)
  end.

Definition eqb_ci (a b : string) : bool := toLowerCase a =? toLowerCase b.

End JS.

(** ** Exceptions and results *)

Inductive Exn :=
| MongoServerError (code : N) (message : string)
| ValidationError (message : string)
| TypeError (message : string)
| Error (message : string).

Definition err_code (e : Exn) : option N :=
  match e with
  | MongoServerError c _ => Some c
  | _ => None
  end.

Definition err_message (e : Exn) : string :=
  match e with
  | MongoServerError _ m | ValidationError m | TypeError m | Error m => m
  end.

Definition E11000 : Exn := MongoServerError 11000%N "E11000 duplicate key error".

Inductive result (A : Type) :=
| Ok (a : A)
| Throw (e : Exn).
Arguments Ok {A} a.
Arguments Throw {A} e.

Definition bind {A B : Type} (r : result A) (k : A -> result B) : result B :=
  match r with
  | Ok a => k a
  | Throw e => Throw e
  end.

Notation "x <- r ;; k" := (bind r (fun x => k))
  (at level 61, r at next level, right associativity).

Definition ObjectId := string.

(** The text of an identifier as [toString()] prints it. *)
Definition isLowerHexDigit (c : ascii) : bool :=
  let n := nat_of_ascii c in
  ((48 <=? n) && (n <=? 57) || (97 <=? n) && (n <=? 102))%nat.

Fixpoint allLowerHex (s : string) : bool :=
  match s with
  | EmptyString => true
  | String c r => isLowerHexDigit c && allLowerHex r
  end.

Definition canonicalId (s : string) : bool :=
  (String.length s =? 24)%nat && allLowerHex s.

(** The cast of a text of 24 hexadecimal digits to an [ObjectId], printed:
    the digits in lower case. *)
Definition castObjectId (s : string) : ObjectId := JS.toLowerCase s.

(** ** models/User.ts (the fields the controllers below read) *)

Module User.

Record t := mk { _id : ObjectId; name : string; email : string; photoURL : string }.

(** [User.findById(id)] of an identifier in printed form. *)
Definition findById (id : ObjectId) (us : list t) : option t :=
  find (fun u => _id u =? id) us.

End User.

(** ** models/Connection.ts *)

Inductive ConnectionStatus := PENDING | ACCEPTED | REJECTED | BLOCKED.

Definition status_eqb (a b : ConnectionStatus) : bool :=
  match a, b with
  | PENDING, PENDING | ACCEPTED, ACCEPTED
  | REJECTED, REJECTED | BLOCKED, BLOCKED => true
  | _, _ => false
  end.

Definition status_text (s : ConnectionStatus) : string :=
  match s with
  | PENDING => "pending"
  | ACCEPTED => "accepted"
  | REJECTED => "rejected"
  | BLOCKED => "blocked"
  end.

(** [Object.values(ConnectionStatus).includes(s)], with the value found. *)
Definition status_of_text (s : string) : option ConnectionStatus :=
  find (fun v => status_text v =? s) [PENDING; ACCEPTED; REJECTED; BLOCKED].

Module Connection.

Record t := mk {
  _id : ObjectId;
  requester : ObjectId;
  recipient : ObjectId;
  status : ConnectionStatus;
  message : option string;
  createdAt : nat;
  updatedAt : nat
}.

Definition set_status (c : t) (s : ConnectionStatus) : t :=
  mk (_id c) (requester c) (recipient c) s (message c) (createdAt c) (updatedAt c).

Definition touch (c : t) (now : nat) : t :=
  mk (_id c) (requester c) (recipient c) (status c) (message c) (createdAt c) now.

(** [connectionSchema.pre('save')]. *)
Definition preSave (c : t) : result unit :=
  if requester c =? recipient c
  then Throw (Error "Cannot send connection request to yourself")
  else Ok tt.

(** [maxlength: 500] on [message]. *)
Definition validate (c : t) : result unit :=
  match message c with
  | Some m =>
      if (500 <? String.length m)%nat
      then Throw (ValidationError "Connection validation failed: message")
      else Ok tt
  | None => Ok tt
  end.

(** The insertion: the [_id] index is the only unique index of the
    collection (the [indexes] entry among the schema's options is not an
    option Mongoose reads, so it builds none on the two parties). *)
Definition insertOne (c : t) (cs : list t) : result (list t) :=
  if existsb (fun d => _id d =? _id c) cs
  then Throw E11000
  else Ok (cs ++ [c]).

(** [Connection.create({ requester, recipient, message })]: [status]
    takes its default. *)
Definition create (oid : ObjectId) (now : nat) (requester recipient : ObjectId)
    (message : option string) (cs : list t) : result (t * list t) :=
  let c := mk oid requester recipient PENDING message now now in
  _ <- validate c ;;
  _ <- preSave c ;;
  cs' <- insertOne c cs ;;
  Ok (c, cs').

(** [Connection.findById(id)] of an identifier in printed form. *)
Definition findById (id : ObjectId) (cs : list t) : option t :=
  find (fun c => _id c =? id) cs.

(** The store's update of the first document with the given [_id]. *)
Fixpoint updateOne (c : t) (cs : list t) : list t :=
  match cs with
  | [] => []
  | d :: r => if _id d =? _id c then c :: r else d :: updateOne c r
  end.

(** [connection.save()] of a document that was read and then modified. *)
Definition save (now : nat) (c : t) (cs : list t) : result (t * list t) :=
  _ <- preSave c ;;
  let c' := touch c now in
  Ok (c', updateOne c' cs).

Fixpoint findByIdAndDelete (id : ObjectId) (cs : list t) : list t :=
  match cs with
  | [] => []
  | d :: r => if _id d =? id then r else d :: findByIdAndDelete id r
  end.

(** The query of [getConnection]: either direction between the two users,
    named by identifiers in printed form. *)
Definition between (user1Id user2Id : ObjectId) (c : t) : bool :=
  ((requester c =? user1Id) && (recipient c =? user2Id))
  || ((requester c =? user2Id) && (recipient c =? user1Id)).

Definition getConnection (user1Id user2Id : ObjectId) (cs : list t) : option t :=
  find (between user1Id user2Id) cs.

(** [sort({ createdAt: -1 })]: newest first, stable. *)
Fixpoint insertDesc (c : t) (l : list t) : list t :=
  match l with
  | [] => [c]
  | d :: r => if (createdAt d <=? createdAt c)%nat then c :: l else d :: insertDesc c r
  end.

Definition sortDesc (l : list t) : list t := fold_right insertDesc [] l.

(** A reference to a user as a document read from the store holds it: the
    identifier, or after [populate] the referenced document ([null] when
    there is none). *)
Inductive Ref :=
| Id (i : ObjectId)
| Populated (u : option User.t).

Record doc := mkdoc { fields : t; requesterRef : Ref; recipientRef : Ref }.

Definition plain (c : t) : doc := mkdoc c (Id (requester c)) (Id (recipient c)).

Definition populateRequester (us : list User.t) (d : doc) : doc :=
  mkdoc (fields d) (Populated (User.findById (requester (fields d)) us)) (recipientRef d).

Definition populateRecipient (us : list User.t) (d : doc) : doc :=
  mkdoc (fields d) (requesterRef d) (Populated (User.findById (recipient (fields d)) us)).

Definition involves (userId : ObjectId) (c : t) : bool :=
  (requester c =? userId) || (recipient c =? userId).

Definition getUserConnections (us : list User.t) (userId : ObjectId)
    (st : option ConnectionStatus) (cs : list t) : list doc :=
  let q c :=
    involves userId c
    && match st with Some s => status_eqb (status c) s | None => true end in
  map (fun c => populateRecipient us (populateRequester us (plain c)))
      (sortDesc (filter q cs)).

Definition getPendingRequests (us : list User.t) (userId : ObjectId)
    (cs : list t) : list doc :=
  map (fun c => populateRequester us (plain c))
      (sortDesc (filter (fun c => (recipient c =? userId)
                                  && status_eqb (status c) PENDING) cs)).

End Connection.

(** ** models/Skill.ts *)

Module Skill.

Record t := mk { _id : ObjectId; name : string }.

Definition findOne (q : t -> bool) (ss : list t) : option t := find q ss.

(** [Skill.findById(id)] of an identifier in printed form. *)
Definition findById (id : ObjectId) (ss : list t) : option t :=
  find (fun s => _id s =? id) ss.

(** [Skill.create({ name })]: the schema trims the name ([trim: true]),
    requires it, and the store keeps names and identifiers unique. *)
Definition create (oid : ObjectId) (nm : string) (ss : list t) : result (t * list t) :=
  let s := mk oid (JS.trim nm) in
  if name s =? ""
  then Throw (ValidationError "Skill validation failed: name: Path `name` is required.")
  else if existsb (fun d => (_id d =? oid) || (name d =? name s)) ss
  then Throw E11000
  else Ok (s, ss ++ [s]).

Fixpoint updateOne (s : t) (ss : list t) : list t :=
  match ss with
  | [] => []
  | d :: r => if _id d =? _id s then s :: r else d :: updateOne s r
  end.

(** [Skill.findByIdAndUpdate(id, { name }, { new: true })]: the unique
    index on [name] rejects the name of another document. *)
Definition findByIdAndUpdate (id : ObjectId) (nm : string) (ss : list t)
    : result (option t * list t) :=
  match findById id ss with
  | None => Ok (None, ss)
  | Some _ =>
      let s := mk id (JS.trim nm) in
      if existsb (fun d => negb (_id d =? id) && (name d =? name s)) ss
      then Throw E11000
      else Ok (Some s, updateOne s ss)
  end.

End Skill.

(** ** models/Message.ts *)

Module Message.

Record t := mk {
  _id : ObjectId;
  sender : ObjectId;
  recipient : ObjectId;
  content : string;
  read : bool;
  createdAt : nat
}.

(** [Message.create({ sender, recipient, content })]: [content] is
    required, [read] takes its default. *)
Definition create (oid : ObjectId) (now : nat) (sender recipient : ObjectId)
    (content : string) (ms : list t) : result (t * list t) :=
  let m := mk oid sender recipient content false now in
  if content =? ""
  then Throw (ValidationError "Message validation failed: content: Path `content` is required.")
  else if existsb (fun d => _id d =? oid) ms
  then Throw E11000
  else Ok (m, ms ++ [m]).

End Message.

(** ** The database and the responses *)

Record DB := mkDB {
  users : list User.t;
  skills : list Skill.t;
  connections : list Connection.t;
  messages : list Message.t
}.

Definition set_connections (db : DB) (cs : list Connection.t) : DB :=
  mkDB (users db) (skills db) cs (messages db).

Definition set_skills (db : DB) (ss : list Skill.t) : DB :=
  mkDB (users db) ss (connections db) (messages db).

Definition set_messages (db : DB) (ms : list Message.t) : DB :=
  mkDB (users db) (skills db) (connections db) ms.

(** The JSON bodies the controllers send, one constructor per shape. *)
Inductive Body :=
| Err (error : string)
| ErrStatus (error : string) (status : ConnectionStatus)
| Msg (message : string)
| MsgConnection (message : string) (connection : Connection.doc)
| CountRequests (count : nat) (requests : list Connection.doc)
| CountConnections (count : nat) (conns : list Connection.doc)
| AllRequests (count : nat) (sent received all : list Connection.doc)
| StatusNone (status message : string)
| StatusOf (status : ConnectionStatus) (relationship : string)
    (connection : Connection.doc)
| SkillJson (skill : Skill.t)
| MessageJson (msg : Message.t).

Record Response := json { code : nat; body : Body }.

(** [doc.toString()] of a populated reference is Mongoose's
    [Document.prototype.toString]: the text [util.inspect] prints for the
    document, not its identifier.  The layout varies with the version of
    Node; it is never a bare identifier. *)
Definition inspect (u : User.t) : string :=
  "{ _id: new ObjectId('" ++ User._id u ++ "'), name: '" ++ User.name u
  ++ "', email: '" ++ User.email u ++ "', photoURL: '" ++ User.photoURL u ++ "' }".

(** [ref.toString()]: of an identifier its text, of a populated document
    its inspection; [null] has no [toString]. *)
Definition Ref_toString (r : Connection.Ref) : result string :=
  match r with
  | Connection.Id i => Ok i
  | Connection.Populated (Some u) => Ok (inspect u)
  | Connection.Populated None =>
      Throw (TypeError "Cannot read properties of null (reading 'toString')")
  end.

(** [Array.prototype.filter] with a callback that may throw. *)
Fixpoint filterM {A : Type} (p : A -> result bool) (l : list A) : result (list A) :=
  match l with
  | [] => Ok []
  | x :: r =>
      b <- p x ;;
      r' <- filterM p r ;;
      Ok (if b then x :: r' else r')
  end.

(** [message?.trim() || undefined]. *)
Definition trimmedOrUndefined (message : option string) : option string :=
  match message with
  | Some m => if JS.truthy (JS.trim m) then Some (JS.trim m) else None
  | None => None
  end.

(** [!s || !s.trim()] of a field that may be missing. *)
Definition blank (s : option string) : bool :=
  match s with
  | Some v => negb (JS.truthy v) || negb (JS.truthy (JS.trim v))
  | None => true
  end.

(** ** The controllers *)

Section Controllers.

(** [mongoose.Types.ObjectId.isValid] on the text of a request. *)
Variable isValid : string -> bool.

(** The store's [$regex] with [$options: 'i']: the matcher of a pattern,
    or nothing when the pattern is not a regular expression. *)
Variable regex_i : string -> option (string -> bool).

(** *** controllers/connection.controller.ts *)

Definition populateBoth (db : DB) (c : Connection.t) : Connection.doc :=
  Connection.populateRecipient (users db)
    (Connection.populateRequester (users db) (Connection.plain c)).

(** The [catch] of [sendConnectionRequest]. *)
Definition sendCatch (e : Exn) : Response :=
  match err_code e with
  | Some 11000%N => json 400 (Err "Connection request already exists")
  | _ => json 500 (Err (err_message e))
  end.

Definition sendConnectionRequest (oid : ObjectId) (now : nat)
    (requesterId : ObjectId) (recipientId : string) (message : option string)
    (db : DB) : Response * DB :=
  if negb (isValid recipientId) then (json 400 (Err "Invalid recipient ID"), db)
  else match User.findById recipientId (users db) with
  | None => (json 404 (Err "Recipient user not found"), db)
  | Some _ =>
  if requesterId =? recipientId
  then (json 400 (Err "Cannot send connection request to yourself"), db)
  else match Connection.getConnection requesterId recipientId (connections db) with
  | Some existingConnection =>
      (json 400 (ErrStatus "Connection already exists"
                   (Connection.status existingConnection)), db)
  | None =>
  match Connection.create oid now requesterId recipientId
          (trimmedOrUndefined message) (connections db) with
  | Throw e => (sendCatch e, db)
  | Ok (connection, cs) =>
      let db' := set_connections db cs in
      (json 201 (MsgConnection "Connection request sent successfully"
                   (populateBoth db' connection)), db')
  end end end.

Definition getPendingRequests (userId : ObjectId) (db : DB) : Response * DB :=
  let pendingRequests :=
    Connection.getPendingRequests (users db) userId (connections db) in
  (json 200 (CountRequests (List.length pendingRequests) pendingRequests), db).

Definition acceptConnectionRequest (now : nat) (userId : ObjectId)
    (connectionId : string) (db : DB) : Response * DB :=
  if negb (isValid connectionId) then (json 400 (Err "Invalid connection ID"), db)
  else match Connection.findById connectionId (connections db) with
  | None => (json 404 (Err "Connection request not found"), db)
  | Some connection =>
  if negb (Connection.recipient connection =? userId)
  then (json 403 (Err "You can only accept requests sent to you"), db)
  else if negb (status_eqb (Connection.status connection) PENDING)
  then (json 400 (ErrStatus "Connection request is not pending"
                    (Connection.status connection)), db)
  else match Connection.save now (Connection.set_status connection ACCEPTED)
               (connections db) with
  | Throw e => (json 500 (Err (err_message e)), db)
  | Ok (connection, cs) =>
      let db' := set_connections db cs in
      (json 200 (MsgConnection "Connection request accepted successfully"
                   (populateBoth db' connection)), db')
  end end.

Definition rejectConnectionRequest (now : nat) (userId : ObjectId)
    (connectionId : string) (db : DB) : Response * DB :=
  if negb (isValid connectionId) then (json 400 (Err "Invalid connection ID"), db)
  else match Connection.findById connectionId (connections db) with
  | None => (json 404 (Err "Connection request not found"), db)
  | Some connection =>
  if negb (Connection.recipient connection =? userId)
  then (json 403 (Err "You can only reject requests sent to you"), db)
  else if negb (status_eqb (Connection.status connection) PENDING)
  then (json 400 (ErrStatus "Connection request is not pending"
                    (Connection.status connection)), db)
  else match Connection.save now (Connection.set_status connection REJECTED)
               (connections db) with
  | Throw e => (json 500 (Err (err_message e)), db)
  | Ok (connection, cs) =>
      (json 200 (MsgConnection "Connection request rejected successfully"
                   (Connection.plain connection)), set_connections db cs)
  end end.

Definition getAcceptedConnections (userId : ObjectId) (db : DB) : Response * DB :=
  let conns :=
    Connection.getUserConnections (users db) userId (Some ACCEPTED) (connections db) in
  (json 200 (CountConnections (List.length conns) conns), db).

Definition getAllConnectionRequests (userId : ObjectId) (status : option string)
    (db : DB) : Response * DB :=
  let filter_ :=
    match status with
    | Some s => if JS.truthy s then status_of_text s else None
    | None => None
    end in
  let conns :=
    Connection.getUserConnections (users db) userId filter_ (connections db) in
  let partition :=
    sentRequests <-
      filterM (fun conn => s <- Ref_toString (Connection.requesterRef conn) ;;
                           Ok (s =? userId)) conns ;;
    receivedRequests <-
      filterM (fun conn => s <- Ref_toString (Connection.recipientRef conn) ;;
                           Ok (s =? userId)) conns ;;
    Ok (AllRequests (List.length conns) sentRequests receivedRequests conns) in
  match partition with
  | Ok b => (json 200 b, db)
  | Throw e => (json 500 (Err (err_message e)), db)
  end.

Definition cancelConnectionRequest (userId : ObjectId) (connectionId : string)
    (db : DB) : Response * DB :=
  if negb (isValid connectionId) then (json 400 (Err "Invalid connection ID"), db)
  else match Connection.findById connectionId (connections db) with
  | None => (json 404 (Err "Connection request not found"), db)
  | Some connection =>
  if negb (Connection.requester connection =? userId)
  then (json 403 (Err "You can only cancel requests you sent"), db)
  else if negb (status_eqb (Connection.status connection) PENDING)
  then (json 400 (ErrStatus "Connection request is not pending"
                    (Connection.status connection)), db)
  else (json 200 (Msg "Connection request cancelled successfully"),
        set_connections db
          (Connection.findByIdAndDelete connectionId (connections db)))
  end.

Definition removeConnection (userId : ObjectId) (connectionId : string)
    (db : DB) : Response * DB :=
  if negb (isValid connectionId) then (json 400 (Err "Invalid connection ID"), db)
  else match Connection.findById connectionId (connections db) with
  | None => (json 404 (Err "Connection not found"), db)
  | Some connection =>
  if negb (Connection.requester connection =? userId)
     && negb (Connection.recipient connection =? userId)
  then (json 403 (Err "You can only remove connections you are part of"), db)
  else if negb (status_eqb (Connection.status connection) ACCEPTED)
  then (json 400 (ErrStatus "Connection is not accepted"
                    (Connection.status connection)), db)
  else (json 200 (Msg "Connection removed successfully"),
        set_connections db
          (Connection.findByIdAndDelete connectionId (connections db)))
  end.

(** The [relationship] label of [getConnectionStatus]. *)
Definition relationshipOf (currentUserId : ObjectId) (c : Connection.t) : string :=
  match Connection.status c with
  | ACCEPTED => "connected"
  | PENDING =>
      if Connection.requester c =? currentUserId
      then "request_sent" else "request_received"
  | REJECTED => "rejected"
  | BLOCKED => "none"
  end.

Definition getConnectionStatus (currentUserId : ObjectId) (userId : string)
    (db : DB) : Response * DB :=
  if negb (isValid userId) then (json 400 (Err "Invalid user ID"), db)
  else match User.findById userId (users db) with
  | None => (json 404 (Err "User not found"), db)
  | Some _ =>
  match Connection.getConnection currentUserId userId (connections db) with
  | None => (json 200 (StatusNone "none" "No connection exists"), db)
  | Some connection =>
      (json 200 (StatusOf (Connection.status connection)
                   (relationshipOf currentUserId connection)
                   (Connection.plain connection)), db)
  end end.

(** *** controllers/user.controller.ts: the skill resolver

    [getOrCreateSkill] awaits the store twice, and other requests run
    between the two: [others] is what they do to the collection after the
    lookup and before the creation (nothing when the call runs alone). *)
Definition getOrCreateSkill (others : list Skill.t -> list Skill.t)
    (oid : ObjectId) (skill : string) (ss : list Skill.t)
    : result ObjectId * list Skill.t :=
  if isValid skill then (Ok skill, ss)
  else match regex_i ("^" ++ JS.trim skill ++ "$") with
  | None => (Throw (MongoServerError 51091%N "Regular expression is invalid"), ss)
  | Some matches =>
  match Skill.findOne (fun s => matches (Skill.name s)) ss with
  | Some skillDoc => (Ok (Skill._id skillDoc), ss)
  | None =>
  match Skill.create oid (JS.trim skill) (others ss) with
  | Ok (skillDoc, ss') => (Ok (Skill._id skillDoc), ss')
  | Throw e => (Throw e, others ss)
  end end end.

Definition alone (ss : list Skill.t) : list Skill.t := ss.

(** *** controllers/skill.controller.ts *)

Definition createSkill (oid : ObjectId) (name : option string) (db : DB)
    : Response * DB :=
  match name with
  | None => (json 400 (Err "Skill name is required"), db)
  | Some name =>
  if blank (Some name) then (json 400 (Err "Skill name is required"), db)
  else match Skill.findOne (fun s => Skill.name s =? JS.trim name) (skills db) with
  | Some existingSkill => (json 400 (Err "Skill already exists"), db)
  | None =>
  match Skill.create oid (JS.trim name) (skills db) with
  | Ok (skill, ss) => (json 201 (SkillJson skill), set_skills db ss)
  | Throw e => (json 500 (Err (err_message e)), db)
  end end end.

(** [findByIdAndUpdate] casts the identifier of the route, which this
    controller does not validate first. *)
Definition updateSkill (id : string) (name : option string) (db : DB)
    : Response * DB :=
  match name with
  | None => (json 400 (Err "Skill name is required"), db)
  | Some name =>
  if blank (Some name) then (json 400 (Err "Skill name is required"), db)
  else if negb (isValid id)
  then (json 500 (Err "Cast to ObjectId failed"), db)
  else match Skill.findByIdAndUpdate id (JS.trim name) (skills db) with
  | Throw e => (json 500 (Err (err_message e)), db)
  | Ok (None, _) => (json 404 (Err "Skill not found"), db)
  | Ok (Some skill, ss) => (json 200 (SkillJson skill), set_skills db ss)
  end end.

(** *** controllers/chat.controller.ts *)

Definition sendMessage (oid : ObjectId) (now : nat) (senderId : ObjectId)
    (recipientId : string) (content : option string) (db : DB)
    : Response * DB :=
  if negb (isValid recipientId) then (json 400 (Err "Invalid recipient ID"), db)
  else match content with
  | None => (json 400 (Err "Message content is required"), db)
  | Some content =>
  if blank (Some content) then (json 400 (Err "Message content is required"), db)
  else if senderId =? recipientId
  then (json 400 (Err "Cannot send message to yourself"), db)
  else match User.findById senderId (users db), User.findById recipientId (users db) with
  | Some _, Some _ =>
      match Message.create oid now senderId recipientId (JS.trim content)
              (messages db) with
      | Ok (message, ms) => (json 201 (MessageJson message), set_messages db ms)
      | Throw e => (json 500 (Err (err_message e)), db)
      end
  | _, _ => (json 404 (Err "User not found"), db)
  end end.

(** [sendMessage] on any spelling of the recipient's identifier: the
    guard [senderId === recipientId] compares the text of the request,
    while [User.findById] and [Message.create] cast it to an [ObjectId]. *)
Definition sendMessageCast (oid : ObjectId) (now : nat) (senderId : ObjectId)
    (recipientId : string) (content : option string) (db : DB)
    : Response * DB :=
  if negb (isValid recipientId) then (json 400 (Err "Invalid recipient ID"), db)
  else match content with
  | None => (json 400 (Err "Message content is required"), db)
  | Some content =>
  if blank (Some content) then (json 400 (Err "Message content is required"), db)
  else if senderId =? recipientId
  then (json 400 (Err "Cannot send message to yourself"), db)
  else match User.findById senderId (users db),
             User.findById (castObjectId recipientId) (users db) with
  | Some _, Some _ =>
      match Message.create oid now senderId (castObjectId recipientId)
              (JS.trim content) (messages db) with
      | Ok (message, ms) => (json 201 (MessageJson message), set_messages db ms)
      | Throw e => (json 500 (Err (err_message e)), db)
      end
  | _, _ => (json 404 (Err "User not found"), db)
  end end.

End Controllers.

(** ** Invariants of the data model *)

(** Two connection records relate the same unordered pair of users. *)
Definition samePair (c d : Connection.t) : bool :=
  Connection.between (Connection.requester c) (Connection.recipient c) d.

(** At most one record for every unordered pair. *)
Fixpoint pairUnique (cs : list Connection.t) : bool :=
  match cs with
  | [] => true
  | c :: r => forallb (fun d => negb (samePair c d)) r && pairUnique r
  end.

(** Requester and recipient differ in every record. *)
Definition noSelfConnection (cs : list Connection.t) : bool :=
  forallb (fun c => negb (Connection.requester c =? Connection.recipient c)) cs.

(** Stored identifiers are identifiers. *)
Definition idsValid (isValid : string -> bool) (cs : list Connection.t) : bool :=
  forallb (fun c => isValid (Connection._id c)) cs.

(** The names of two skills are the same up to case, once trimmed. *)
Definition sameName (s d : Skill.t) : bool :=
  JS.eqb_ci (JS.trim (Skill.name s)) (JS.trim (Skill.name d)).

(** No two skills share a name under case-insensitive comparison. *)
Fixpoint namesUnique (ss : list Skill.t) : bool :=
  match ss with
  | [] => true
  | s :: r => forallb (fun d => negb (sameName s d)) r && namesUnique r
  end.

(** Stored names are trimmed, as the schema's [trim: true] leaves them. *)
Definition namesTrimmed (ss : list Skill.t) : bool :=
  forallb (fun s => JS.trim (Skill.name s) =? Skill.name s) ss.

(** A name of letters, digits and spaces: as a pattern it stands for
    itself. *)
Definition plainChar (c : ascii) : bool :=
  let n := nat_of_ascii c in
  ((48 <=? n) && (n <=? 57) || (65 <=? n) && (n <=? 90)
   || (97 <=? n) && (n <=? 122) || (n =? 32))%nat.

Fixpoint plainName (s : string) : bool :=
  match s with
  | EmptyString => true
  | String c r => plainChar c && plainName r
  end.

(** What the resolver's lookup assumes of the store's regular expressions:
    a plain name as a pattern between [^] and [$] matches, without regard
    to case, exactly the trimmed names that spell it. *)
Definition literalPatterns (regex_i : string -> option (string -> bool)) : Prop :=
  forall t, plainName t = true ->
    exists m, regex_i ("^" ++ t ++ "$")%string = Some m
      /\ forall nm, JS.trim nm = nm -> m nm = JS.eqb_ci t nm.


(** ** An identifier syntax and a matcher to run the controllers with *)

Definition isHexDigit (c : ascii) : bool :=
  let n := nat_of_ascii c in
  ((48 <=? n) && (n <=? 57) || (65 <=? n) && (n <=? 70)
   || (97 <=? n) && (n <=? 102))%nat.

Fixpoint allHex (s : string) : bool :=
  match s with
  | EmptyString => true
  | String c r => isHexDigit c && allHex r
  end.

(** The text case of [ObjectId.isValid]: 24 hexadecimal digits.  (Older
    drivers also take any text of 12 bytes; no text used below has 12.) *)
Definition isHex24 (s : string) : bool :=
  (String.length s =? 24)%nat && allHex s.

Fixpoint stripDollar (s : string) : option string :=
  match s with
  | EmptyString => None
  | String c r =>
      match r with
      | EmptyString => if Ascii.eqb c "$" then Some EmptyString else None
      | _ => option_map (String c) (stripDollar r)
      end
  end.

(** A matcher for the patterns [^name$] of plain names, without regard to
    case; it knows no other pattern. *)
Definition literal_i (pattern : string) : option (string -> bool) :=
  match pattern with
  | String c rest =>
      if Ascii.eqb c "^" then
        match stripDollar rest with
        | Some t => if plainName t then Some (fun nm => JS.eqb_ci t nm) else None
        | None => None
        end
      else None
  | EmptyString => None
  end.

(** ** Sample data *)

Definition alice : User.t :=
  User.mk "aaaaaaaaaaaaaaaaaaaaaaa1" "Alice" "alice@example.com" "a.png".
Definition bob : User.t :=
  User.mk "bbbbbbbbbbbbbbbbbbbbbbb2" "Bob" "bob@example.com" "b.png".
Definition carol : User.t :=
  User.mk "ccccccccccccccccccccccc3" "Carol" "carol@example.com" "c.png".

Definition aliceId : ObjectId := User._id alice.
Definition bobId : ObjectId := User._id bob.
Definition carolId : ObjectId := User._id carol.

Definition conn1Id : ObjectId := "c0c0c0c0c0c0c0c0c0c0c001".
Definition conn2Id : ObjectId := "c0c0c0c0c0c0c0c0c0c0c002".

(** Alice has asked Bob. *)
Definition conn1 : Connection.t :=
  Connection.mk conn1Id aliceId bobId PENDING (Some "hi") 10 10.

Definition dbUsers : DB := mkDB [alice; bob; carol] [] [] [].
Definition dbPending : DB := mkDB [alice; bob; carol] [] [conn1] [].
Definition dbAccepted : DB :=
  mkDB [alice; bob; carol] [] [Connection.touch (Connection.set_status conn1 ACCEPTED) 20] [].

Definition skill1Id : ObjectId := "5c5c5c5c5c5c5c5c5c5c5c01".
Definition skill2Id : ObjectId := "5c5c5c5c5c5c5c5c5c5c5c02".
Definition skill3Id : ObjectId := "5c5c5c5c5c5c5c5c5c5c5c03".

Definition dbPython : DB := mkDB [alice] [Skill.mk skill1Id "python"] [] [].
Definition dbJavaScript : DB := mkDB [alice] [Skill.mk skill1Id "JavaScript"] [] [].
Definition dbTwoSkills : DB :=
  mkDB [alice] [Skill.mk skill1Id "Python"; Skill.mk skill2Id "Java"] [] [].

(** A concurrent resolution of the same new name that creates it first. *)
Definition rustWinner (ss : list Skill.t) : list Skill.t :=
  ss ++ [Skill.mk skill2Id "Rust"].

(** ** The rest of the skill controller *)

Module SkillQueries.

Fixpoint findByIdAndDelete (id : ObjectId) (ss : list Skill.t) : list Skill.t :=
  match ss with
  | [] => []
  | d :: r => if Skill._id d =? id then r else d :: findByIdAndDelete id r
  end.

(** [sort({ name: 1 })]: by name in the store's binary order, stable. *)
Fixpoint insertByName (s : Skill.t) (l : list Skill.t) : list Skill.t :=
  match l with
  | [] => [s]
  | d :: r =>
      if String.leb (Skill.name s) (Skill.name d) then s :: l
      else d :: insertByName s r
  end.

Definition sortByName (l : list Skill.t) : list Skill.t :=
  fold_right insertByName [] l.

End SkillQueries.

(** A body that is an array of documents, or an error. *)
Inductive Reply (A : Type) :=
| Items (l : list A)
| Failure (error : string).
Arguments Items {A} l.
Arguments Failure {A} error.

(** ** The rest of the message model: a conversation as it is read *)

Module Conversation.

(** What [populate(path, 'name email')] puts in place of a reference. *)
Record party := mkparty { _id : ObjectId; name : string; email : string }.

Definition partyOf (u : User.t) : party :=
  mkparty (User._id u) (User.name u) (User.email u).

Record doc := mkdoc {
  fields : Message.t;
  senderDoc : option party;
  recipientDoc : option party
}.

Definition populate (us : list User.t) (m : Message.t) : doc :=
  mkdoc m (option_map partyOf (User.findById (Message.sender m) us))
          (option_map partyOf (User.findById (Message.recipient m) us)).

(** The query of [getMessages]: either direction between the two users,
    named by identifiers in printed form. *)
Definition between (userId otherUserId : ObjectId) (m : Message.t) : bool :=
  ((Message.sender m =? userId) && (Message.recipient m =? otherUserId))
  || ((Message.sender m =? otherUserId) && (Message.recipient m =? userId)).

(** [sort({ createdAt: 1 })]: oldest first, stable. *)
Fixpoint insertAsc (m : Message.t) (l : list Message.t) : list Message.t :=
  match l with
  | [] => [m]
  | d :: r =>
      if (Message.createdAt m <=? Message.createdAt d)%nat then m :: l
      else d :: insertAsc m r
  end.

Definition sortAsc (l : list Message.t) : list Message.t :=
  fold_right insertAsc [] l.

End Conversation.

(** ** index.ts: the map of online users and the socket handlers *)

Module OnlineUsers.

(** A JavaScript [Map] from user identifiers to socket identifiers: its
    entries in insertion order, one per key. *)
Definition t := list (string * string).

Definition get (k : string) (m : t) : option string :=
  option_map snd (find (fun e => fst e =? k) m).

(** [Map.prototype.set]: an existing key keeps its place. *)
Fixpoint set (k v : string) (m : t) : t :=
  match m with
  | [] => [(k, v)]
  | e :: r => if fst e =? k then (k, v) :: r else e :: set k v r
  end.

Fixpoint delete (k : string) (m : t) : t :=
  match m with
  | [] => []
  | e :: r => if fst e =? k then r else e :: delete k r
  end.

(** [socket.on('identify')]. *)
Definition identify (userId socketId : string) (m : t) : t := set userId socketId m.

(** [socket.on('disconnect')]: the first entry of the socket is deleted,
    and the loop stops there. *)
Definition disconnect (socketId : string) (m : t) : t :=
  match find (fun e => snd e =? socketId) m with
  | Some e => delete (fst e) m
  | None => m
  end.

End OnlineUsers.

(** What a handler emits: to which socket, and what. *)
Inductive Emitted :=
| ChatMessage (toSocket : string) (_id : ObjectId) (sender recipient : string)
    (content : string) (createdAt : nat)
| ErrorEvent (toSocket : string) (error : string).

(** ** Invariants the controllers keep *)

(** No text occurs twice. *)
Fixpoint distinctb (l : list string) : bool :=
  match l with
  | [] => true
  | x :: r => negb (existsb (String.eqb x) r) && distinctb r
  end.

Definition connectionIdsDistinct (cs : list Connection.t) : bool :=
  distinctb (map Connection._id cs).

Definition skillIdsDistinct (ss : list Skill.t) : bool :=
  distinctb (map Skill._id ss).

(** The uniqueness the store does enforce on skills: of the exact name. *)
Definition skillNamesDistinct (ss : list Skill.t) : bool :=
  distinctb (map Skill.name ss).

Definition newestFirst (c d : Connection.t) : Prop :=
  Connection.createdAt d <= Connection.createdAt c.

Definition oldestFirst (m n : Message.t) : Prop :=
  Message.createdAt m <= Message.createdAt n.

Definition byName (s d : Skill.t) : Prop :=
  String.leb (Skill.name s) (Skill.name d) = true.

Section MoreControllers.

Variable isValid : string -> bool.

(** *** controllers/skill.controller.ts, continued *)

Definition getAllSkills (db : DB) : nat * Reply Skill.t :=
  (200, Items (SkillQueries.sortByName (skills db))).

(** [Skill.findById] casts the identifier of the route. *)
Definition getSkillById (id : string) (db : DB) : Response :=
  if negb (isValid id) then json 500 (Err "Cast to ObjectId failed")
  else match Skill.findById id (skills db) with
  | None => json 404 (Err "Skill not found")
  | Some skill => json 200 (SkillJson skill)
  end.

Definition deleteSkill (id : string) (db : DB) : Response * DB :=
  if negb (isValid id) then (json 500 (Err "Cast to ObjectId failed"), db)
  else match Skill.findById id (skills db) with
  | None => (json 404 (Err "Skill not found"), db)
  | Some _ =>
      (json 200 (Msg "Skill deleted"),
       set_skills db (SkillQueries.findByIdAndDelete id (skills db)))
  end.

(** *** controllers/chat.controller.ts, continued *)

Definition getMessages (userId : ObjectId) (otherUserId : string) (db : DB)
    : nat * Reply Conversation.doc :=
  if negb (isValid otherUserId) then (400, Failure "Invalid user ID")
  else
    (200, Items (map (Conversation.populate (users db))
                   (Conversation.sortAsc
                      (filter (Conversation.between userId otherUserId)
                         (messages db))))).

(** *** index.ts: [socket.on('chat message')]

    [Message.create] casts the two identifiers of the event, which the
    handler does not validate. *)
Definition onChatMessage (oid : ObjectId) (now : nat) (socketId : string)
    (senderId recipientId : string) (content : option string)
    (online : OnlineUsers.t) (db : DB) : list Emitted * DB :=
  let created :=
    if negb (isValid senderId) || negb (isValid recipientId)
    then Throw (ValidationError "Message validation failed: Cast to ObjectId failed")
    else Message.create oid now senderId recipientId
           (match content with Some c => c | None => "" end) (messages db) in
  match created with
  | Throw _ => ([ErrorEvent socketId "Failed to send message"], db)
  | Ok (message, ms) =>
      let text := match content with Some c => c | None => "" end in
      let toRecipient :=
        match OnlineUsers.get recipientId online with
        | Some recipientSocketId =>
            if JS.truthy recipientSocketId
            then [ChatMessage recipientSocketId (Message._id message) senderId
                    recipientId text (Message.createdAt message)]
            else []
        | None => []
        end in
      (toRecipient
       ++ [ChatMessage socketId (Message._id message) senderId recipientId text
             (Message.createdAt message)],
       set_messages db ms)
  end.

End MoreControllers.

(** ** More sample data *)

(** Bob has rejected Alice's request. *)
Definition dbRejected : DB :=
  mkDB [alice; bob; carol] []
    [Connection.touch (Connection.set_status conn1 REJECTED) 20] [].

(** Alice's account is gone, her request to Bob is still stored. *)
Definition dbOrphan : DB := mkDB [bob; carol] [] [conn1] [].

(** Bob has rejected Carol, Alice has asked Bob, and Carol and Alice are
    connected. *)
Definition conn3Id : ObjectId := "c0c0c0c0c0c0c0c0c0c0c003".

Definition conn2 : Connection.t :=
  Connection.mk conn2Id carolId aliceId ACCEPTED None 12 14.

Definition conn3 : Connection.t :=
  Connection.mk conn3Id carolId bobId REJECTED (Some "hello") 5 7.

Definition dbThree : DB := mkDB [alice; bob; carol] [] [conn3; conn1; conn2] [].

Definition dbThreeSkills : DB :=
  mkDB [alice]
    [Skill.mk skill1Id "Python"; Skill.mk skill2Id "Java"; Skill.mk skill3Id "Rust"]
    [] [].

(** Alice's identifier, respelled in upper case. *)
Definition aliceIdUpper : string := "AAAAAAAAAAAAAAAAAAAAAAA1".

Definition msg1Id : ObjectId := "d0d0d0d0d0d0d0d0d0d0d001".
Definition msg2Id : ObjectId := "d0d0d0d0d0d0d0d0d0d0d002".
Definition msg3Id : ObjectId := "d0d0d0d0d0d0d0d0d0d0d003".

(** Alice has written to Bob after Bob wrote to her, and to Carol between
    the two. *)
Definition msgAB : Message.t := Message.mk msg1Id aliceId bobId "hello" false 30.
Definition msgBA : Message.t := Message.mk msg2Id bobId aliceId "hi" false 20.
Definition msgAC : Message.t := Message.mk msg3Id aliceId carolId "hey" false 25.

Definition dbChat : DB := mkDB [alice; bob; carol] [] [] [msgAB; msgBA; msgAC].

Definition sockA : string := "socket-a".
Definition sockB : string := "socket-b".

Definition onlineBob : OnlineUsers.t := [(bobId, sockB)].

(** * Properties *)

(** ** Identifiers, lookups and the invariants *)

Lemma status_eqb_eq (a b : ConnectionStatus) : status_eqb a b = true <-> a = b.
Proof. destruct a, b; simpl; split; intro H; try reflexivity; discriminate H. Qed.

Lemma between_comm (a b : ObjectId) (c : Connection.t) :
  Connection.between a b c = Connection.between b a c.
Proof. unfold Connection.between. apply orb_comm. Qed.

Lemma getConnection_comm (a b : ObjectId) (cs : list Connection.t) :
  Connection.getConnection a b cs = Connection.getConnection b a cs.
Proof.
  unfold Connection.getConnection.
  induction cs as [|c r IH]; simpl; [reflexivity|].
  rewrite (between_comm a b c), IH. reflexivity.
Qed.

Lemma between_parties (a b : ObjectId) (c : Connection.t) :
  Connection.between a b c = true ->
  (Connection.requester c = a /\ Connection.recipient c = b)
  \/ (Connection.requester c = b /\ Connection.recipient c = a).
Proof.
  unfold Connection.between. intro H.
  apply orb_true_iff in H.
  destruct H as [H|H]; apply andb_true_iff in H; destruct H as [H1 H2];
    apply String.eqb_eq in H1; apply String.eqb_eq in H2; auto.
Qed.

Lemma between_samePair (a b : ObjectId) (c d : Connection.t) :
  Connection.between a b c = true -> Connection.between a b d = true ->
  samePair c d = true.
Proof.
  intros Hc Hd. unfold samePair.
  destruct (between_parties _ _ _ Hc) as [[-> ->]|[-> ->]].
  - exact Hd.
  - rewrite between_comm. exact Hd.
Qed.

Lemma samePair_sym (c d : Connection.t) : samePair c d = samePair d c.
Proof.
  unfold samePair, Connection.between.
  rewrite (String.eqb_sym (Connection.requester d) (Connection.requester c)).
  rewrite (String.eqb_sym (Connection.recipient d) (Connection.recipient c)).
  rewrite (String.eqb_sym (Connection.requester d) (Connection.recipient c)).
  rewrite (String.eqb_sym (Connection.recipient d) (Connection.requester c)).
  rewrite (andb_comm (Connection.recipient c =? Connection.requester d)).
  reflexivity.
Qed.

Lemma pairUnique_In (cs : list Connection.t) (c d : Connection.t) :
  pairUnique cs = true -> In c cs -> In d cs -> samePair c d = true -> c = d.
Proof.
  induction cs as [|x r IH]; simpl; [contradiction|].
  intros Hu Hc Hd Hs.
  apply andb_true_iff in Hu. destruct Hu as [Hx Hr].
  rewrite forallb_forall in Hx.
  destruct Hc as [->|Hc], Hd as [->|Hd].
  - reflexivity.
  - specialize (Hx _ Hd). rewrite Hs in Hx. discriminate Hx.
  - specialize (Hx _ Hc). rewrite samePair_sym, Hs in Hx. discriminate Hx.
  - exact (IH Hr Hc Hd Hs).
Qed.

Lemma pairUnique_snoc (cs : list Connection.t) (c : Connection.t) :
  pairUnique cs = true ->
  Connection.getConnection (Connection.requester c) (Connection.recipient c) cs = None ->
  pairUnique (cs ++ [c]) = true.
Proof.
  unfold Connection.getConnection.
  induction cs as [|x r IH]; simpl; [reflexivity|].
  intros Hu Hn.
  apply andb_true_iff in Hu. destruct Hu as [Hx Hr].
  destruct (Connection.between (Connection.requester c) (Connection.recipient c) x)
    eqn:Hb; [discriminate Hn|].
  rewrite forallb_app, Hx, (IH Hr Hn). simpl.
  rewrite samePair_sym. unfold samePair. rewrite Hb. reflexivity.
Qed.

Lemma findById_id (id : ObjectId) (cs : list Connection.t) (c : Connection.t) :
  Connection.findById id cs = Some c -> Connection._id c = id /\ In c cs.
Proof.
  unfold Connection.findById. intro H.
  apply find_some in H. destruct H as [Hin He].
  apply String.eqb_eq in He. auto.
Qed.

(** The record a lookup finds is the first of its identifier; deleting
    by that identifier takes it out, and saving a record of that identifier
    puts it in its place. *)
Lemma findById_split (id : ObjectId) (cs : list Connection.t) (c : Connection.t) :
  Connection.findById id cs = Some c ->
  exists l1 l2,
    cs = l1 ++ c :: l2
    /\ (forall d, In d l1 -> Connection._id d <> id)
    /\ Connection.findByIdAndDelete id cs = l1 ++ l2
    /\ (forall c', Connection._id c' = id ->
          Connection.updateOne c' cs = l1 ++ c' :: l2).
Proof.
  unfold Connection.findById.
  induction cs as [|x r IH]; simpl; [discriminate|].
  destruct (Connection._id x =? id) eqn:E.
  - intro H. injection H as ->. exists [], r.
    split; [reflexivity|]. split; [intros d []|]. split; [reflexivity|].
    intros c' <-. rewrite E. reflexivity.
  - intro H. destruct (IH H) as [l1 [l2 [Hcs [Hl1 [Hdel Hupd]]]]].
    exists (x :: l1), l2.
    split; [rewrite Hcs; reflexivity|].
    split.
    { intros d [<-|Hd]; [apply String.eqb_neq; exact E|exact (Hl1 d Hd)]. }
    split; [rewrite Hdel; reflexivity|].
    intros c' Hc'. rewrite Hc', E, (Hupd c' Hc'). reflexivity.
Qed.

Lemma split_determined (id : ObjectId) (cs l1 l2 : list Connection.t)
    (c : Connection.t) :
  cs = l1 ++ c :: l2 ->
  (forall d, In d l1 -> Connection._id d <> id) ->
  Connection._id c = id ->
  Connection.findByIdAndDelete id cs = l1 ++ l2
  /\ (forall c', Connection._id c' = id ->
        Connection.updateOne c' cs = l1 ++ c' :: l2).
Proof.
  intros -> Hl1 Hid.
  induction l1 as [|x l1 IH]; simpl.
  - rewrite Hid, String.eqb_refl. split; [reflexivity|].
    intros c' ->. rewrite String.eqb_refl. reflexivity.
  - assert (E : (Connection._id x =? id) = false).
    { apply String.eqb_neq. apply Hl1. left. reflexivity. }
    destruct IH as [IH1 IH2]; [intros d Hd; apply Hl1; right; exact Hd|].
    rewrite E, IH1. split; [reflexivity|].
    intros c' Hc'. rewrite Hc', E, (IH2 c' Hc'). reflexivity.
Qed.

Lemma findById_none (id : ObjectId) (cs : list Connection.t) :
  Connection.findById id cs = None <->
  forall d, In d cs -> Connection._id d <> id.
Proof.
  unfold Connection.findById. split.
  - intros H d Hd. apply String.eqb_neq. exact (find_none _ _ H d Hd).
  - intro H. induction cs as [|x r IH]; simpl; [reflexivity|].
    assert (E : (Connection._id x =? id) = false).
    { apply String.eqb_neq. apply H. left. reflexivity. }
    rewrite E. apply IH. intros d Hd. apply H. right. exact Hd.
Qed.

Lemma noSelfConnection_In (cs : list Connection.t) (c : Connection.t) :
  noSelfConnection cs = true -> In c cs ->
  Connection.requester c <> Connection.recipient c.
Proof.
  unfold noSelfConnection. intros H Hin.
  rewrite forallb_forall in H. specialize (H c Hin).
  apply negb_true_iff in H. apply String.eqb_neq. exact H.
Qed.

Lemma findById_updateOne (id : ObjectId) (cs : list Connection.t) (c c' : Connection.t) :
  Connection.findById id cs = Some c -> Connection._id c' = id ->
  Connection.findById id (Connection.updateOne c' cs) = Some c'.
Proof.
  unfold Connection.findById. intros H <-.
  induction cs as [|x r IH]; simpl in *; [discriminate H|].
  destruct (Connection._id x =? Connection._id c') eqn:E; simpl.
  - rewrite String.eqb_refl. reflexivity.
  - rewrite E. exact (IH H).
Qed.

(** The invariant reads the parties of the records only, and a saved
    record keeps its parties. *)
Lemma samePair_parties (x x' d d' : Connection.t) :
  Connection.requester x = Connection.requester x' ->
  Connection.recipient x = Connection.recipient x' ->
  Connection.requester d = Connection.requester d' ->
  Connection.recipient d = Connection.recipient d' ->
  samePair x d = samePair x' d'.
Proof.
  intros E1 E2 E3 E4. unfold samePair, Connection.between.
  rewrite E1, E2, E3, E4. reflexivity.
Qed.

Lemma pairUnique_parties (cs cs' : list Connection.t) :
  Forall2 (fun c c' => Connection.requester c = Connection.requester c'
                       /\ Connection.recipient c = Connection.recipient c') cs cs' ->
  pairUnique cs = pairUnique cs'.
Proof.
  induction 1 as [|x x' r r' [E1 E2] Hr IH]; simpl; [reflexivity|].
  rewrite IH. f_equal.
  clear IH. induction Hr as [|d d' t t' [E3 E4] _ IHt]; simpl; [reflexivity|].
  rewrite IHt, (samePair_parties x x' d d'); auto.
Qed.

Lemma updateOne_parties (cs : list Connection.t) (c c' : Connection.t) :
  Connection.findById (Connection._id c') cs = Some c ->
  Connection.requester c' = Connection.requester c ->
  Connection.recipient c' = Connection.recipient c ->
  Forall2 (fun c c' => Connection.requester c = Connection.requester c'
                       /\ Connection.recipient c = Connection.recipient c')
          (Connection.updateOne c' cs) cs.
Proof.
  unfold Connection.findById. intros Hf Hq Hp.
  assert (Hrefl : forall l : list Connection.t,
    Forall2 (fun c c' => Connection.requester c = Connection.requester c'
                         /\ Connection.recipient c = Connection.recipient c') l l).
  { induction l; constructor; auto. }
  induction cs as [|x r IH]; simpl in *; [constructor|].
  destruct (Connection._id x =? Connection._id c') eqn:E.
  - injection Hf as ->. constructor; auto.
  - constructor; auto.
Qed.

Lemma pairUnique_updateOne (cs : list Connection.t) (c c' : Connection.t) :
  pairUnique cs = true ->
  Connection.findById (Connection._id c') cs = Some c ->
  Connection.requester c' = Connection.requester c ->
  Connection.recipient c' = Connection.recipient c ->
  pairUnique (Connection.updateOne c' cs) = true.
Proof.
  intros Hu Hf Hq Hp.
  rewrite (pairUnique_parties _ cs); [exact Hu|].
  exact (updateOne_parties cs c c' Hf Hq Hp).
Qed.

(** Deleting a record leaves no other record on its pair. *)
Lemma delete_leaves_none (id : ObjectId) (cs : list Connection.t) (c : Connection.t) :
  pairUnique cs = true ->
  Connection.findById id cs = Some c ->
  forall d, In d (Connection.findByIdAndDelete id cs) -> samePair c d = false.
Proof.
  unfold Connection.findById.
  induction cs as [|x r IH]; simpl; [discriminate|].
  intros Hu Hf d Hd.
  apply andb_true_iff in Hu. destruct Hu as [Hx Hr].
  rewrite forallb_forall in Hx.
  destruct (Connection._id x =? id) eqn:E.
  - injection Hf as <-. apply negb_true_iff. exact (Hx d Hd).
  - destruct Hd as [<-|Hd].
    + rewrite samePair_sym. apply negb_true_iff. apply Hx.
      apply find_some in Hf. tauto.
    + exact (IH Hr Hf d Hd).
Qed.

Lemma pairUnique_delete (id : ObjectId) (cs : list Connection.t) :
  pairUnique cs = true -> pairUnique (Connection.findByIdAndDelete id cs) = true.
Proof.
  induction cs as [|x r IH]; simpl; [reflexivity|].
  intro Hu. apply andb_true_iff in Hu. destruct Hu as [Hx Hr].
  destruct (Connection._id x =? id); [exact Hr|].
  simpl. rewrite (IH Hr), andb_true_r.
  rewrite forallb_forall in *. intros d Hd. apply Hx.
  clear - Hd. induction r as [|y r IHr]; simpl in *; [contradiction|].
  destruct (Connection._id y =? id); [right; exact Hd|].
  destruct Hd as [->|Hd]; [left; reflexivity|right; auto].
Qed.

(** ** The connection state machine *)

Section ConnectionProperties.

Variable isValid : string -> bool.

Lemma save_status (now : nat) (c : Connection.t) (s : ConnectionStatus)
    (cs : list Connection.t) :
  Connection.requester c <> Connection.recipient c ->
  Connection.save now (Connection.set_status c s) cs
  = Ok (Connection.touch (Connection.set_status c s) now,
        Connection.updateOne (Connection.touch (Connection.set_status c s) now) cs).
Proof.
  intro Hne. unfold Connection.save, Connection.preSave. simpl.
  apply String.eqb_neq in Hne. rewrite Hne. reflexivity.
Qed.

Lemma save_self (now : nat) (c : Connection.t) (s : ConnectionStatus)
    (cs : list Connection.t) :
  Connection.requester c = Connection.recipient c ->
  Connection.save now (Connection.set_status c s) cs
  = Throw (Error "Cannot send connection request to yourself").
Proof.
  intro He. unfold Connection.save, Connection.preSave. simpl.
  apply String.eqb_eq in He. rewrite He. reflexivity.
Qed.

(** A malformed identifier is refused before any lookup. *)
Lemma accept_malformed_id (now : nat) (userId : ObjectId) (connectionId : string)
    (db : DB) :
  isValid connectionId = false ->
  acceptConnectionRequest isValid now userId connectionId db
  = (json 400 (Err "Invalid connection ID"), db).
Proof.
  intro Hv. unfold acceptConnectionRequest. rewrite Hv. reflexivity.
Qed.

(** C5.  Accepting, for a connection identifier in printed form, in a
    database that holds no record from a user to themselves.  The lookup
    finds nothing exactly when no stored record has the identifier, and
    the answer is then 404; it is 403 when the acting user is not the
    recipient of the record found, 400 (surfacing the status) when the
    recipient acts on a record that is not pending.  The answer is 200
    exactly when a record has the identifier, the acting user is its
    recipient and it is pending; that record, the first of its identifier
    and no other, is then stored with status accepted and the time of the
    change, everything else is as it was, and the answer carries the
    record with both parties populated.  Every other answer leaves the
    database as it was. *)
Theorem accept_contract (now : nat) (userId : ObjectId) (connectionId : string)
    (db : DB) :
  isValid connectionId = true ->
  canonicalId connectionId = true ->
  noSelfConnection (connections db) = true ->
  let r := acceptConnectionRequest isValid now userId connectionId db in
  (Connection.findById connectionId (connections db) = None <->
     forall d, In d (connections db) -> Connection._id d <> connectionId)
  /\ (Connection.findById connectionId (connections db) = None ->
     r = (json 404 (Err "Connection request not found"), db))
  /\ (forall c, Connection.findById connectionId (connections db) = Some c ->
       (Connection.recipient c <> userId ->
          r = (json 403 (Err "You can only accept requests sent to you"), db))
       /\ (Connection.recipient c = userId -> Connection.status c <> PENDING ->
          r = (json 400 (ErrStatus "Connection request is not pending"
                           (Connection.status c)), db))
       /\ (Connection.recipient c = userId -> Connection.status c = PENDING ->
           let c' := Connection.mk connectionId (Connection.requester c)
                       (Connection.recipient c) ACCEPTED (Connection.message c)
                       (Connection.createdAt c) now in
           exists l1 l2,
             connections db = l1 ++ c :: l2
             /\ (forall d, In d l1 -> Connection._id d <> connectionId)
             /\ r = (json 200 (MsgConnection "Connection request accepted successfully"
                                 (Connection.mkdoc c'
                                    (Connection.Populated
                                       (User.findById (Connection.requester c)
                                          (users db)))
                                    (Connection.Populated
                                       (User.findById (Connection.recipient c)
                                          (users db))))),
                     mkDB (users db) (skills db) (l1 ++ c' :: l2) (messages db))))
  /\ (code (fst r) = 200 <->
       exists c, Connection.findById connectionId (connections db) = Some c
         /\ Connection.recipient c = userId /\ Connection.status c = PENDING)
  /\ (code (fst r) <> 200 -> snd r = db).
Proof.
  intros Hv _ Hns r. subst r.
  split; [apply findById_none|].
  unfold acceptConnectionRequest. rewrite Hv.
  cbv beta iota delta [negb].
  destruct (Connection.findById connectionId (connections db)) as [c|] eqn:Hf.
  2:{ split; [reflexivity|]. split; [discriminate|].
      split; [|reflexivity].
      split; [discriminate|]. intros [c [H _]]. discriminate H. }
  split; [discriminate|].
  destruct (findById_id _ _ _ Hf) as [Hid Hin].
  destruct (String.eqb_spec (Connection.recipient c) userId) as [Hr|Hr].
  2:{ split; [|split; [|reflexivity]].
      - intros c0 H0. injection H0 as <-.
        split; [reflexivity|]. split; intros; contradiction.
      - split; [discriminate|].
        intros [c0 [H0 [H1 _]]]. injection H0 as <-. contradiction. }
  destruct (status_eqb (Connection.status c) PENDING) eqn:Hs.
  2:{ assert (Hn : Connection.status c <> PENDING).
      { intro H. apply status_eqb_eq in H. rewrite H in Hs. discriminate Hs. }
      split; [|split; [|reflexivity]].
      - intros c0 H0. injection H0 as <-.
        split; [intros; contradiction|]. split; [reflexivity|].
        intros; contradiction.
      - split; [discriminate|].
        intros [c0 [H0 [_ H2]]]. injection H0 as <-. contradiction. }
  apply status_eqb_eq in Hs.
  rewrite (save_status now c ACCEPTED _ (noSelfConnection_In _ _ Hns Hin)).
  destruct (findById_split _ _ _ Hf) as [l1 [l2 [Hcs [Hl1 [_ Hupd]]]]].
  split; [|split].
  - intros c0 H0. injection H0 as <-.
    split; [intros; contradiction|]. split; [intros; contradiction|].
    intros _ _. cbv zeta. exists l1, l2.
    split; [exact Hcs|]. split; [exact Hl1|].
    assert (Hmk : Connection.touch (Connection.set_status c ACCEPTED) now
                  = Connection.mk connectionId (Connection.requester c)
                      (Connection.recipient c) ACCEPTED (Connection.message c)
                      (Connection.createdAt c) now).
    { unfold Connection.touch, Connection.set_status.
      cbn [Connection._id Connection.requester Connection.recipient
           Connection.status Connection.message Connection.createdAt].
      rewrite Hid. reflexivity. }
    rewrite <- Hmk. unfold set_connections.
    rewrite (Hupd (Connection.touch (Connection.set_status c ACCEPTED) now) Hid).
    reflexivity.
  - split; [intros _; exists c; auto|reflexivity].
  - intro H. exfalso. apply H. reflexivity.
Qed.

Lemma create_ok (oid : ObjectId) (now : nat) (a b : ObjectId)
    (m : option string) (cs cs' : list Connection.t) (c : Connection.t) :
  Connection.create oid now a b m cs = Ok (c, cs') ->
  c = Connection.mk oid a b PENDING m now now /\ cs' = cs ++ [c].
Proof.
  unfold Connection.create, Connection.insertOne, bind.
  destruct (Connection.validate _); [|discriminate].
  destruct (Connection.preSave _); [|discriminate].
  destruct (existsb _ cs); [discriminate|].
  intro H. injection H as <- <-. auto.
Qed.

(** Sending a request keeps at most one record per unordered pair. *)
Lemma send_preserves_pairUnique (oid : ObjectId) (now : nat) (a : ObjectId)
    (b : string) (m : option string) (db : DB) :
  pairUnique (connections db) = true ->
  pairUnique (connections (snd (sendConnectionRequest isValid oid now a b m db))) = true.
Proof.
  intro Hu. unfold sendConnectionRequest.
  destruct (negb (isValid b)); [exact Hu|].
  destruct (User.findById b (users db)); [|exact Hu].
  destruct (a =? b); [exact Hu|].
  destruct (Connection.getConnection a b (connections db)) eqn:Hg; [exact Hu|].
  destruct (Connection.create oid now a b (trimmedOrUndefined m) (connections db))
    as [[c cs']|e] eqn:Hc; [|exact Hu].
  destruct (create_ok _ _ _ _ _ _ _ _ Hc) as [Hcv ->].
  cbn [snd connections set_connections].
  apply pairUnique_snoc; [exact Hu|].
  rewrite Hcv. exact Hg.
Qed.

(** C1.  Between two distinct existing users, once a record relates them
    (in either direction, in any status), a request from either one to the
    other is refused with 400 "Connection already exists" carrying the
    status of that record, and the database is left as it was; and no
    request, whoever sends it, breaks the invariant that an unordered pair
    has at most one record. *)
Theorem send_existing_conflict (A B : ObjectId) (c : Connection.t) (db : DB) :
  isValid A = true -> isValid B = true ->
  User.findById A (users db) <> None -> User.findById B (users db) <> None ->
  A <> B ->
  pairUnique (connections db) = true ->
  In c (connections db) -> Connection.between A B c = true ->
  (forall oid now message,
     sendConnectionRequest isValid oid now A B message db
     = (json 400 (ErrStatus "Connection already exists" (Connection.status c)), db)
     /\ sendConnectionRequest isValid oid now B A message db
        = (json 400 (ErrStatus "Connection already exists" (Connection.status c)), db))
  /\ (forall oid now X Y message,
        pairUnique (connections
                      (snd (sendConnectionRequest isValid oid now X Y message db)))
        = true).
Proof.
  intros HvA HvB HuA HuB Hne Hu Hin Hb.
  split; [|intros; apply send_preserves_pairUnique; exact Hu].
  assert (Hg : Connection.getConnection A B (connections db) = Some c).
  { unfold Connection.getConnection.
    destruct (find (Connection.between A B) (connections db)) as [d|] eqn:Hf.
    - apply find_some in Hf. destruct Hf as [Hd Hbd].
      f_equal. symmetry.
      apply (pairUnique_In (connections db)); auto.
      apply (between_samePair A B); assumption.
    - rewrite (find_none _ _ Hf c Hin) in Hb. discriminate Hb. }
  intros oid now message. unfold sendConnectionRequest.
  rewrite HvA, HvB. cbv beta iota delta [negb].
  destruct (User.findById A (users db)); [|contradiction].
  destruct (User.findById B (users db)); [|contradiction].
  assert (Hab : (A =? B) = false) by (apply String.eqb_neq; exact Hne).
  assert (Hba : (B =? A) = false) by (apply String.eqb_neq; congruence).
  rewrite Hab, Hba, <- (getConnection_comm A B), Hg. auto.
Qed.


(** C7.  For a connection identifier in printed form, in a database whose
    stored identifiers are well formed and whose unordered pairs have at
    most one record.  The lookup finds nothing exactly when no stored
    record has the identifier.  Removing answers 200 exactly when a record
    has the given id, the acting user is its requester or its recipient,
    and its status is accepted; that record, and no other, is then deleted
    and everything else is as it was, no stored record relates the two
    parties in either direction any more, and a status lookup by either
    party about the other answers "none".  Every other answer leaves the
    database as it was. *)
Theorem remove_contract (userId : ObjectId) (connectionId : string) (db : DB) :
  canonicalId connectionId = true ->
  idsValid isValid (connections db) = true ->
  pairUnique (connections db) = true ->
  let r := removeConnection isValid userId connectionId db in
  (Connection.findById connectionId (connections db) = None <->
     forall d, In d (connections db) -> Connection._id d <> connectionId)
  /\ (code (fst r) = 200 <->
     exists c, Connection.findById connectionId (connections db) = Some c
       /\ (userId = Connection.requester c \/ userId = Connection.recipient c)
       /\ Connection.status c = ACCEPTED)
  /\ (forall c, Connection.findById connectionId (connections db) = Some c ->
        code (fst r) = 200 ->
        (exists l1 l2,
           connections db = l1 ++ c :: l2
           /\ (forall d, In d l1 -> Connection._id d <> connectionId)
           /\ r = (json 200 (Msg "Connection removed successfully"),
                   mkDB (users db) (skills db) (l1 ++ l2) (messages db)))
        /\ ~ In c (connections (snd r))
        /\ (forall d, In d (connections (snd r)) ->
              ~ (Connection.requester d = Connection.requester c
                 /\ Connection.recipient d = Connection.recipient c)
              /\ ~ (Connection.requester d = Connection.recipient c
                    /\ Connection.recipient d = Connection.requester c))
        /\ Connection.getConnection (Connection.requester c) (Connection.recipient c)
             (connections (snd r)) = None
        /\ forall X Y,
             (X = Connection.requester c /\ Y = Connection.recipient c)
             \/ (X = Connection.recipient c /\ Y = Connection.requester c) ->
             isValid Y = true -> User.findById Y (users db) <> None ->
             getConnectionStatus isValid X Y (snd r)
             = (json 200 (StatusNone "none" "No connection exists"), snd r))
  /\ (code (fst r) <> 200 -> snd r = db).
Proof.
  intros _ Hids Hu r. subst r.
  split; [apply findById_none|].
  unfold removeConnection.
  destruct (Connection.findById connectionId (connections db)) as [c|] eqn:Hf.
  2:{ destruct (negb (isValid connectionId)); cbn [fst snd code].
      all: split; [split; [discriminate|intros [c [H _]]; discriminate H]|].
      all: split; [intros c H; discriminate H|reflexivity]. }
  destruct (findById_id _ _ _ Hf) as [Hid Hin].
  assert (Hv : isValid connectionId = true).
  { unfold idsValid in Hids. rewrite forallb_forall in Hids.
    rewrite <- Hid. exact (Hids c Hin). }
  rewrite Hv. cbv beta iota delta [negb].
  destruct (String.eqb_spec (Connection.requester c) userId) as [Hq|Hq];
    destruct (String.eqb_spec (Connection.recipient c) userId) as [Hp|Hp];
    cbv beta iota delta [negb andb].
  4:{ split; [split; [discriminate|]|split; [discriminate|reflexivity]].
      intros [c0 [H0 [[H1|H1] _]]]; injection H0 as <-; congruence. }
  all: destruct (status_eqb (Connection.status c) ACCEPTED) eqn:Hs;
    cbv beta iota delta [negb]; cbn [fst snd code].
  all: try (split; [split; [discriminate|]|split; [discriminate|reflexivity]];
            intros [c0 [H0 [_ H2]]]; injection H0 as <-;
            apply status_eqb_eq in H2; congruence).
  all: apply status_eqb_eq in Hs.
  all: split; [split; [intros _; exists c; auto|reflexivity]|].
  all: split; [|intro H; exfalso; apply H; reflexivity].
  all: intros c0 H0 _; injection H0 as <-.
  all: assert (Hnone : forall d,
         In d (Connection.findByIdAndDelete connectionId (connections db)) ->
         samePair c d = false) by (apply delete_leaves_none; assumption).
  all: assert (Hg : Connection.getConnection (Connection.requester c)
                      (Connection.recipient c)
                      (Connection.findByIdAndDelete connectionId (connections db))
                    = None).
  all: try (unfold Connection.getConnection;
            destruct (find _ _) as [d|] eqn:Hd; [|reflexivity];
            apply find_some in Hd; destruct Hd as [Hd1 Hd2];
            specialize (Hnone d Hd1); unfold samePair in Hnone;
            rewrite Hd2 in Hnone; discriminate Hnone).
  all: split;
    [destruct (findById_split _ _ _ Hf) as [l1 [l2 [Hcs [Hl1 [Hdel _]]]]];
     exists l1, l2; split; [exact Hcs|]; split; [exact Hl1|];
     cbn [snd]; unfold set_connections; rewrite Hdel; reflexivity|].
  all: cbn [connections set_connections].
  all: split; [intro Hc; specialize (Hnone c Hc); unfold samePair in Hnone;
               unfold Connection.between in Hnone;
               rewrite !String.eqb_refl in Hnone; discriminate Hnone|].
  all: split; [intros d Hd; specialize (Hnone d Hd);
               unfold samePair, Connection.between in Hnone;
               apply orb_false_iff in Hnone; destruct Hnone as [N1 N2];
               split; intros [E1 E2];
               [rewrite E1, E2, !String.eqb_refl in N1; discriminate N1
               |rewrite E1, E2, !String.eqb_refl in N2; discriminate N2]|].
  all: split; [exact Hg|].
  all: intros X Y HXY HvY HuY; unfold getConnectionStatus; rewrite HvY;
       cbv beta iota delta [negb]; cbn [users set_connections connections];
       destruct (User.findById Y (users db)); [|contradiction].
  all: destruct HXY as [[-> ->]|[-> ->]];
       [|rewrite getConnection_comm]; rewrite Hg; reflexivity.
Qed.

(** The other transitions keep at most one record per unordered pair:
    accepting and rejecting save a record with its parties unchanged,
    cancelling and removing delete one. *)
Lemma save_preserves_pairUnique (now : nat) (c c' : Connection.t)
    (s : ConnectionStatus) (cs cs' : list Connection.t) :
  pairUnique cs = true ->
  Connection.findById (Connection._id c) cs = Some c ->
  Connection.save now (Connection.set_status c s) cs = Ok (c', cs') ->
  pairUnique cs' = true.
Proof.
  intros Hu Hf. unfold Connection.save, bind.
  destruct (Connection.preSave _); [|discriminate].
  intro H. injection H as <- <-.
  apply (pairUnique_updateOne cs c); auto.
Qed.

Lemma accept_preserves_pairUnique (now : nat) (userId : ObjectId)
    (connectionId : string) (db : DB) :
  pairUnique (connections db) = true ->
  pairUnique (connections (snd (acceptConnectionRequest isValid now userId
                                  connectionId db))) = true.
Proof.
  intro Hu. unfold acceptConnectionRequest.
  destruct (negb (isValid connectionId)); [exact Hu|].
  destruct (Connection.findById connectionId (connections db)) as [c|] eqn:Hf;
    [|exact Hu].
  destruct (negb (Connection.recipient c =? userId)); [exact Hu|].
  destruct (negb (status_eqb (Connection.status c) PENDING)); [exact Hu|].
  destruct (Connection.save _ _ _) as [[c' cs']|e] eqn:Hs; [|exact Hu].
  destruct (findById_id _ _ _ Hf) as [Hid _]. rewrite <- Hid in Hf.
  exact (save_preserves_pairUnique _ _ _ _ _ _ Hu Hf Hs).
Qed.

Lemma reject_preserves_pairUnique (now : nat) (userId : ObjectId)
    (connectionId : string) (db : DB) :
  pairUnique (connections db) = true ->
  pairUnique (connections (snd (rejectConnectionRequest isValid now userId
                                  connectionId db))) = true.
Proof.
  intro Hu. unfold rejectConnectionRequest.
  destruct (negb (isValid connectionId)); [exact Hu|].
  destruct (Connection.findById connectionId (connections db)) as [c|] eqn:Hf;
    [|exact Hu].
  destruct (negb (Connection.recipient c =? userId)); [exact Hu|].
  destruct (negb (status_eqb (Connection.status c) PENDING)); [exact Hu|].
  destruct (Connection.save _ _ _) as [[c' cs']|e] eqn:Hs; [|exact Hu].
  destruct (findById_id _ _ _ Hf) as [Hid _]. rewrite <- Hid in Hf.
  exact (save_preserves_pairUnique _ _ _ _ _ _ Hu Hf Hs).
Qed.

Lemma cancel_preserves_pairUnique (userId : ObjectId) (connectionId : string)
    (db : DB) :
  pairUnique (connections db) = true ->
  pairUnique (connections (snd (cancelConnectionRequest isValid userId
                                  connectionId db))) = true.
Proof.
  intro Hu. unfold cancelConnectionRequest.
  destruct (negb (isValid connectionId)); [exact Hu|].
  destruct (Connection.findById connectionId (connections db)); [|exact Hu].
  destruct (negb (Connection.requester t =? userId)); [exact Hu|].
  destruct (negb (status_eqb (Connection.status t) PENDING)); [exact Hu|].
  apply pairUnique_delete. exact Hu.
Qed.

Lemma remove_preserves_pairUnique (userId : ObjectId) (connectionId : string)
    (db : DB) :
  pairUnique (connections db) = true ->
  pairUnique (connections (snd (removeConnection isValid userId
                                  connectionId db))) = true.
Proof.
  intro Hu. unfold removeConnection.
  destruct (negb (isValid connectionId)); [exact Hu|].
  destruct (Connection.findById connectionId (connections db)); [|exact Hu].
  destruct (negb (Connection.requester t =? userId)
            && negb (Connection.recipient t =? userId)); [exact Hu|].
  destruct (negb (status_eqb (Connection.status t) ACCEPTED)); [exact Hu|].
  apply pairUnique_delete. exact Hu.
Qed.

End ConnectionProperties.

(** ** Trimming *)

Lemma trimEnd_idempotent (s : string) : JS.trimEnd (JS.trimEnd s) = JS.trimEnd s.
Proof.
  induction s as [|c r IH]; [reflexivity|].
  cbn [JS.trimEnd].
  destruct (JS.trimEnd r) as [|c' r'] eqn:E.
  - destruct (JS.isWhiteSpace c) eqn:W; [reflexivity|].
    cbn [JS.trimEnd]. rewrite W. reflexivity.
  - change (JS.trimEnd (String c (String c' r')))
      with (match JS.trimEnd (String c' r') with
            | EmptyString =>
                if JS.isWhiteSpace c then EmptyString else String c EmptyString
            | String a b => String c (String a b)
            end).
    rewrite IH. reflexivity.
Qed.

Lemma trimStart_head (s : string) :
  match JS.trimStart s with
  | EmptyString => True
  | String c _ => JS.isWhiteSpace c = false
  end.
Proof.
  induction s as [|c r IH]; simpl; [exact I|].
  destruct (JS.isWhiteSpace c) eqn:W; [exact IH|exact W].
Qed.

Lemma trimStart_trimEnd (s : string) :
  JS.trimStart (JS.trimEnd (JS.trimStart s)) = JS.trimEnd (JS.trimStart s).
Proof.
  pose proof (trimStart_head s) as H.
  destruct (JS.trimStart s) as [|c r]; [reflexivity|].
  cbn [JS.trimEnd].
  destruct (JS.trimEnd r); try rewrite H; cbn [JS.trimStart]; rewrite H; reflexivity.
Qed.

Lemma trim_idempotent (s : string) : JS.trim (JS.trim s) = JS.trim s.
Proof.
  unfold JS.trim. rewrite trimStart_trimEnd. apply trimEnd_idempotent.
Qed.

Lemma blank_trim (s : string) : blank (Some s) = true <-> JS.trim s = "".
Proof.
  unfold blank, JS.truthy. rewrite !negb_involutive.
  split.
  - intro H. apply orb_true_iff in H. destruct H as [H|H].
    + apply String.eqb_eq in H. subst s. reflexivity.
    + apply String.eqb_eq in H. exact H.
  - intro H. rewrite H. apply orb_true_r.
Qed.

(** ** The skill resolver *)

Lemma find_snoc {A : Type} (p : A -> bool) (l : list A) (x : A) :
  find p l = None -> p x = true -> find p (l ++ [x]) = Some x.
Proof.
  induction l as [|y r IH]; simpl; intros Hn Hx.
  - rewrite Hx. reflexivity.
  - destruct (p y); [discriminate Hn|]. exact (IH Hn Hx).
Qed.

Lemma find_none_iff {A : Type} (p : A -> bool) (l : list A) :
  (forall x, In x l -> p x = false) -> find p l = None.
Proof.
  induction l as [|y r IH]; simpl; intro H; [reflexivity|].
  rewrite (H y (or_introl eq_refl)). apply IH. intros x Hx. apply H. right. exact Hx.
Qed.


Section ResolverProperties.

Variable isValid : string -> bool.
Variable regex_i : string -> option (string -> bool).

(** C8.  A token that is a well-formed identifier comes back unchanged,
    whatever the collection holds (a skill with that identifier or none, a
    skill of that name or none) and whatever other requests do, and the
    collection is left as it was. *)
Theorem resolve_identifier_unchanged (others : list Skill.t -> list Skill.t)
    (oid : ObjectId) (skill : string) (ss : list Skill.t) :
  isValid skill = true ->
  getOrCreateSkill isValid regex_i others oid skill ss = (Ok skill, ss).
Proof.
  intro Hv. unfold getOrCreateSkill. rewrite Hv. reflexivity.
Qed.

(** C2, amended.  When the lookup of a name finds no skill and another
    request then stores a skill of that very name before the creation,
    the store's uniqueness constraint rejects the creation and
    [getOrCreateSkill] does not recover: the E11000 error is what it
    yields, not the winner's identifier, and it adds nothing to the
    collection. *)
Theorem resolve_race_fails (others : list Skill.t -> list Skill.t)
    (oid : ObjectId) (skill : string) (ss : list Skill.t)
    (m : string -> bool) (winner : Skill.t) :
  isValid skill = false ->
  regex_i ("^" ++ JS.trim skill ++ "$") = Some m ->
  Skill.findOne (fun s => m (Skill.name s)) ss = None ->
  JS.trim skill <> "" ->
  In winner (others ss) -> Skill.name winner = JS.trim skill ->
  getOrCreateSkill isValid regex_i others oid skill ss = (Throw E11000, others ss)
  /\ fst (getOrCreateSkill isValid regex_i others oid skill ss)
     <> Ok (Skill._id winner).
Proof.
  intros Hv Hm Hf Hne Hin Hname.
  assert (H : getOrCreateSkill isValid regex_i others oid skill ss
              = (Throw E11000, others ss)).
  { unfold getOrCreateSkill. rewrite Hv, Hm, Hf.
    unfold Skill.create. cbn [Skill.name].
    rewrite trim_idempotent.
    apply String.eqb_neq in Hne. rewrite Hne.
    assert (He : existsb (fun d => (Skill._id d =? oid)
                            || (Skill.name d =? JS.trim skill)) (others ss) = true).
    { apply existsb_exists. exists winner. split; [exact Hin|].
      rewrite Hname, String.eqb_refl. apply orb_true_r. }
    rewrite He. reflexivity. }
  split; [exact H|]. rewrite H. discriminate.
Qed.




End ResolverProperties.

(** ** Direct creation and renaming of skills *)

(** C4.  [createSkill] looks the name up exactly, and the unique index
    compares names exactly: a name that differs from a stored one by case
    only is created (201), and be it "Python" beside "python" or the
    "javascript" beside "JavaScript" of the repository's own test, the
    collection then holds two skills of one name up to case.  [updateSkill]
    renames "Java" to "python" beside "Python" in the same way. *)
Theorem createSkill_admits_case_variant :
  namesUnique (skills dbPython) = true
  /\ createSkill skill2Id (Some "Python") dbPython
     = (json 201 (SkillJson (Skill.mk skill2Id "Python")),
        set_skills dbPython [Skill.mk skill1Id "python"; Skill.mk skill2Id "Python"])
  /\ namesUnique (skills (snd (createSkill skill2Id (Some "Python") dbPython))) = false
  /\ createSkill skill2Id (Some "javascript") dbJavaScript
     = (json 201 (SkillJson (Skill.mk skill2Id "javascript")),
        set_skills dbJavaScript
          [Skill.mk skill1Id "JavaScript"; Skill.mk skill2Id "javascript"])
  /\ namesUnique (skills dbTwoSkills) = true
  /\ updateSkill isHex24 skill2Id (Some "python") dbTwoSkills
     = (json 200 (SkillJson (Skill.mk skill2Id "python")),
        set_skills dbTwoSkills [Skill.mk skill1Id "Python"; Skill.mk skill2Id "python"])
  /\ namesUnique (skills (snd (updateSkill isHex24 skill2Id (Some "python") dbTwoSkills)))
     = false.
Proof. repeat split; vm_compute; reflexivity. Qed.

(** An exact duplicate is refused, as the first test of duplicates expects. *)
Lemma createSkill_exact_duplicate (oid : ObjectId) :
  createSkill oid (Some "JavaScript") dbJavaScript
  = (json 400 (Err "Skill already exists"), dbJavaScript).
Proof. reflexivity. Qed.

(** ** Chat *)

Section ChatProperties.

Variable isValid : string -> bool.

(** The cast changes nothing in an identifier in printed form. *)
Lemma toLowerChar_lowerHex (c : ascii) :
  isLowerHexDigit c = true -> JS.toLowerChar c = c.
Proof.
  unfold isLowerHexDigit, JS.toLowerChar. intro H.
  destruct ((65 <=? nat_of_ascii c) && (nat_of_ascii c <=? 90))%nat eqn:E;
    [|reflexivity].
  exfalso.
  apply andb_true_iff in E. rewrite !Nat.leb_le in E.
  apply orb_true_iff in H. rewrite !andb_true_iff, !Nat.leb_le in H. lia.
Qed.

Lemma castObjectId_printed (s : string) :
  canonicalId s = true -> castObjectId s = s.
Proof.
  unfold canonicalId, castObjectId. intro H.
  apply andb_true_iff in H. destruct H as [_ H].
  induction s as [|c r IH]; simpl in *; [reflexivity|].
  apply andb_true_iff in H. destruct H as [Hc Hr].
  rewrite (toLowerChar_lowerHex c Hc), (IH Hr). reflexivity.
Qed.

(** On a recipient in printed form, the controller with the cast written
    out is the controller on printed identifiers. *)
Lemma sendMessageCast_printed (oid : ObjectId) (now : nat) (senderId : ObjectId)
    (recipientId : string) (content : option string) (db : DB) :
  canonicalId recipientId = true ->
  sendMessageCast isValid oid now senderId recipientId content db
  = sendMessage isValid oid now senderId recipientId content db.
Proof.
  intro H. unfold sendMessageCast, sendMessage.
  rewrite (castObjectId_printed recipientId H). reflexivity.
Qed.

(** On identifiers as they are printed: a message whose sender is its
    recipient is refused with 400 and stores nothing; so is a message
    whose content is missing, empty or white space only; an answer of 201
    stores exactly one message, whose content is the trimmed input; and a
    message between two distinct existing users with content is answered
    so. *)
Theorem sendMessage_validation (oid : ObjectId) (now : nat) (senderId : ObjectId)
    (recipientId : string) (content : option string) (db : DB) :
  let r := sendMessage isValid oid now senderId recipientId content db in
  (senderId = recipientId -> code (fst r) = 400 /\ snd r = db)
  /\ (content = None \/ (exists s, content = Some s /\ JS.trim s = "") ->
      code (fst r) = 400 /\ snd r = db)
  /\ (code (fst r) = 201 ->
      exists s m, content = Some s
        /\ fst r = json 201 (MessageJson m)
        /\ m = Message.mk oid senderId recipientId (JS.trim s) false now
        /\ snd r = set_messages db (messages db ++ [m]))
  /\ (forall s, isValid recipientId = true -> content = Some s ->
      JS.trim s <> "" -> senderId <> recipientId ->
      User.findById senderId (users db) <> None ->
      User.findById recipientId (users db) <> None ->
      (forall m, In m (messages db) -> Message._id m <> oid) ->
      code (fst r) = 201).
Proof.
  intro r. subst r. unfold sendMessage.
  destruct (isValid recipientId) eqn:Hv; cbv beta iota delta [negb].
  2:{ split; [intros _; split; reflexivity|].
      split; [intros _; split; reflexivity|].
      split; [discriminate|]. intros s H. discriminate H. }
  destruct content as [s|].
  2:{ split; [intros _; split; reflexivity|].
      split; [intros _; split; reflexivity|].
      split; [discriminate|]. intros s _ H. discriminate H. }
  destruct (blank (Some s)) eqn:Hb.
  { apply blank_trim in Hb.
    split; [intros _; split; reflexivity|].
    split; [intros _; split; reflexivity|].
    split; [discriminate|].
    intros s0 _ H0 Hne. injection H0 as <-. contradiction. }
  assert (Hne : JS.trim s <> "").
  { intro H. apply blank_trim in H. rewrite H in Hb. discriminate Hb. }
  assert (Hcontent : Some s = None \/ (exists s0, Some s = Some s0 /\ JS.trim s0 = "")
                     -> False).
  { intros [H|[s0 [H0 H1]]]; [discriminate H|].
    injection H0 as <-. contradiction. }
  destruct (String.eqb_spec senderId recipientId) as [He|He].
  { split; [intros _; split; reflexivity|].
    split; [intro H; contradiction|].
    split; [discriminate|]. intros; contradiction. }
  split; [intro; contradiction|].
  split; [intro H; contradiction|].
  unfold Message.create.
  apply String.eqb_neq in Hne. rewrite Hne.
  destruct (User.findById senderId (users db)) as [su|];
    destruct (User.findById recipientId (users db)) as [ru|].
  2-4: split; [discriminate|intros; contradiction].
  destruct (existsb (fun d => Message._id d =? oid) (messages db)) eqn:Hex.
  - split; [discriminate|].
    intros s0 _ _ _ _ _ _ Hfresh. exfalso.
    apply existsb_exists in Hex. destruct Hex as [m [Hm Hid]].
    apply String.eqb_eq in Hid. exact (Hfresh m Hm Hid).
  - split; [|reflexivity].
    intros _. exists s. eexists. repeat split; reflexivity.
Qed.

End ChatProperties.

(** ** The lists of sent and received requests *)

Lemma inspect_is_no_identifier (u : User.t) (s : string) :
  isHex24 s = true -> (inspect u =? s) = false.
Proof.
  intro H. apply String.eqb_neq. intro E. subst s.
  unfold isHex24 in H. apply andb_true_iff in H. destruct H as [_ H].
  unfold inspect in H. cbn [append allHex] in H.
  change (isHexDigit "{") with false in H. discriminate H.
Qed.

Lemma filterM_none {A : Type} (p : A -> result bool) (l : list A) (s : list A) :
  (forall x, In x l -> p x = Ok false \/ exists e, p x = Throw e) ->
  filterM p l = Ok s -> s = [].
Proof.
  revert s. induction l as [|x r IH]; intros s Hp H.
  - injection H as <-. reflexivity.
  - cbn [filterM] in H.
    destruct (Hp x (or_introl eq_refl)) as [E|[e E]]; rewrite E in H;
      cbn [bind] in H; [|discriminate H].
    destruct (filterM p r) as [s'|e]; cbn [bind] in H; [|discriminate H].
    injection H as <-. apply IH; [|reflexivity].
    intros y Hy. apply Hp. right. exact Hy.
Qed.

Lemma populated_toString (o : option User.t) (userId : ObjectId) :
  isHex24 userId = true ->
  (s <- Ref_toString (Connection.Populated o) ;; Ok (s =? userId)) = Ok false
  \/ exists e, (s <- Ref_toString (Connection.Populated o) ;; Ok (s =? userId))
               = Throw e.
Proof.
  intro Hv. destruct o as [u|]; cbn [Ref_toString bind].
  - left. rewrite (inspect_is_no_identifier u userId Hv). reflexivity.
  - right. eexists. reflexivity.
Qed.

(** With a well-formed identifier of the acting user, neither comparison
    of [getAllConnectionRequests] ever holds: the populated references
    print as documents. *)
Lemma all_requests_lists_empty (userId : ObjectId) (status : option string)
    (db : DB) (n : nat) (sent received all : list Connection.doc) (db' : DB) :
  isHex24 userId = true ->
  getAllConnectionRequests userId status db
  = (json 200 (AllRequests n sent received all), db') ->
  sent = [] /\ received = [] /\ n = List.length all.
Proof.
  intros Hv. unfold getAllConnectionRequests, Connection.getUserConnections.
  set (cs := Connection.sortDesc _). clearbody cs.
  set (docs := map _ cs).
  assert (Hdocs : forall d, In d docs ->
            exists o o', Connection.requesterRef d = Connection.Populated o
                         /\ Connection.recipientRef d = Connection.Populated o').
  { intros d Hd. apply in_map_iff in Hd. destruct Hd as [c [<- _]].
    eexists. eexists. split; reflexivity. }
  clearbody docs.
  unfold bind at 1 3.
  destruct (filterM _ docs) as [s|e] eqn:E1; [|discriminate].
  destruct (filterM _ docs) as [s'|e] eqn:E2 in |- *; [|discriminate].
  intro H. injection H as <- <- <- <- <-.
  apply filterM_none in E1; [apply filterM_none in E2|].
  - auto.
  - intros d Hd. destruct (Hdocs d Hd) as [o [o' [_ ->]]].
    exact (populated_toString o' userId Hv).
  - intros d Hd. destruct (Hdocs d Hd) as [o [o' [-> _]]].
    exact (populated_toString o userId Hv).
Qed.

(** C10.  Alice has asked Bob, and each of them lists all requests: the
    answer counts one connection and returns it under [all], with [sent]
    and [received] both empty, so the request is in neither list and the
    count is not the sum of their lengths. *)
Theorem all_requests_not_partitioned :
  noSelfConnection (connections dbPending) = true
  /\ getAllConnectionRequests aliceId None dbPending
     = (json 200 (AllRequests 1 [] [] [populateBoth dbPending conn1]), dbPending)
  /\ getAllConnectionRequests bobId None dbPending
     = (json 200 (AllRequests 1 [] [] [populateBoth dbPending conn1]), dbPending)
  /\ Connection.requesterRef (populateBoth dbPending conn1)
     = Connection.Populated (Some alice)
  /\ Connection.recipientRef (populateBoth dbPending conn1)
     = Connection.Populated (Some bob).
Proof. repeat split; vm_compute; reflexivity. Qed.

(** ** The matcher of plain names *)

Lemma stripDollar_append (t : string) : stripDollar (t ++ "$") = Some t.
Proof.
  induction t as [|c r IH]; [reflexivity|].
  cbn [append stripDollar].
  destruct (r ++ "$")%string as [|c' r'] eqn:E.
  - destruct r; discriminate E.
  - rewrite IH. reflexivity.
Qed.

Lemma literal_i_literalPatterns : literalPatterns literal_i.
Proof.
  intros t Hp. exists (fun nm => JS.eqb_ci t nm). split; [|reflexivity].
  change ("^" ++ t ++ "$")%string with (String "^" (t ++ "$")).
  unfold literal_i. rewrite stripDollar_append, Hp. reflexivity.
Qed.

(** ** The properties at work on the sample data *)

(** Alice asks Bob, Bob accepts, Alice removes the connection; then
    neither sees a connection to the other. *)
Example scenario_request_accept_remove :
  let s1 := sendConnectionRequest isHex24 conn1Id 10 aliceId bobId (Some "hi") dbUsers in
  let s2 := acceptConnectionRequest isHex24 20 bobId conn1Id (snd s1) in
  let s3 := removeConnection isHex24 aliceId conn1Id (snd s2) in
  code (fst s1) = 201 /\ snd s1 = dbPending
  /\ code (fst s2) = 200 /\ snd s2 = dbAccepted
  /\ fst s3 = json 200 (Msg "Connection removed successfully") /\ snd s3 = dbUsers
  /\ fst (getConnectionStatus isHex24 aliceId bobId (snd s3))
     = json 200 (StatusNone "none" "No connection exists")
  /\ fst (sendConnectionRequest isHex24 conn2Id 11 aliceId bobId None dbPending)
     = json 400 (ErrStatus "Connection already exists" PENDING)
  /\ fst (acceptConnectionRequest isHex24 20 carolId conn1Id dbPending)
     = json 403 (Err "You can only accept requests sent to you").
Proof. repeat split; vm_compute; reflexivity. Qed.

Lemma send_existing_conflict_witness :
  sendConnectionRequest isHex24 conn2Id 11 aliceId bobId None dbPending
  = (json 400 (ErrStatus "Connection already exists" PENDING), dbPending)
  /\ sendConnectionRequest isHex24 conn2Id 11 bobId aliceId None dbPending
     = (json 400 (ErrStatus "Connection already exists" PENDING), dbPending).
Proof.
  refine (proj1 (send_existing_conflict isHex24 aliceId bobId conn1 dbPending
                   eq_refl eq_refl _ _ _ eq_refl _ eq_refl) conn2Id 11 None).
  - vm_compute. discriminate.
  - vm_compute. discriminate.
  - vm_compute. discriminate.
  - left. reflexivity.
Defined.

Lemma accept_contract_witness :
  acceptConnectionRequest isHex24 20 bobId conn1Id dbThree
  = (json 200 (MsgConnection "Connection request accepted successfully"
                 (Connection.mkdoc
                    (Connection.mk conn1Id aliceId bobId ACCEPTED (Some "hi") 10 20)
                    (Connection.Populated (Some alice))
                    (Connection.Populated (Some bob)))),
     mkDB [alice; bob; carol] []
       [conn3; Connection.mk conn1Id aliceId bobId ACCEPTED (Some "hi") 10 20; conn2]
       [])
  /\ acceptConnectionRequest isHex24 20 carolId conn1Id dbThree
     = (json 403 (Err "You can only accept requests sent to you"), dbThree)
  /\ acceptConnectionRequest isHex24 20 bobId conn3Id dbThree
     = (json 400 (ErrStatus "Connection request is not pending" REJECTED), dbThree)
  /\ acceptConnectionRequest isHex24 20 bobId msg1Id dbThree
     = (json 404 (Err "Connection request not found"), dbThree).
Proof.
  pose proof (accept_contract isHex24 20 bobId conn1Id dbThree
                eq_refl eq_refl eq_refl) as H.
  cbv zeta in H. destruct H as [_ [_ [H _]]].
  destruct (H conn1 eq_refl) as [_ [_ H3]].
  destruct (H3 eq_refl eq_refl) as [l1 [l2 [Hcs [Hl1 Hr]]]].
  split.
  { rewrite Hr. f_equal. f_equal.
    transitivity (Connection.updateOne
                    (Connection.mk conn1Id aliceId bobId ACCEPTED (Some "hi") 10 20)
                    (connections dbThree)); [|reflexivity].
    symmetry.
    exact (proj2 (split_determined conn1Id _ l1 l2 conn1 Hcs Hl1 eq_refl)
             (Connection.mk conn1Id aliceId bobId ACCEPTED (Some "hi") 10 20)
             eq_refl). }
  split.
  { pose proof (accept_contract isHex24 20 carolId conn1Id dbThree
                  eq_refl eq_refl eq_refl) as G.
    cbv zeta in G. destruct G as [_ [_ [G _]]].
    destruct (G conn1 eq_refl) as [G1 _].
    apply G1. vm_compute. discriminate. }
  split.
  { pose proof (accept_contract isHex24 20 bobId conn3Id dbThree
                  eq_refl eq_refl eq_refl) as G.
    cbv zeta in G. destruct G as [_ [_ [G _]]].
    destruct (G conn3 eq_refl) as [_ [G2 _]].
    apply G2; [reflexivity|discriminate]. }
  pose proof (accept_contract isHex24 20 bobId msg1Id dbThree
                eq_refl eq_refl eq_refl) as G.
  cbv zeta in G. destruct G as [_ [G _]].
  apply G. reflexivity.
Defined.


Lemma remove_contract_witness :
  removeConnection isHex24 aliceId conn2Id dbThree
  = (json 200 (Msg "Connection removed successfully"),
     mkDB [alice; bob; carol] [] [conn3; conn1] [])
  /\ getConnectionStatus isHex24 aliceId carolId
       (snd (removeConnection isHex24 aliceId conn2Id dbThree))
     = (json 200 (StatusNone "none" "No connection exists"),
        snd (removeConnection isHex24 aliceId conn2Id dbThree))
  /\ snd (removeConnection isHex24 bobId conn2Id dbThree) = dbThree.
Proof.
  pose proof (remove_contract isHex24 aliceId conn2Id dbThree
                eq_refl eq_refl eq_refl) as H.
  cbv zeta in H. destruct H as [_ [[_ H1] [H2 _]]].
  assert (H200 : code (fst (removeConnection isHex24 aliceId conn2Id dbThree)) = 200).
  { apply H1. exists conn2. split; [reflexivity|]. split; [right|]; reflexivity. }
  destruct (H2 conn2 eq_refl H200) as [[l1 [l2 [Hcs [Hl1 Hdb]]]] [_ [_ [_ Hst]]]].
  split.
  { rewrite Hdb. f_equal. f_equal.
    transitivity (Connection.findByIdAndDelete conn2Id (connections dbThree));
      [|reflexivity].
    symmetry.
    exact (proj1 (split_determined conn2Id _ l1 l2 conn2 Hcs Hl1 eq_refl)). }
  split.
  { apply Hst; [right; split; reflexivity|reflexivity|].
    vm_compute. discriminate. }
  pose proof (remove_contract isHex24 bobId conn2Id dbThree
                eq_refl eq_refl eq_refl) as G.
  cbv zeta in G. destruct G as [_ [[G1 _] [_ G3]]].
  apply G3. intro Hc. destruct (G1 Hc) as [c [Hf [[Hu|Hu] _]]];
    injection Hf as <-; discriminate Hu.
Defined.

Lemma resolve_identifier_unchanged_witness :
  getOrCreateSkill isHex24 literal_i alone skill2Id skill3Id (skills dbTwoSkills)
  = (Ok skill3Id, skills dbTwoSkills).
Proof.
  exact (resolve_identifier_unchanged isHex24 literal_i alone skill2Id skill3Id
           (skills dbTwoSkills) eq_refl).
Defined.

Lemma resolve_race_fails_witness :
  getOrCreateSkill isHex24 literal_i rustWinner skill3Id "Rust" []
  = (Throw E11000, rustWinner []).
Proof.
  refine (proj1 (resolve_race_fails isHex24 literal_i rustWinner skill3Id "Rust" []
                   (fun nm => JS.eqb_ci "Rust" nm) (Skill.mk skill2Id "Rust")
                   eq_refl eq_refl eq_refl _ _ eq_refl)).
  - vm_compute. discriminate.
  - left. reflexivity.
Defined.

(** C2 as stated fails: the lookup of "Rust" finds nothing, a concurrent
    request creates "Rust" first, the creation is rejected by the
    uniqueness constraint, and the call fails with that error instead of
    returning the winner's identifier. *)
Lemma resolve_race_is_not_absorbed :
  Skill.findOne (fun s => JS.eqb_ci "Rust" (Skill.name s)) [] = None
  /\ Skill.create skill3Id "Rust" (rustWinner []) = Throw E11000
  /\ Skill.findOne (fun s => JS.eqb_ci "Rust" (Skill.name s)) (rustWinner [])
     = Some (Skill.mk skill2Id "Rust")
  /\ fst (getOrCreateSkill isHex24 literal_i rustWinner skill3Id "Rust" [])
     = Throw E11000
  /\ fst (getOrCreateSkill isHex24 literal_i rustWinner skill3Id "Rust" [])
     <> Ok skill2Id.
Proof.
  split; [reflexivity|]. split; [reflexivity|]. split; [reflexivity|].
  split; [reflexivity|]. vm_compute. discriminate.
Qed.


Lemma sendMessage_validation_witness :
  code (fst (sendMessage isHex24 conn1Id 30 aliceId bobId (Some "  hello  ") dbUsers))
  = 201
  /\ code (fst (sendMessage isHex24 conn1Id 30 aliceId aliceId (Some "hello") dbUsers))
     = 400.
Proof.
  split.
  - pose proof (sendMessage_validation isHex24 conn1Id 30 aliceId bobId
                  (Some "  hello  ") dbUsers) as H.
    cbv zeta in H. destruct H as [_ [_ [_ H]]].
    apply (H "  hello  "); try reflexivity; try (vm_compute; discriminate).
    intros m [].
  - pose proof (sendMessage_validation isHex24 conn1Id 30 aliceId aliceId
                  (Some "hello") dbUsers) as H.
    cbv zeta in H. destruct H as [H _].
    exact (proj1 (H eq_refl)).
Defined.

(** C9.  The guard against a message to oneself compares the text of the
    request.  The recipient spelled as Alice's identifier is printed, a
    message from Alice is refused with 400 and nothing is stored.  The
    recipient spelled with the same digits in upper case passes the guard:
    the store casts the text to Alice's identifier, finds her, and the
    message from Alice to Alice is stored, with its content trimmed, and
    answered 201. *)
Theorem sendMessage_to_self_respelled :
  isHex24 aliceIdUpper = true
  /\ castObjectId aliceIdUpper = aliceId
  /\ sendMessageCast isHex24 msg1Id 30 aliceId aliceId (Some "  hi  ") dbUsers
     = (json 400 (Err "Cannot send message to yourself"), dbUsers)
  /\ sendMessageCast isHex24 msg1Id 30 aliceId aliceIdUpper (Some "  hi  ") dbUsers
     = (json 201 (MessageJson (Message.mk msg1Id aliceId aliceId "hi" false 30)),
        mkDB [alice; bob; carol] [] []
          [Message.mk msg1Id aliceId aliceId "hi" false 30]).
Proof.
  split; [reflexivity|]. split; [reflexivity|]. split; reflexivity.
Qed.

(** * Further properties of the controllers *)

(** ** The other transitions of a connection *)

Section TransitionProperties.

Variable isValid : string -> bool.

(** Rejecting, for a connection identifier in printed form: the lookup
    finds nothing exactly when no stored record has the id, and the answer
    is then 404; it is 403 when the acting user is not the recipient, 400
    with the status when the record is not pending; otherwise, on a record
    whose parties differ, 200, and that record, and no other, is stored
    with status rejected and the time of the change, everything else as it
    was.  200 is answered only then; any other answer leaves the database
    as it was. *)
Theorem reject_guards (now : nat) (userId : ObjectId) (connectionId : string)
    (db : DB) :
  isValid connectionId = true ->
  canonicalId connectionId = true ->
  let r := rejectConnectionRequest isValid now userId connectionId db in
  (Connection.findById connectionId (connections db) = None <->
     forall d, In d (connections db) -> Connection._id d <> connectionId)
  /\ (Connection.findById connectionId (connections db) = None ->
     r = (json 404 (Err "Connection request not found"), db))
  /\ (forall c, Connection.findById connectionId (connections db) = Some c ->
       (Connection.recipient c <> userId ->
          r = (json 403 (Err "You can only reject requests sent to you"), db))
       /\ (Connection.recipient c = userId -> Connection.status c <> PENDING ->
          r = (json 400 (ErrStatus "Connection request is not pending"
                           (Connection.status c)), db))
       /\ (Connection.recipient c = userId -> Connection.status c = PENDING ->
           Connection.requester c <> Connection.recipient c ->
           let c' := Connection.mk connectionId (Connection.requester c)
                       (Connection.recipient c) REJECTED (Connection.message c)
                       (Connection.createdAt c) now in
           exists l1 l2,
             connections db = l1 ++ c :: l2
             /\ (forall d, In d l1 -> Connection._id d <> connectionId)
             /\ r = (json 200 (MsgConnection "Connection request rejected successfully"
                                 (Connection.mkdoc c'
                                    (Connection.Id (Connection.requester c))
                                    (Connection.Id (Connection.recipient c)))),
                     mkDB (users db) (skills db) (l1 ++ c' :: l2) (messages db))
             /\ Connection.findById connectionId (connections (snd r)) = Some c'))
  /\ (code (fst r) = 200 ->
       exists c, Connection.findById connectionId (connections db) = Some c
         /\ Connection.recipient c = userId /\ Connection.status c = PENDING
         /\ option_map Connection.status
              (Connection.findById connectionId (connections (snd r)))
            = Some REJECTED)
  /\ (code (fst r) <> 200 -> snd r = db).
Proof.
  intros Hv _ r. subst r.
  split; [apply findById_none|].
  unfold rejectConnectionRequest. rewrite Hv.
  cbv beta iota delta [negb].
  destruct (Connection.findById connectionId (connections db)) as [c|] eqn:Hf.
  2:{ repeat split; try reflexivity; try discriminate. }
  destruct (Connection.recipient c =? userId) eqn:Hr.
  2:{ apply String.eqb_neq in Hr.
      split; [discriminate|]. split; [|split; [discriminate|reflexivity]].
      intros c0 H0. injection H0 as <-.
      repeat split; try reflexivity; intros; contradiction. }
  apply String.eqb_eq in Hr.
  destruct (status_eqb (Connection.status c) PENDING) eqn:Hs.
  2:{ assert (Hn : Connection.status c <> PENDING).
      { intro H. apply status_eqb_eq in H. rewrite H in Hs. discriminate Hs. }
      split; [discriminate|]. split; [|split; [discriminate|reflexivity]].
      intros c0 H0. injection H0 as <-.
      repeat split; try reflexivity; intros; contradiction. }
  apply status_eqb_eq in Hs.
  destruct (String.eqb_spec (Connection.requester c) (Connection.recipient c))
    as [Hq|Hq].
  - rewrite (save_self now c REJECTED _ Hq).
    split; [discriminate|]. split; [|split; [discriminate|reflexivity]].
    intros c0 H0. injection H0 as <-.
    repeat split; try reflexivity; intros; try contradiction.
  - rewrite (save_status now c REJECTED _ Hq).
    destruct (findById_id _ _ _ Hf) as [Hid _].
    destruct (findById_split _ _ _ Hf) as [l1 [l2 [Hcs [Hl1 [_ Hupd]]]]].
    assert (Hmk : Connection.touch (Connection.set_status c REJECTED) now
                  = Connection.mk connectionId (Connection.requester c)
                      (Connection.recipient c) REJECTED (Connection.message c)
                      (Connection.createdAt c) now).
    { unfold Connection.touch, Connection.set_status.
      cbn [Connection._id Connection.requester Connection.recipient
           Connection.status Connection.message Connection.createdAt].
      rewrite Hid. reflexivity. }
    assert (Hnew : Connection.findById connectionId
              (Connection.updateOne
                 (Connection.touch (Connection.set_status c REJECTED) now)
                 (connections db))
              = Some (Connection.touch (Connection.set_status c REJECTED) now)).
    { apply (findById_updateOne connectionId _ c); [exact Hf|exact Hid]. }
    split; [discriminate|]. split; [|split].
    + intros c0 H0. injection H0 as <-.
      split; [intros; contradiction|]. split; [intros; contradiction|].
      intros _ _ _. cbv zeta. exists l1, l2.
      split; [exact Hcs|]. split; [exact Hl1|].
      rewrite <- Hmk. split.
      * unfold set_connections.
        rewrite (Hupd (Connection.touch (Connection.set_status c REJECTED) now) Hid).
        reflexivity.
      * exact Hnew.
    + intros _. exists c. repeat split; auto.
      cbn [snd connections set_connections]. rewrite Hnew. reflexivity.
    + intro H. exfalso. apply H. reflexivity.
Qed.

(** Cancelling, for a connection identifier in printed form, in a database
    whose stored identifiers are well formed and whose unordered pairs
    have at most one record: the lookup finds nothing exactly when no
    stored record has the id; the answer is 200 exactly when a record has
    the id, the acting user is its requester and it is pending; that
    record, and no other, is then deleted and everything else is as it
    was, no stored record relates the two parties any more, and either
    party's status lookup about the other answers "none"; any other answer
    leaves the database as it was. *)
Theorem cancel_contract (userId : ObjectId) (connectionId : string) (db : DB) :
  canonicalId connectionId = true ->
  idsValid isValid (connections db) = true ->
  pairUnique (connections db) = true ->
  let r := cancelConnectionRequest isValid userId connectionId db in
  (Connection.findById connectionId (connections db) = None <->
     forall d, In d (connections db) -> Connection._id d <> connectionId)
  /\ (code (fst r) = 200 <->
     exists c, Connection.findById connectionId (connections db) = Some c
       /\ userId = Connection.requester c /\ Connection.status c = PENDING)
  /\ (forall c, Connection.findById connectionId (connections db) = Some c ->
        code (fst r) = 200 ->
        (exists l1 l2,
           connections db = l1 ++ c :: l2
           /\ (forall d, In d l1 -> Connection._id d <> connectionId)
           /\ r = (json 200 (Msg "Connection request cancelled successfully"),
                   mkDB (users db) (skills db) (l1 ++ l2) (messages db)))
        /\ ~ In c (connections (snd r))
        /\ (forall d, In d (connections (snd r)) ->
              ~ (Connection.requester d = Connection.requester c
                 /\ Connection.recipient d = Connection.recipient c)
              /\ ~ (Connection.requester d = Connection.recipient c
                    /\ Connection.recipient d = Connection.requester c))
        /\ forall X Y,
             (X = Connection.requester c /\ Y = Connection.recipient c)
             \/ (X = Connection.recipient c /\ Y = Connection.requester c) ->
             isValid Y = true -> User.findById Y (users db) <> None ->
             getConnectionStatus isValid X Y (snd r)
             = (json 200 (StatusNone "none" "No connection exists"), snd r))
  /\ (code (fst r) <> 200 -> snd r = db).
Proof.
  intros _ Hids Hu r. subst r.
  split; [apply findById_none|].
  unfold cancelConnectionRequest.
  destruct (Connection.findById connectionId (connections db)) as [c|] eqn:Hf.
  2:{ destruct (negb (isValid connectionId)); cbn [fst snd code].
      all: split; [split; [discriminate|intros [c [H _]]; discriminate H]|].
      all: split; [intros c H; discriminate H|reflexivity]. }
  destruct (findById_id _ _ _ Hf) as [Hid Hin].
  assert (Hv : isValid connectionId = true).
  { unfold idsValid in Hids. rewrite forallb_forall in Hids.
    rewrite <- Hid. exact (Hids c Hin). }
  rewrite Hv. cbv beta iota delta [negb].
  destruct (String.eqb_spec (Connection.requester c) userId) as [Hq|Hq];
    cbv beta iota delta [negb].
  2:{ split; [split; [discriminate|]|split; [discriminate|reflexivity]].
      intros [c0 [H0 [H1 _]]]; injection H0 as <-; congruence. }
  destruct (status_eqb (Connection.status c) PENDING) eqn:Hs;
    cbv beta iota delta [negb]; cbn [fst snd code].
  2:{ split; [split; [discriminate|]|split; [discriminate|reflexivity]].
      intros [c0 [H0 [_ H2]]]; injection H0 as <-.
      apply status_eqb_eq in H2. congruence. }
  apply status_eqb_eq in Hs.
  split; [split; [intros _; exists c; auto|reflexivity]|].
  split; [|intro H; exfalso; apply H; reflexivity].
  intros c0 H0 _; injection H0 as <-.
  assert (Hnone : forall d,
         In d (Connection.findByIdAndDelete connectionId (connections db)) ->
         samePair c d = false) by (apply delete_leaves_none; assumption).
  assert (Hg : Connection.getConnection (Connection.requester c)
                      (Connection.recipient c)
                      (Connection.findByIdAndDelete connectionId (connections db))
                    = None).
  { unfold Connection.getConnection.
    destruct (find _ _) as [d|] eqn:Hd; [|reflexivity].
    apply find_some in Hd; destruct Hd as [Hd1 Hd2].
    specialize (Hnone d Hd1); unfold samePair in Hnone.
    rewrite Hd2 in Hnone; discriminate Hnone. }
  split.
  { destruct (findById_split _ _ _ Hf) as [l1 [l2 [Hcs [Hl1 [Hdel _]]]]].
    exists l1, l2. split; [exact Hcs|]. split; [exact Hl1|].
    cbn [snd]. unfold set_connections. rewrite Hdel. reflexivity. }
  cbn [connections set_connections].
  split.
  { intro Hc; specialize (Hnone c Hc); unfold samePair in Hnone.
    unfold Connection.between in Hnone.
    rewrite !String.eqb_refl in Hnone; discriminate Hnone. }
  split.
  { intros d Hd; specialize (Hnone d Hd).
    unfold samePair, Connection.between in Hnone.
    apply orb_false_iff in Hnone; destruct Hnone as [N1 N2].
    split; intros [E1 E2];
      [rewrite E1, E2, !String.eqb_refl in N1; discriminate N1
      |rewrite E1, E2, !String.eqb_refl in N2; discriminate N2]. }
  intros X Y HXY HvY HuY; unfold getConnectionStatus; rewrite HvY.
  cbv beta iota delta [negb]; cbn [users set_connections connections].
  destruct (User.findById Y (users db)); [|contradiction].
  destruct HXY as [[-> ->]|[-> ->]];
       [|rewrite getConnection_comm]; rewrite Hg; reflexivity.
Qed.

Lemma create_succeeds (oid : ObjectId) (now : nat) (a b : ObjectId)
    (m : option string) (cs : list Connection.t) :
  a <> b ->
  Connection.getConnection a b cs = None ->
  (forall t, m = Some t -> String.length t <= 500) ->
  (forall d, In d cs -> Connection._id d <> oid) ->
  Connection.create oid now a b m cs
  = Ok (Connection.mk oid a b PENDING m now now,
        cs ++ [Connection.mk oid a b PENDING m now now]).
Proof.
  intros Hne Hg Hm Hfresh.
  assert (He : existsb (fun d => Connection._id d =? oid) cs = false).
  { apply not_true_is_false. intro He.
    apply existsb_exists in He. destruct He as [d [Hd Hx]].
    apply String.eqb_eq in Hx. exact (Hfresh d Hd Hx). }
  unfold Connection.create, Connection.validate, Connection.preSave,
    Connection.insertOne, bind.
  cbn [Connection.message Connection.requester Connection.recipient Connection._id].
  apply String.eqb_neq in Hne.
  destruct m as [t|].
  - assert (Hlen : (500 <? String.length t)%nat = false)
      by (apply Nat.ltb_ge; apply Hm; reflexivity).
    rewrite Hlen, Hne, He. reflexivity.
  - rewrite Hne, He. reflexivity.
Qed.

Lemma create_needs (oid : ObjectId) (now : nat) (a b : ObjectId)
    (m : option string) (cs : list Connection.t) (r : Connection.t * list Connection.t) :
  Connection.create oid now a b m cs = Ok r ->
  (forall t, m = Some t -> String.length t <= 500)
  /\ (forall d, In d cs -> Connection._id d <> oid).
Proof.
  unfold Connection.create, Connection.validate, Connection.preSave,
    Connection.insertOne, bind.
  cbn [Connection.message Connection.requester Connection.recipient Connection._id].
  intro H. split.
  - intros t ->. destruct (500 <? String.length t)%nat eqn:E; [discriminate H|].
    apply Nat.ltb_ge. exact E.
  - intros d Hd Hid.
    destruct (match m with
              | Some t => if (500 <? String.length t)%nat then _ else _
              | None => _ end); [|discriminate H].
    destruct (a =? b); [discriminate H|].
    destruct (existsb _ cs) eqn:He; [discriminate H|].
    assert (Ht : existsb (fun d => Connection._id d =? oid) cs = true).
    { apply existsb_exists. exists d. split; [exact Hd|].
      rewrite Hid, String.eqb_refl. reflexivity. }
    rewrite Ht in He. discriminate He.
Qed.

Lemma sendCatch_code (e : Exn) :
  code (sendCatch e) = 400 \/ code (sendCatch e) = 500.
Proof.
  unfold sendCatch. destruct (err_code e) as [n|]; [|right; reflexivity].
  destruct n as [|p]; [right; reflexivity|].
  repeat (destruct p as [p|p|];
          try (right; reflexivity); try (left; reflexivity)).
Qed.

(** Sending, to a recipient whose identifier is in printed form: 201
    exactly when the identifier is well formed and names a user other than
    the requester, no record relates the two, the trimmed message has at
    most 500 characters and the new identifier is fresh; the database then
    gains one pending record from the requester to the recipient with the
    trimmed message (none when it is blank), at the end of the collection,
    and the answer carries that record with both parties populated; any
    other answer stores nothing. *)
Theorem send_contract (oid : ObjectId) (now : nat) (A : ObjectId) (B : string)
    (message : option string) (db : DB) :
  canonicalId B = true ->
  let r := sendConnectionRequest isValid oid now A B message db in
  let c := Connection.mk oid A B PENDING (trimmedOrUndefined message) now now in
  (code (fst r) = 201 <->
     isValid B = true /\ User.findById B (users db) <> None /\ A <> B
     /\ Connection.getConnection A B (connections db) = None
     /\ (forall t, trimmedOrUndefined message = Some t -> String.length t <= 500)
     /\ (forall d, In d (connections db) -> Connection._id d <> oid))
  /\ (code (fst r) = 201 ->
        snd r = mkDB (users db) (skills db) (connections db ++ [c]) (messages db)
        /\ fst r = json 201 (MsgConnection "Connection request sent successfully"
                               (Connection.mkdoc c
                                  (Connection.Populated (User.findById A (users db)))
                                  (Connection.Populated (User.findById B (users db))))))
  /\ (code (fst r) <> 201 -> snd r = db).
Proof.
  intros _ r c. subst r c. unfold sendConnectionRequest.
  destruct (isValid B) eqn:Hv; cbv beta iota delta [negb].
  2:{ split; [split; [discriminate|intros [H _]; discriminate H]|].
      split; [discriminate|reflexivity]. }
  destruct (User.findById B (users db)) as [u|] eqn:Hu.
  2:{ split; [split; [discriminate|intros [_ [H _]]; contradiction]|].
      split; [discriminate|reflexivity]. }
  destruct (String.eqb_spec A B) as [He|He].
  { split; [split; [discriminate|intros [_ [_ [H _]]]; contradiction]|].
    split; [discriminate|reflexivity]. }
  destruct (Connection.getConnection A B (connections db)) as [e|] eqn:Hg.
  { split; [split; [discriminate|intros [_ [_ [_ [H _]]]]; discriminate H]|].
    split; [discriminate|reflexivity]. }
  destruct (Connection.create oid now A B (trimmedOrUndefined message)
              (connections db)) as [[c cs']|e] eqn:Hc.
  - destruct (create_needs _ _ _ _ _ _ _ Hc) as [Hm Hfresh].
    rewrite (create_succeeds oid now A B _ _ He Hg Hm Hfresh) in Hc.
    injection Hc as <- <-.
    split; [split; [intros _; repeat split; auto; discriminate|reflexivity]|].
    split.
    { intros _. split; [reflexivity|].
      cbn [fst snd]. unfold populateBoth, Connection.populateRecipient,
        Connection.populateRequester, Connection.plain.
      cbn [users set_connections Connection.fields Connection.requester
           Connection.recipient Connection.requesterRef Connection.recipientRef].
      rewrite Hu. reflexivity. }
    intro H. exfalso. apply H. reflexivity.
  - assert (Hno : code (fst (sendCatch e, db)) <> 201).
    { cbn [fst]. destruct (sendCatch_code e) as [E|E]; rewrite E; discriminate. }
    split; [split; [intro H; contradiction|]|].
    + intros [_ [_ [_ [_ [Hm Hfresh]]]]].
      rewrite (create_succeeds oid now A B _ _ He Hg Hm Hfresh) in Hc.
      discriminate Hc.
    + split; [intro H; contradiction|reflexivity].
Qed.

End TransitionProperties.

(** ** How the transitions compose, and what they keep *)

Lemma find_some_of {A : Type} (p : A -> bool) (l : list A) (x : A) :
  In x l -> p x = true -> exists y, find p l = Some y.
Proof.
  intros Hin Hp. destruct (find p l) as [y|] eqn:E; [eauto|].
  rewrite (find_none _ _ E x Hin) in Hp. discriminate Hp.
Qed.

Lemma between_refl (c : Connection.t) :
  Connection.between (Connection.requester c) (Connection.recipient c) c = true.
Proof. unfold Connection.between. rewrite !String.eqb_refl. reflexivity. Qed.

Lemma getConnection_updateOne (cs : list Connection.t) (c c' : Connection.t) :
  pairUnique cs = true ->
  Connection.findById (Connection._id c') cs = Some c ->
  Connection.requester c' = Connection.requester c ->
  Connection.recipient c' = Connection.recipient c ->
  Connection.getConnection (Connection.requester c) (Connection.recipient c)
    (Connection.updateOne c' cs) = Some c'.
Proof.
  intros Hu Hf Hq Hp.
  pose proof (pairUnique_updateOne cs c c' Hu Hf Hq Hp) as Hu'.
  pose proof (findById_updateOne _ cs c c' Hf eq_refl) as Hf'.
  destruct (findById_id _ _ _ Hf') as [_ Hin].
  assert (Hb : Connection.between (Connection.requester c) (Connection.recipient c) c'
               = true) by (rewrite <- Hq, <- Hp; apply between_refl).
  unfold Connection.getConnection.
  destruct (find_some_of _ _ _ Hin Hb) as [d Hd]. rewrite Hd. f_equal.
  apply find_some in Hd. destruct Hd as [Hd1 Hd2].
  apply (pairUnique_In _ _ _ Hu' Hd1 Hin).
  apply (between_samePair (Connection.requester c) (Connection.recipient c));
    assumption.
Qed.

Lemma distinctb_snoc (l : list string) (x : string) :
  distinctb l = true -> existsb (String.eqb x) l = false ->
  distinctb (l ++ [x]) = true.
Proof.
  induction l as [|y r IH]; simpl; intros Hd Hx; [reflexivity|].
  apply andb_true_iff in Hd. destruct Hd as [Hy Hr].
  apply orb_false_iff in Hx. destruct Hx as [Hxy Hxr].
  rewrite (IH Hr Hxr), andb_true_r, existsb_app. simpl.
  apply negb_true_iff in Hy. rewrite Hy, (String.eqb_sym y x), Hxy. reflexivity.
Qed.

Lemma ids_updateOne (c' : Connection.t) (cs : list Connection.t) :
  map Connection._id (Connection.updateOne c' cs) = map Connection._id cs.
Proof.
  induction cs as [|d r IH]; simpl; [reflexivity|].
  destruct (Connection._id d =? Connection._id c') eqn:E; simpl.
  - apply String.eqb_eq in E. rewrite E. reflexivity.
  - rewrite IH. reflexivity.
Qed.

Lemma delete_incl (id : ObjectId) (cs : list Connection.t) (d : Connection.t) :
  In d (Connection.findByIdAndDelete id cs) -> In d cs.
Proof.
  induction cs as [|x r IH]; simpl; [tauto|].
  destruct (Connection._id x =? id); [tauto|].
  intros [->|H]; [left; reflexivity|right; exact (IH H)].
Qed.

Lemma ids_delete_distinct (id : ObjectId) (cs : list Connection.t) :
  connectionIdsDistinct cs = true ->
  connectionIdsDistinct (Connection.findByIdAndDelete id cs) = true.
Proof.
  unfold connectionIdsDistinct.
  induction cs as [|x r IH]; simpl; [reflexivity|].
  intro H. apply andb_true_iff in H. destruct H as [Hx Hr].
  destruct (Connection._id x =? id); [exact Hr|].
  simpl. rewrite (IH Hr), andb_true_r.
  apply negb_true_iff. apply negb_true_iff in Hx.
  apply not_true_is_false. intro He. apply existsb_exists in He.
  destruct He as [y [Hy Hxy]]. apply in_map_iff in Hy.
  destruct Hy as [d [<- Hd]]. apply delete_incl in Hd.
  assert (Ht : existsb (String.eqb (Connection._id x)) (map Connection._id r) = true).
  { apply existsb_exists. exists (Connection._id d). split; [|exact Hxy].
    apply in_map. exact Hd. }
  rewrite Ht in Hx. discriminate Hx.
Qed.

Lemma noSelf_updateOne (c' : Connection.t) (cs : list Connection.t) :
  noSelfConnection cs = true ->
  (Connection.requester c' =? Connection.recipient c') = false ->
  noSelfConnection (Connection.updateOne c' cs) = true.
Proof.
  unfold noSelfConnection.
  induction cs as [|d r IH]; simpl; intros H Hc; [reflexivity|].
  apply andb_true_iff in H. destruct H as [Hd Hr].
  destruct (Connection._id d =? Connection._id c'); simpl.
  - rewrite Hc, Hr. reflexivity.
  - rewrite Hd, (IH Hr Hc). reflexivity.
Qed.

Lemma noSelf_delete (id : ObjectId) (cs : list Connection.t) :
  noSelfConnection cs = true ->
  noSelfConnection (Connection.findByIdAndDelete id cs) = true.
Proof.
  unfold noSelfConnection. intro H.
  rewrite forallb_forall in *. intros d Hd. apply H.
  exact (delete_incl id cs d Hd).
Qed.

Section CompositionProperties.

Variable isValid : string -> bool.

Lemma send_success (oid : ObjectId) (now : nat) (A B : ObjectId)
    (message : option string) (db : DB) :
  isValid B = true -> User.findById B (users db) <> None -> A <> B ->
  Connection.getConnection A B (connections db) = None ->
  (forall t, trimmedOrUndefined message = Some t -> String.length t <= 500) ->
  (forall d, In d (connections db) -> Connection._id d <> oid) ->
  snd (sendConnectionRequest isValid oid now A B message db)
  = set_connections db
      (connections db
       ++ [Connection.mk oid A B PENDING (trimmedOrUndefined message) now now]).
Proof.
  intros HvB HuB Hne Hg Hm Hfresh. unfold sendConnectionRequest.
  rewrite HvB. cbv beta iota delta [negb].
  destruct (User.findById B (users db)); [|contradiction].
  assert (E : (A =? B) = false) by (apply String.eqb_neq; exact Hne).
  rewrite E, Hg, (create_succeeds oid now A B _ _ Hne Hg Hm Hfresh).
  reflexivity.
Qed.

Lemma accept_success (now : nat) (connectionId : string) (c : Connection.t)
    (db : DB) :
  isValid connectionId = true ->
  Connection.findById connectionId (connections db) = Some c ->
  Connection.status c = PENDING ->
  Connection.requester c <> Connection.recipient c ->
  snd (acceptConnectionRequest isValid now (Connection.recipient c) connectionId db)
  = set_connections db
      (Connection.updateOne (Connection.touch (Connection.set_status c ACCEPTED) now)
         (connections db)).
Proof.
  intros Hv Hf Hs Hne. unfold acceptConnectionRequest.
  rewrite Hv, Hf, String.eqb_refl. cbv beta iota delta [negb].
  rewrite Hs. cbn [status_eqb negb].
  rewrite (save_status now c ACCEPTED _ Hne). reflexivity.
Qed.

(** After a request is sent, the requester's status lookup about the
    recipient shows the new pending record as request_sent and the
    recipient's lookup about the requester shows it as
    request_received. *)
Theorem send_then_status (oid : ObjectId) (now : nat) (A B : ObjectId)
    (message : option string) (db : DB) :
  isValid A = true -> isValid B = true ->
  User.findById A (users db) <> None -> User.findById B (users db) <> None ->
  A <> B ->
  Connection.getConnection A B (connections db) = None ->
  (forall t, trimmedOrUndefined message = Some t -> String.length t <= 500) ->
  (forall d, In d (connections db) -> Connection._id d <> oid) ->
  let db' := snd (sendConnectionRequest isValid oid now A B message db) in
  let c := Connection.mk oid A B PENDING (trimmedOrUndefined message) now now in
  getConnectionStatus isValid A B db'
  = (json 200 (StatusOf PENDING "request_sent" (Connection.plain c)), db')
  /\ getConnectionStatus isValid B A db'
     = (json 200 (StatusOf PENDING "request_received" (Connection.plain c)), db').
Proof.
  intros HvA HvB HuA HuB Hne Hg Hm Hfresh db' c.
  subst db'. rewrite (send_success oid now A B message db HvB HuB Hne Hg Hm Hfresh).
  fold c.
  assert (Hfind : Connection.getConnection A B (connections db ++ [c]) = Some c).
  { apply find_snoc; [exact Hg|]. subst c. unfold Connection.between.
    cbn [Connection.requester Connection.recipient].
    rewrite !String.eqb_refl. reflexivity. }
  unfold getConnectionStatus. rewrite HvA, HvB. cbv beta iota delta [negb].
  cbn [users connections set_connections].
  destruct (User.findById A (users db)); [|contradiction].
  destruct (User.findById B (users db)); [|contradiction].
  rewrite <- (getConnection_comm A B), Hfind.
  unfold relationshipOf. subst c. cbn [Connection.status Connection.requester].
  rewrite String.eqb_refl.
  assert (E : (A =? B) = false) by (apply String.eqb_neq; exact Hne).
  rewrite E. auto.
Qed.

(** After the recipient accepts a pending request, each party's status
    lookup about the other shows the record as accepted and the
    relationship as connected. *)
Theorem accept_then_connected (now : nat) (connectionId : string)
    (c : Connection.t) (db : DB) :
  isValid connectionId = true ->
  pairUnique (connections db) = true ->
  Connection.findById connectionId (connections db) = Some c ->
  Connection.status c = PENDING ->
  Connection.requester c <> Connection.recipient c ->
  isValid (Connection.requester c) = true ->
  isValid (Connection.recipient c) = true ->
  User.findById (Connection.requester c) (users db) <> None ->
  User.findById (Connection.recipient c) (users db) <> None ->
  let db' := snd (acceptConnectionRequest isValid now (Connection.recipient c)
                    connectionId db) in
  let c' := Connection.touch (Connection.set_status c ACCEPTED) now in
  getConnectionStatus isValid (Connection.requester c) (Connection.recipient c) db'
  = (json 200 (StatusOf ACCEPTED "connected" (Connection.plain c')), db')
  /\ getConnectionStatus isValid (Connection.recipient c) (Connection.requester c) db'
     = (json 200 (StatusOf ACCEPTED "connected" (Connection.plain c')), db').
Proof.
  intros Hv Hu Hf Hs Hne HvQ HvP HuQ HuP db' c'.
  destruct (findById_id _ _ _ Hf) as [Hid _].
  subst db'. rewrite (accept_success now connectionId c db Hv Hf Hs Hne). fold c'.
  assert (Hg : Connection.getConnection (Connection.requester c)
                 (Connection.recipient c)
                 (Connection.updateOne c' (connections db)) = Some c').
  { apply getConnection_updateOne; auto.
    subst c'. cbn [Connection._id Connection.touch Connection.set_status].
    rewrite Hid. exact Hf. }
  unfold getConnectionStatus. rewrite HvQ, HvP. cbv beta iota delta [negb].
  cbn [users connections set_connections].
  destruct (User.findById (Connection.requester c) (users db)); [|contradiction].
  destruct (User.findById (Connection.recipient c) (users db)); [|contradiction].
  rewrite <- (getConnection_comm (Connection.requester c)), Hg.
  split; reflexivity.
Qed.

(** A record that is rejected or blocked stays as it is: accepting,
    rejecting, cancelling and removing it, by any user, are all refused
    and leave the database unchanged. *)
Theorem settled_record_is_frozen (connectionId : string) (c : Connection.t)
    (db : DB) :
  Connection.findById connectionId (connections db) = Some c ->
  Connection.status c = REJECTED \/ Connection.status c = BLOCKED ->
  forall now userId,
    (code (fst (acceptConnectionRequest isValid now userId connectionId db)) <> 200
     /\ snd (acceptConnectionRequest isValid now userId connectionId db) = db)
    /\ (code (fst (rejectConnectionRequest isValid now userId connectionId db)) <> 200
        /\ snd (rejectConnectionRequest isValid now userId connectionId db) = db)
    /\ (code (fst (cancelConnectionRequest isValid userId connectionId db)) <> 200
        /\ snd (cancelConnectionRequest isValid userId connectionId db) = db)
    /\ (code (fst (removeConnection isValid userId connectionId db)) <> 200
        /\ snd (removeConnection isValid userId connectionId db) = db).
Proof.
  intros Hf Hs now userId.
  unfold acceptConnectionRequest, rejectConnectionRequest,
    cancelConnectionRequest, removeConnection.
  rewrite Hf.
  destruct (negb (isValid connectionId));
    [repeat split; discriminate|].
  destruct (negb (Connection.recipient c =? userId));
    destruct (negb (Connection.requester c =? userId));
    destruct Hs as [-> | ->]; cbn [status_eqb negb andb fst snd code];
    repeat split; discriminate.
Qed.

(** Accepting, rejecting, cancelling and removing keep at most one record
    per unordered pair of users. *)
Theorem transitions_keep_pairs_unique (now : nat) (userId : ObjectId)
    (connectionId : string) (db : DB) :
  pairUnique (connections db) = true ->
  pairUnique (connections (snd (acceptConnectionRequest isValid now userId
                                  connectionId db))) = true
  /\ pairUnique (connections (snd (rejectConnectionRequest isValid now userId
                                     connectionId db))) = true
  /\ pairUnique (connections (snd (cancelConnectionRequest isValid userId
                                     connectionId db))) = true
  /\ pairUnique (connections (snd (removeConnection isValid userId
                                     connectionId db))) = true.
Proof.
  intro Hu.
  split; [apply accept_preserves_pairUnique; exact Hu|].
  split; [apply reject_preserves_pairUnique; exact Hu|].
  split; [apply cancel_preserves_pairUnique; exact Hu|].
  apply remove_preserves_pairUnique; exact Hu.
Qed.

End CompositionProperties.

Section InvariantProperties.

Variable isValid : string -> bool.

Lemma save_result (now : nat) (x c' : Connection.t) (cs cs' : list Connection.t) :
  Connection.save now x cs = Ok (c', cs') ->
  c' = Connection.touch x now /\ cs' = Connection.updateOne c' cs
  /\ (Connection.requester c' =? Connection.recipient c') = false.
Proof.
  unfold Connection.save, Connection.preSave, bind.
  destruct (Connection.requester x =? Connection.recipient x) eqn:E; [discriminate|].
  intro H. injection H as <- <-. auto.
Qed.

Lemma existsb_ids (oid : ObjectId) (cs : list Connection.t) :
  (forall d, In d cs -> Connection._id d <> oid) ->
  existsb (String.eqb oid) (map Connection._id cs) = false.
Proof.
  intro H. apply not_true_is_false. intro He.
  apply existsb_exists in He. destruct He as [y [Hy Hx]].
  apply in_map_iff in Hy. destruct Hy as [d [<- Hd]].
  apply String.eqb_eq in Hx. exact (H d Hd (eq_sym Hx)).
Qed.

(** Every operation of the connection controller keeps the identifiers of
    the stored records distinct. *)
Theorem connection_ids_stay_distinct (oid : ObjectId) (now : nat)
    (userId : ObjectId) (other : string) (message : option string) (db : DB) :
  connectionIdsDistinct (connections db) = true ->
  connectionIdsDistinct
    (connections (snd (sendConnectionRequest isValid oid now userId other message db)))
  = true
  /\ connectionIdsDistinct
       (connections (snd (acceptConnectionRequest isValid now userId other db))) = true
  /\ connectionIdsDistinct
       (connections (snd (rejectConnectionRequest isValid now userId other db))) = true
  /\ connectionIdsDistinct
       (connections (snd (cancelConnectionRequest isValid userId other db))) = true
  /\ connectionIdsDistinct
       (connections (snd (removeConnection isValid userId other db))) = true.
Proof.
  intro Hd.
  assert (Hsave : forall x,
    connectionIdsDistinct
      (connections
         (snd (match Connection.save now x (connections db) with
               | Throw e => (json 500 (Err (err_message e)), db)
               | Ok (c, cs) => (json 200 (Msg ""), set_connections db cs)
               end))) = true).
  { intro x. destruct (Connection.save now x (connections db)) as [[c' cs']|e] eqn:Hs;
      [|exact Hd].
    destruct (save_result _ _ _ _ _ Hs) as [_ [-> _]].
    cbn [snd connections set_connections].
    unfold connectionIdsDistinct. rewrite ids_updateOne. exact Hd. }
  split; [|split; [|split; [|split]]].
  - unfold sendConnectionRequest.
    destruct (negb (isValid other)); [exact Hd|].
    destruct (User.findById other (users db)); [|exact Hd].
    destruct (userId =? other); [exact Hd|].
    destruct (Connection.getConnection userId other (connections db)); [exact Hd|].
    destruct (Connection.create _ _ _ _ _ _) as [[c cs']|e] eqn:Hc; [|exact Hd].
    destruct (create_needs _ _ _ _ _ _ _ Hc) as [_ Hfresh].
    destruct (create_ok _ _ _ _ _ _ _ _ Hc) as [-> ->].
    cbn [snd connections set_connections].
    unfold connectionIdsDistinct. rewrite map_app. cbn [map Connection._id].
    apply distinctb_snoc; [exact Hd|]. apply existsb_ids. exact Hfresh.
  - unfold acceptConnectionRequest.
    destruct (negb (isValid other)); [exact Hd|].
    destruct (Connection.findById other (connections db)); [|exact Hd].
    destruct (negb (Connection.recipient t =? userId)); [exact Hd|].
    destruct (negb (status_eqb (Connection.status t) PENDING)); [exact Hd|].
    specialize (Hsave (Connection.set_status t ACCEPTED)).
    destruct (Connection.save _ _ _) as [[c' cs']|e]; exact Hsave.
  - unfold rejectConnectionRequest.
    destruct (negb (isValid other)); [exact Hd|].
    destruct (Connection.findById other (connections db)); [|exact Hd].
    destruct (negb (Connection.recipient t =? userId)); [exact Hd|].
    destruct (negb (status_eqb (Connection.status t) PENDING)); [exact Hd|].
    specialize (Hsave (Connection.set_status t REJECTED)).
    destruct (Connection.save _ _ _) as [[c' cs']|e]; exact Hsave.
  - unfold cancelConnectionRequest.
    destruct (negb (isValid other)); [exact Hd|].
    destruct (Connection.findById other (connections db)); [|exact Hd].
    destruct (negb (Connection.requester t =? userId)); [exact Hd|].
    destruct (negb (status_eqb (Connection.status t) PENDING)); [exact Hd|].
    apply ids_delete_distinct. exact Hd.
  - unfold removeConnection.
    destruct (negb (isValid other)); [exact Hd|].
    destruct (Connection.findById other (connections db)); [|exact Hd].
    destruct (negb (Connection.requester t =? userId)
              && negb (Connection.recipient t =? userId)); [exact Hd|].
    destruct (negb (status_eqb (Connection.status t) ACCEPTED)); [exact Hd|].
    apply ids_delete_distinct. exact Hd.
Qed.

(** Every operation of the connection controller keeps requester and
    recipient different in every stored record. *)
Theorem no_self_connection_is_kept (oid : ObjectId) (now : nat)
    (userId : ObjectId) (other : string) (message : option string) (db : DB) :
  noSelfConnection (connections db) = true ->
  noSelfConnection
    (connections (snd (sendConnectionRequest isValid oid now userId other message db)))
  = true
  /\ noSelfConnection
       (connections (snd (acceptConnectionRequest isValid now userId other db))) = true
  /\ noSelfConnection
       (connections (snd (rejectConnectionRequest isValid now userId other db))) = true
  /\ noSelfConnection
       (connections (snd (cancelConnectionRequest isValid userId other db))) = true
  /\ noSelfConnection
       (connections (snd (removeConnection isValid userId other db))) = true.
Proof.
  intro Hd.
  assert (Hsave : forall x,
    noSelfConnection
      (connections
         (snd (match Connection.save now x (connections db) with
               | Throw e => (json 500 (Err (err_message e)), db)
               | Ok (c, cs) => (json 200 (Msg ""), set_connections db cs)
               end))) = true).
  { intro x. destruct (Connection.save now x (connections db)) as [[c' cs']|e] eqn:Hs;
      [|exact Hd].
    destruct (save_result _ _ _ _ _ Hs) as [_ [-> Hne]].
    cbn [snd connections set_connections].
    apply noSelf_updateOne; assumption. }
  split; [|split; [|split; [|split]]].
  - unfold sendConnectionRequest.
    destruct (negb (isValid other)); [exact Hd|].
    destruct (User.findById other (users db)); [|exact Hd].
    destruct (userId =? other) eqn:Hne; [exact Hd|].
    destruct (Connection.getConnection userId other (connections db)); [exact Hd|].
    destruct (Connection.create _ _ _ _ _ _) as [[c cs']|e] eqn:Hc; [|exact Hd].
    destruct (create_ok _ _ _ _ _ _ _ _ Hc) as [-> ->].
    cbn [snd connections set_connections].
    unfold noSelfConnection in *. rewrite forallb_app, Hd.
    cbn [forallb Connection.requester Connection.recipient]. rewrite Hne. reflexivity.
  - unfold acceptConnectionRequest.
    destruct (negb (isValid other)); [exact Hd|].
    destruct (Connection.findById other (connections db)); [|exact Hd].
    destruct (negb (Connection.recipient t =? userId)); [exact Hd|].
    destruct (negb (status_eqb (Connection.status t) PENDING)); [exact Hd|].
    specialize (Hsave (Connection.set_status t ACCEPTED)).
    destruct (Connection.save _ _ _) as [[c' cs']|e]; exact Hsave.
  - unfold rejectConnectionRequest.
    destruct (negb (isValid other)); [exact Hd|].
    destruct (Connection.findById other (connections db)); [|exact Hd].
    destruct (negb (Connection.recipient t =? userId)); [exact Hd|].
    destruct (negb (status_eqb (Connection.status t) PENDING)); [exact Hd|].
    specialize (Hsave (Connection.set_status t REJECTED)).
    destruct (Connection.save _ _ _) as [[c' cs']|e]; exact Hsave.
  - unfold cancelConnectionRequest.
    destruct (negb (isValid other)); [exact Hd|].
    destruct (Connection.findById other (connections db)); [|exact Hd].
    destruct (negb (Connection.requester t =? userId)); [exact Hd|].
    destruct (negb (status_eqb (Connection.status t) PENDING)); [exact Hd|].
    apply noSelf_delete. exact Hd.
  - unfold removeConnection.
    destruct (negb (isValid other)); [exact Hd|].
    destruct (Connection.findById other (connections db)); [|exact Hd].
    destruct (negb (Connection.requester t =? userId)
              && negb (Connection.recipient t =? userId)); [exact Hd|].
    destruct (negb (status_eqb (Connection.status t) ACCEPTED)); [exact Hd|].
    apply noSelf_delete. exact Hd.
Qed.

End InvariantProperties.

(** ** The listings of connections *)

Lemma insertDesc_perm (c : Connection.t) (l : list Connection.t) :
  Permutation (Connection.insertDesc c l) (c :: l).
Proof.
  induction l as [|d r IH]; simpl; [apply Permutation_refl|].
  destruct (Connection.createdAt d <=? Connection.createdAt c)%nat.
  - apply Permutation_refl.
  - apply perm_trans with (d :: c :: r); [apply perm_skip; exact IH|apply perm_swap].
Qed.

Lemma sortDesc_perm (l : list Connection.t) : Permutation (Connection.sortDesc l) l.
Proof.
  induction l as [|c r IH]; simpl; [apply perm_nil|].
  apply perm_trans with (c :: Connection.sortDesc r);
    [apply insertDesc_perm|apply perm_skip; exact IH].
Qed.

Lemma insertDesc_sorted (c : Connection.t) (l : list Connection.t) :
  StronglySorted newestFirst l -> StronglySorted newestFirst (Connection.insertDesc c l).
Proof.
  induction 1 as [|d r Hr IH Hd]; simpl.
  - constructor; constructor.
  - destruct (Connection.createdAt d <=? Connection.createdAt c)%nat eqn:E.
    + apply Nat.leb_le in E. constructor; [constructor; assumption|].
      constructor; [exact E|].
      rewrite Forall_forall in *. intros e He. specialize (Hd e He).
      unfold newestFirst in *. lia.
    + apply Nat.leb_gt in E. constructor; [exact IH|].
      rewrite Forall_forall in *. intros e He.
      apply (Permutation_in _ (insertDesc_perm c r)) in He.
      destruct He as [<-|He]; [unfold newestFirst; lia|exact (Hd e He)].
Qed.

Lemma sortDesc_sorted (l : list Connection.t) :
  StronglySorted newestFirst (Connection.sortDesc l).
Proof.
  induction l as [|c r IH]; simpl; [constructor|].
  apply insertDesc_sorted. exact IH.
Qed.

Lemma getUserConnections_fields (us : list User.t) (userId : ObjectId)
    (st : option ConnectionStatus) (cs : list Connection.t) :
  map Connection.fields (Connection.getUserConnections us userId st cs)
  = Connection.sortDesc
      (filter (fun c => Connection.involves userId c
                        && match st with
                           | Some s => status_eqb (Connection.status c) s
                           | None => true
                           end) cs).
Proof.
  unfold Connection.getUserConnections. rewrite map_map. apply map_id.
Qed.

Lemma filterM_throws {A : Type} (p : A -> result bool) (l : list A) (x : A)
    (e : Exn) :
  In x l -> p x = Throw e -> exists e', filterM p l = Throw e'.
Proof.
  induction l as [|y r IH]; intros Hin Hx; [contradiction|].
  cbn [filterM]. destruct (p y) as [b|e0] eqn:Hy; cbn [bind]; [|eauto].
  destruct Hin as [->|Hin]; [rewrite Hx in Hy; discriminate Hy|].
  destruct (IH Hin Hx) as [e' ->]. cbn [bind]. eauto.
Qed.

(** The pending requests of a user are the records whose recipient is the
    user and whose status is pending, newest first, with the requester
    populated and the recipient left as an identifier; the count is their
    number and the database is not touched. *)
Theorem pending_requests_listing (userId : ObjectId) (db : DB) :
  exists docs,
    getPendingRequests userId db
    = (json 200 (CountRequests (List.length docs) docs), db)
    /\ (forall c, In c (map Connection.fields docs) <->
          In c (connections db) /\ Connection.recipient c = userId
          /\ Connection.status c = PENDING)
    /\ List.length docs
       = List.length (filter (fun c => (Connection.recipient c =? userId)
                                       && status_eqb (Connection.status c) PENDING)
                        (connections db))
    /\ StronglySorted newestFirst (map Connection.fields docs)
    /\ Forall (fun d =>
         Connection.requesterRef d
         = Connection.Populated
             (User.findById (Connection.requester (Connection.fields d)) (users db))
         /\ Connection.recipientRef d
            = Connection.Id (Connection.recipient (Connection.fields d))) docs.
Proof.
  exists (Connection.getPendingRequests (users db) userId (connections db)).
  split; [reflexivity|].
  unfold Connection.getPendingRequests.
  set (q := fun c => (Connection.recipient c =? userId)
                     && status_eqb (Connection.status c) PENDING).
  rewrite map_map, map_id.
  split; [|split; [|split]].
  - intro c. split.
    + intro H. apply (Permutation_in _ (sortDesc_perm _)) in H.
      apply filter_In in H. destruct H as [Hin Hq]. subst q.
      apply andb_true_iff in Hq. destruct Hq as [H1 H2].
      apply String.eqb_eq in H1. apply status_eqb_eq in H2. auto.
    + intros [Hin [H1 H2]].
      apply (Permutation_in _ (Permutation_sym (sortDesc_perm _))).
      apply filter_In. split; [exact Hin|]. subst q. cbv beta.
      rewrite H1, H2, String.eqb_refl. reflexivity.
  - rewrite length_map. apply Permutation_length. apply sortDesc_perm.
  - apply sortDesc_sorted.
  - apply Forall_forall. intros d Hd. apply in_map_iff in Hd.
    destruct Hd as [c [<- _]]. split; reflexivity.
Qed.

(** The accepted connections of a user are the accepted records in which
    the user is requester or recipient, newest first, with both parties
    populated; the count is their number and the database is not
    touched. *)
Theorem accepted_connections_listing (userId : ObjectId) (db : DB) :
  exists docs,
    getAcceptedConnections userId db
    = (json 200 (CountConnections (List.length docs) docs), db)
    /\ (forall c, In c (map Connection.fields docs) <->
          In c (connections db)
          /\ (Connection.requester c = userId \/ Connection.recipient c = userId)
          /\ Connection.status c = ACCEPTED)
    /\ List.length docs
       = List.length (filter (fun c => Connection.involves userId c
                                       && status_eqb (Connection.status c) ACCEPTED)
                        (connections db))
    /\ StronglySorted newestFirst (map Connection.fields docs)
    /\ Forall (fun d =>
         Connection.requesterRef d
         = Connection.Populated
             (User.findById (Connection.requester (Connection.fields d)) (users db))
         /\ Connection.recipientRef d
            = Connection.Populated
                (User.findById (Connection.recipient (Connection.fields d)) (users db)))
         docs.
Proof.
  exists (Connection.getUserConnections (users db) userId (Some ACCEPTED)
            (connections db)).
  split; [reflexivity|].
  rewrite getUserConnections_fields.
  split; [|split; [|split]].
  - intro c. split.
    + intro H. apply (Permutation_in _ (sortDesc_perm _)) in H.
      apply filter_In in H. destruct H as [Hin Hq].
      apply andb_true_iff in Hq. destruct Hq as [H1 H2].
      apply status_eqb_eq in H2. unfold Connection.involves in H1.
      apply orb_true_iff in H1.
      destruct H1 as [H1|H1]; apply String.eqb_eq in H1; auto.
    + intros [Hin [H1 H2]].
      apply (Permutation_in _ (Permutation_sym (sortDesc_perm _))).
      apply filter_In. split; [exact Hin|].
      rewrite H2. unfold Connection.involves.
      destruct H1 as [-> | ->]; rewrite String.eqb_refl;
        [|rewrite orb_true_r]; reflexivity.
  - rewrite <- (length_map Connection.fields), getUserConnections_fields.
    apply Permutation_length. apply sortDesc_perm.
  - apply sortDesc_sorted.
  - apply Forall_forall. intros d Hd.
    unfold Connection.getUserConnections in Hd. apply in_map_iff in Hd.
    destruct Hd as [c [<- _]]. split; reflexivity.
Qed.

(** Listing all requests fails with 500 as soon as a party of one of the
    listed connections is no longer among the users: the populated
    reference is [null] and the controller reads its [toString]. *)
Theorem all_requests_fail_on_missing_party (userId : ObjectId)
    (status : option string) (c : Connection.t) (db : DB) :
  In c (connections db) ->
  Connection.requester c = userId \/ Connection.recipient c = userId ->
  status = None
  \/ (exists s, status = Some s
        /\ (status_of_text s = None
            \/ status_of_text s = Some (Connection.status c))) ->
  User.findById (Connection.requester c) (users db) = None
  \/ User.findById (Connection.recipient c) (users db) = None ->
  code (fst (getAllConnectionRequests userId status db)) = 500
  /\ snd (getAllConnectionRequests userId status db) = db.
Proof.
  intros Hin Hparty Hstatus Hmissing.
  unfold getAllConnectionRequests.
  set (st := match status with
             | Some s => if JS.truthy s then status_of_text s else None
             | None => None
             end).
  assert (Hst : st = None \/ st = Some (Connection.status c)).
  { subst st. destruct Hstatus as [->|[s [-> [H|H]]]]; [left; reflexivity| |].
    - left. rewrite H. destruct (JS.truthy s); reflexivity.
    - right. rewrite H. destruct s; [discriminate H|reflexivity]. }
  clearbody st.
  set (docs := Connection.getUserConnections (users db) userId st (connections db)).
  set (d := Connection.populateRecipient (users db)
              (Connection.populateRequester (users db) (Connection.plain c))).
  assert (Hd : In d docs).
  { subst docs d. unfold Connection.getUserConnections. apply in_map_iff.
    exists c. split; [reflexivity|].
    apply (Permutation_in _ (Permutation_sym (sortDesc_perm _))).
    apply filter_In. split; [exact Hin|].
    apply andb_true_iff. split.
    - unfold Connection.involves.
      destruct Hparty as [-> | ->]; rewrite String.eqb_refl;
        [|rewrite orb_true_r]; reflexivity.
    - destruct Hst as [-> | ->]; [reflexivity|].
      apply status_eqb_eq. reflexivity. }
  clearbody docs.
  assert (Hthrow :
    (exists e, filterM (fun conn => s <- Ref_toString (Connection.requesterRef conn) ;;
                                    Ok (s =? userId)) docs = Throw e)
    \/ (exists e, filterM (fun conn => s <- Ref_toString (Connection.recipientRef conn) ;;
                                       Ok (s =? userId)) docs = Throw e)).
  { destruct Hmissing as [Hm|Hm]; [left|right].
    - apply (filterM_throws _ docs d
               (TypeError "Cannot read properties of null (reading 'toString')") Hd).
      subst d. cbn [Connection.requesterRef Connection.populateRecipient
                    Connection.populateRequester Connection.fields Connection.plain].
      rewrite Hm. reflexivity.
    - apply (filterM_throws _ docs d
               (TypeError "Cannot read properties of null (reading 'toString')") Hd).
      subst d. cbn [Connection.recipientRef Connection.populateRecipient
                    Connection.populateRequester Connection.fields Connection.plain].
      rewrite Hm. reflexivity. }
  destruct Hthrow as [[e He]|[e He]].
  - rewrite He. cbn [bind]. split; reflexivity.
  - rewrite He. clear He.
    destruct (filterM _ docs) as [sent|e0]; cbn [bind]; split; reflexivity.
Qed.

(** ** The skill collection *)

Lemma distinctb_NoDup (l : list string) : distinctb l = true <-> NoDup l.
Proof.
  induction l as [|x r IH]; simpl.
  - split; [constructor|reflexivity].
  - rewrite andb_true_iff, negb_true_iff, IH. split.
    + intros [Hx Hr]. constructor; [|exact Hr].
      intro Hin. assert (Ht : existsb (String.eqb x) r = true).
      { apply existsb_exists. exists x. split; [exact Hin|apply String.eqb_refl]. }
      rewrite Ht in Hx. discriminate Hx.
    + intro H. inversion H as [|? ? Hx Hr]; subst. split; [|exact Hr].
      apply not_true_is_false. intro He. apply existsb_exists in He.
      destruct He as [y [Hy Hxy]]. apply String.eqb_eq in Hxy. subst y. contradiction.
Qed.

Lemma skill_create_ok (oid : ObjectId) (nm : string) (ss ss' : list Skill.t)
    (s : Skill.t) :
  Skill.create oid nm ss = Ok (s, ss') ->
  s = Skill.mk oid (JS.trim nm) /\ ss' = ss ++ [s]
  /\ JS.trim nm <> ""
  /\ (forall d, In d ss -> Skill._id d <> oid)
  /\ (forall d, In d ss -> Skill.name d <> JS.trim nm).
Proof.
  unfold Skill.create. cbn [Skill.name].
  destruct (String.eqb_spec (JS.trim nm) "") as [E|E]; [discriminate|].
  destruct (existsb _ ss) eqn:He; [discriminate|].
  intro H. injection H as <- <-.
  repeat split; auto; intros d Hd Hx.
  all: assert (Ht : existsb (fun d => (Skill._id d =? oid)
                       || (Skill.name d =? JS.trim nm)) ss = true)
         by (apply existsb_exists; exists d; split; [exact Hd|];
             rewrite Hx, String.eqb_refl; auto using orb_true_r).
  all: rewrite Ht in He; discriminate He.
Qed.

Lemma skill_create_succeeds (oid : ObjectId) (nm : string) (ss : list Skill.t) :
  JS.trim nm <> "" ->
  (forall d, In d ss -> Skill._id d <> oid) ->
  (forall d, In d ss -> Skill.name d <> JS.trim nm) ->
  Skill.create oid nm ss
  = Ok (Skill.mk oid (JS.trim nm), ss ++ [Skill.mk oid (JS.trim nm)]).
Proof.
  intros Hne Hid Hnm. unfold Skill.create. cbn [Skill.name].
  apply String.eqb_neq in Hne. rewrite Hne.
  assert (He : existsb (fun d => (Skill._id d =? oid)
                 || (Skill.name d =? JS.trim nm)) ss = false).
  { apply not_true_is_false. intro He. apply existsb_exists in He.
    destruct He as [d [Hd Hx]]. apply orb_true_iff in Hx.
    destruct Hx as [Hx|Hx]; apply String.eqb_eq in Hx;
      [exact (Hid d Hd Hx)|exact (Hnm d Hd Hx)]. }
  rewrite He. reflexivity.
Qed.

Lemma skill_updateOne_In (s e : Skill.t) (ss : list Skill.t) :
  In e (Skill.updateOne s ss) -> e = s \/ In e ss.
Proof.
  induction ss as [|d r IH]; simpl; [tauto|].
  destruct (Skill._id d =? Skill._id s); simpl.
  - intros [<-|H]; auto.
  - intros [<-|H]; auto. destruct (IH H); auto.
Qed.

Lemma skill_delete_In (id : ObjectId) (e : Skill.t) (ss : list Skill.t) :
  In e (SkillQueries.findByIdAndDelete id ss) -> In e ss.
Proof.
  induction ss as [|d r IH]; simpl; [tauto|].
  destruct (Skill._id d =? id); [tauto|].
  intros [<-|H]; auto.
Qed.

Lemma skill_ids_updateOne (s : Skill.t) (ss : list Skill.t) :
  map Skill._id (Skill.updateOne s ss) = map Skill._id ss.
Proof.
  induction ss as [|d r IH]; simpl; [reflexivity|].
  destruct (Skill._id d =? Skill._id s) eqn:E; simpl.
  - apply String.eqb_eq in E. rewrite E. reflexivity.
  - rewrite IH. reflexivity.
Qed.

Lemma skill_findById_updateOne (id : ObjectId) (nm : string) (ss : list Skill.t) :
  Skill.findById id ss <> None ->
  Skill.findById id (Skill.updateOne (Skill.mk id nm) ss) = Some (Skill.mk id nm).
Proof.
  unfold Skill.findById.
  induction ss as [|d r IH]; simpl; intro H; [contradiction|].
  cbn [Skill._id] in *.
  destruct (Skill._id d =? id) eqn:E; simpl.
  - rewrite String.eqb_refl. reflexivity.
  - rewrite E. exact (IH H).
Qed.

Lemma skill_findById_updateOne_other (id j : ObjectId) (nm : string)
    (ss : list Skill.t) :
  j <> id ->
  Skill.findById j (Skill.updateOne (Skill.mk id nm) ss) = Skill.findById j ss.
Proof.
  unfold Skill.findById. intro Hne.
  induction ss as [|d r IH]; simpl; [reflexivity|].
  cbn [Skill._id].
  destruct (Skill._id d =? id) eqn:E; simpl.
  - apply String.eqb_eq in E. rewrite E.
    assert (Ej : (id =? j) = false) by (apply String.eqb_neq; congruence).
    rewrite Ej. reflexivity.
  - rewrite IH. reflexivity.
Qed.

Lemma skill_findById_delete_other (id j : ObjectId) (ss : list Skill.t) :
  j <> id ->
  Skill.findById j (SkillQueries.findByIdAndDelete id ss) = Skill.findById j ss.
Proof.
  unfold Skill.findById. intro Hne.
  induction ss as [|d r IH]; simpl; [reflexivity|].
  destruct (Skill._id d =? id) eqn:E; simpl.
  - apply String.eqb_eq in E. rewrite E.
    assert (Ej : (id =? j) = false) by (apply String.eqb_neq; congruence).
    rewrite Ej. reflexivity.
  - rewrite IH. reflexivity.
Qed.

Lemma skill_findById_delete_same (id : ObjectId) (ss : list Skill.t) :
  skillIdsDistinct ss = true ->
  Skill.findById id (SkillQueries.findByIdAndDelete id ss) = None.
Proof.
  unfold skillIdsDistinct, Skill.findById. rewrite distinctb_NoDup.
  induction ss as [|d r IH]; simpl; intro H; [reflexivity|].
  inversion H as [|? ? Hd Hr]; subst.
  destruct (Skill._id d =? id) eqn:E; simpl.
  - apply String.eqb_eq in E. subst id.
    apply find_none_iff. intros x Hx. apply String.eqb_neq. intro Hx'.
    apply Hd. rewrite <- Hx'. apply in_map. exact Hx.
  - rewrite E. exact (IH Hr).
Qed.

Lemma NoDup_map_delete {B : Type} (f : Skill.t -> B) (id : ObjectId)
    (ss : list Skill.t) :
  NoDup (map f ss) -> NoDup (map f (SkillQueries.findByIdAndDelete id ss)).
Proof.
  induction ss as [|d r IH]; simpl; intro H; [constructor|].
  inversion H as [|? ? Hd Hr]; subst.
  destruct (Skill._id d =? id); [exact Hr|].
  simpl. constructor; [|exact (IH Hr)].
  intro Hin. apply Hd. apply in_map_iff in Hin. destruct Hin as [e [He Hin]].
  rewrite <- He. apply in_map. exact (skill_delete_In id e r Hin).
Qed.

Lemma names_updateOne_NoDup (id : ObjectId) (nm : string) (ss : list Skill.t) :
  NoDup (map Skill._id ss) -> NoDup (map Skill.name ss) ->
  (forall d, In d ss -> Skill._id d <> id -> Skill.name d <> nm) ->
  NoDup (map Skill.name (Skill.updateOne (Skill.mk id nm) ss)).
Proof.
  induction ss as [|x r IH]; simpl; intros Hids Hnames Hother; [constructor|].
  inversion Hids as [|? ? Hx Hr]; subst.
  inversion Hnames as [|? ? Hxn Hrn]; subst.
  cbn [Skill._id].
  destruct (String.eqb_spec (Skill._id x) id) as [E|E]; simpl.
  - constructor; [|exact Hrn].
    intro Hin. apply in_map_iff in Hin. destruct Hin as [d [Hd Hin]].
    apply (Hother d (or_intror Hin)); [|exact Hd].
    intro Hid. apply Hx. rewrite E, <- Hid. apply in_map. exact Hin.
  - constructor.
    + intro Hin. apply in_map_iff in Hin. destruct Hin as [d [Hd Hin]].
      destruct (skill_updateOne_In _ _ _ Hin) as [->|Hin'].
      * cbn [Skill.name] in Hd. exact (Hother x (or_introl eq_refl) E (eq_sym Hd)).
      * apply Hxn. rewrite <- Hd. apply in_map. exact Hin'.
    + apply IH; auto.
Qed.

Section SkillProperties.

Variable isValid : string -> bool.
Variable regex_i : string -> option (string -> bool).

Lemma createSkill_success (oid : ObjectId) (n : string) (db : DB) :
  JS.trim n <> "" ->
  (forall d, In d (skills db) -> Skill.name d <> JS.trim n) ->
  (forall d, In d (skills db) -> Skill._id d <> oid) ->
  createSkill oid (Some n) db
  = (json 201 (SkillJson (Skill.mk oid (JS.trim n))),
     set_skills db (skills db ++ [Skill.mk oid (JS.trim n)])).
Proof.
  intros Hne Hnm Hid. unfold createSkill.
  assert (Hb : blank (Some n) = false).
  { apply not_true_is_false. intro H. apply blank_trim in H. contradiction. }
  rewrite Hb.
  assert (Hf : Skill.findOne (fun s => Skill.name s =? JS.trim n) (skills db) = None).
  { apply find_none_iff. intros s Hs. apply String.eqb_neq. exact (Hnm s Hs). }
  rewrite Hf.
  rewrite (skill_create_succeeds oid (JS.trim n) (skills db));
    rewrite ?trim_idempotent; auto.
Qed.

Lemma createSkill_duplicate (oid : ObjectId) (n : string) (d : Skill.t) (db : DB) :
  JS.trim n <> "" -> In d (skills db) -> Skill.name d = JS.trim n ->
  createSkill oid (Some n) db = (json 400 (Err "Skill already exists"), db).
Proof.
  intros Hne Hd Hnm. unfold createSkill.
  assert (Hb : blank (Some n) = false).
  { apply not_true_is_false. intro H. apply blank_trim in H. contradiction. }
  rewrite Hb.
  assert (Hp : (fun s => Skill.name s =? JS.trim n) d = true)
    by (cbv beta; rewrite Hnm; apply String.eqb_refl).
  destruct (find_some_of _ _ _ Hd Hp) as [y Hy].
  unfold Skill.findOne. rewrite Hy. reflexivity.
Qed.

(** Creating a skill answers 201 exactly when a name is given that is not
    blank, no stored skill has exactly the trimmed name, and the new
    identifier is fresh; the collection then gains one skill with the
    trimmed name.  A missing or blank name is refused with 400 "Skill name
    is required", the exact trimmed name of a stored skill with 400 "Skill
    already exists"; any answer but 201 stores nothing. *)
Theorem createSkill_contract (oid : ObjectId) (name : option string) (db : DB) :
  let r := createSkill oid name db in
  (code (fst r) = 201 <->
     exists n, name = Some n /\ JS.trim n <> ""
       /\ (forall d, In d (skills db) -> Skill.name d <> JS.trim n)
       /\ (forall d, In d (skills db) -> Skill._id d <> oid))
  /\ (forall n, name = Some n -> code (fst r) = 201 ->
        r = (json 201 (SkillJson (Skill.mk oid (JS.trim n))),
             set_skills db (skills db ++ [Skill.mk oid (JS.trim n)])))
  /\ (name = None \/ (exists n, name = Some n /\ JS.trim n = "") ->
        r = (json 400 (Err "Skill name is required"), db))
  /\ (forall n d, name = Some n -> JS.trim n <> "" -> In d (skills db) ->
        Skill.name d = JS.trim n ->
        r = (json 400 (Err "Skill already exists"), db))
  /\ (code (fst r) <> 201 -> snd r = db).
Proof.
  intro r. subst r.
  destruct name as [n|].
  2:{ split; [split; [discriminate|intros [n [H _]]; discriminate H]|].
      split; [intros n H; discriminate H|].
      split; [reflexivity|].
      split; [intros n d H; discriminate H|reflexivity]. }
  destruct (String.eqb_spec (JS.trim n) "") as [Hb|Hb].
  { assert (E : createSkill oid (Some n) db
                = (json 400 (Err "Skill name is required"), db)).
    { unfold createSkill. apply blank_trim in Hb. rewrite Hb. reflexivity. }
    rewrite E.
    split; [split; [discriminate|]|].
    { intros [n0 [H0 [H1 _]]]. injection H0 as <-. contradiction. }
    split; [discriminate|]. split; [reflexivity|].
    split; [|reflexivity].
    intros n0 d H0 H1. injection H0 as <-. contradiction. }
  assert (Hnb : Some n = None \/ (exists n0, Some n = Some n0 /\ JS.trim n0 = "")
                -> False).
  { intros [H|[n0 [H0 H1]]]; [discriminate H|]. injection H0 as <-. contradiction. }
  destruct (Skill.findOne (fun s => Skill.name s =? JS.trim n) (skills db))
    as [e|] eqn:Hf.
  { apply find_some in Hf. destruct Hf as [He Hn]. apply String.eqb_eq in Hn.
    rewrite (createSkill_duplicate oid n e db Hb He Hn).
    split; [split; [discriminate|]|].
    { intros [n0 [H0 [_ [H2 _]]]]. injection H0 as <-. exfalso. exact (H2 e He Hn). }
    split; [discriminate|]. split; [intro H; contradiction|].
    split; [reflexivity|reflexivity]. }
  assert (Hnm : forall d, In d (skills db) -> Skill.name d <> JS.trim n).
  { intros d Hd. apply String.eqb_neq. exact (find_none _ _ Hf d Hd). }
  destruct (existsb (fun d => Skill._id d =? oid) (skills db)) eqn:Hex.
  - assert (E : createSkill oid (Some n) db
                = (json 500 (Err (err_message E11000)), db)).
    { unfold createSkill.
      assert (Hbl : blank (Some n) = false).
      { apply not_true_is_false. intro H. apply blank_trim in H. contradiction. }
      rewrite Hbl, Hf. unfold Skill.create. cbn [Skill.name].
      rewrite trim_idempotent.
      apply String.eqb_neq in Hb. rewrite Hb.
      assert (Ht : existsb (fun d => (Skill._id d =? oid)
                      || (Skill.name d =? JS.trim n)) (skills db) = true).
      { apply existsb_exists in Hex. destruct Hex as [d [Hd Hx]].
        apply existsb_exists. exists d. split; [exact Hd|]. rewrite Hx. reflexivity. }
      rewrite Ht. reflexivity. }
    rewrite E.
    split; [split; [discriminate|]|].
    { intros [n0 [H0 [_ [_ H3]]]]. exfalso.
      apply existsb_exists in Hex. destruct Hex as [d [Hd Hx]].
      apply String.eqb_eq in Hx. exact (H3 d Hd Hx). }
    split; [discriminate|]. split; [intro H; contradiction|].
    split; [|reflexivity].
    intros n0 d H0 _ Hd Hx. injection H0 as <-. exfalso. exact (Hnm d Hd Hx).
  - assert (Hid : forall d, In d (skills db) -> Skill._id d <> oid).
    { intros d Hd Hx.
      assert (Ht : existsb (fun d => Skill._id d =? oid) (skills db) = true).
      { apply existsb_exists. exists d. split; [exact Hd|].
        rewrite Hx. apply String.eqb_refl. }
      rewrite Ht in Hex. discriminate Hex. }
    rewrite (createSkill_success oid n db Hb Hnm Hid).
    split; [split; [intros _; exists n; auto|reflexivity]|].
    split; [intros n0 H0 _; injection H0 as <-; reflexivity|].
    split; [intro H; contradiction|].
    split; [|intro H; exfalso; apply H; reflexivity].
    intros n0 d H0 _ Hd Hx. injection H0 as <-. exfalso. exact (Hnm d Hd Hx).
Qed.

(** A skill that was created is found under its identifier, and its name
    (however spaced) cannot be created again. *)
Theorem createSkill_then_get (oid oid' : ObjectId) (n n' : string) (db : DB) :
  isValid oid = true ->
  JS.trim n <> "" ->
  (forall d, In d (skills db) -> Skill.name d <> JS.trim n) ->
  (forall d, In d (skills db) -> Skill._id d <> oid) ->
  JS.trim n' = JS.trim n ->
  let db' := snd (createSkill oid (Some n) db) in
  getSkillById isValid oid db' = json 200 (SkillJson (Skill.mk oid (JS.trim n)))
  /\ createSkill oid' (Some n') db' = (json 400 (Err "Skill already exists"), db').
Proof.
  intros Hv Hne Hnm Hid Hn' db'. subst db'.
  rewrite (createSkill_success oid n db Hne Hnm Hid). cbn [snd].
  split.
  - unfold getSkillById. rewrite Hv. cbv beta iota delta [negb].
    cbn [skills set_skills]. unfold Skill.findById.
    rewrite (find_snoc _ (skills db) (Skill.mk oid (JS.trim n))).
    + reflexivity.
    + apply find_none_iff. intros s Hs. apply String.eqb_neq. exact (Hid s Hs).
    + cbn [Skill._id]. apply String.eqb_refl.
  - apply (createSkill_duplicate oid' n' (Skill.mk oid (JS.trim n))).
    + rewrite Hn'. exact Hne.
    + cbn [skills set_skills]. apply in_or_app. right. left. reflexivity.
    + cbn [Skill.name]. symmetry. exact Hn'.
Qed.

End SkillProperties.

Lemma leb_trans (a b c : string) :
  String.leb a b = true -> String.leb b c = true -> String.leb a c = true.
Proof.
  unfold String.leb. intros Hab Hbc.
  destruct (String.compare a b) eqn:Eab; [| |discriminate Hab].
  - apply String.compare_eq_iff in Eab. subst b. exact Hbc.
  - destruct (String.compare b c) eqn:Ebc; [| |discriminate Hbc].
    + apply String.compare_eq_iff in Ebc. subst c. rewrite Eab. reflexivity.
    + apply OrderedTypeEx.String_as_OT.cmp_lt in Eab.
      apply OrderedTypeEx.String_as_OT.cmp_lt in Ebc.
      pose proof (OrderedTypeEx.String_as_OT.lt_trans _ _ _ Eab Ebc) as Hac.
      apply OrderedTypeEx.String_as_OT.cmp_lt in Hac.
      unfold OrderedTypeEx.String_as_OT.cmp in Hac. rewrite Hac. reflexivity.
Qed.

Lemma insertByName_perm (s : Skill.t) (l : list Skill.t) :
  Permutation (SkillQueries.insertByName s l) (s :: l).
Proof.
  induction l as [|d r IH]; simpl; [apply Permutation_refl|].
  destruct (String.leb (Skill.name s) (Skill.name d)).
  - apply Permutation_refl.
  - apply perm_trans with (d :: s :: r); [apply perm_skip; exact IH|apply perm_swap].
Qed.

Lemma sortByName_perm (l : list Skill.t) : Permutation (SkillQueries.sortByName l) l.
Proof.
  induction l as [|c r IH]; simpl; [apply perm_nil|].
  apply perm_trans with (c :: SkillQueries.sortByName r);
    [apply insertByName_perm|apply perm_skip; exact IH].
Qed.

Lemma insertByName_sorted (s : Skill.t) (l : list Skill.t) :
  StronglySorted byName l -> StronglySorted byName (SkillQueries.insertByName s l).
Proof.
  induction 1 as [|d r Hr IH Hd]; simpl.
  - constructor; constructor.
  - destruct (String.leb (Skill.name s) (Skill.name d)) eqn:E.
    + constructor; [constructor; assumption|].
      constructor; [exact E|].
      rewrite Forall_forall in *. intros e He. specialize (Hd e He).
      unfold byName in *. exact (leb_trans _ _ _ E Hd).
    + constructor; [exact IH|].
      rewrite Forall_forall in *. intros e He.
      apply (Permutation_in _ (insertByName_perm s r)) in He.
      destruct He as [<-|He]; [|exact (Hd e He)].
      unfold byName.
      destruct (String.leb_total (Skill.name s) (Skill.name d)) as [H|H];
        [rewrite H in E; discriminate E|exact H].
Qed.

Lemma skill_updateOne_length (s : Skill.t) (ss : list Skill.t) :
  List.length (Skill.updateOne s ss) = List.length ss.
Proof.
  induction ss as [|d r IH]; simpl; [reflexivity|].
  destruct (Skill._id d =? Skill._id s); simpl; [reflexivity|].
  rewrite IH. reflexivity.
Qed.

(** The skill a lookup finds is the first of its identifier; deleting by
    that identifier takes it out, and an update puts the new document in
    its place. *)
Lemma skill_findById_split (id : ObjectId) (ss : list Skill.t) (s : Skill.t) :
  Skill.findById id ss = Some s ->
  exists l1 l2,
    ss = l1 ++ s :: l2
    /\ Skill._id s = id
    /\ (forall d, In d l1 -> Skill._id d <> id)
    /\ SkillQueries.findByIdAndDelete id ss = l1 ++ l2
    /\ (forall s', Skill._id s' = id -> Skill.updateOne s' ss = l1 ++ s' :: l2).
Proof.
  unfold Skill.findById.
  induction ss as [|x r IH]; simpl; [discriminate|].
  destruct (Skill._id x =? id) eqn:E.
  - intro H. injection H as ->. exists [], r.
    split; [reflexivity|]. split; [apply String.eqb_eq; exact E|].
    split; [intros d []|]. split; [reflexivity|].
    intros s' <-. rewrite E. reflexivity.
  - intro H. destruct (IH H) as [l1 [l2 [Hss [Hid [Hl1 [Hdel Hupd]]]]]].
    exists (x :: l1), l2.
    split; [rewrite Hss; reflexivity|]. split; [exact Hid|].
    split.
    { intros d [<-|Hd]; [apply String.eqb_neq; exact E|exact (Hl1 d Hd)]. }
    split; [rewrite Hdel; reflexivity|].
    intros s' Hs'. rewrite Hs', E, (Hupd s' Hs'). reflexivity.
Qed.

Lemma skill_split_determined (id : ObjectId) (ss l1 l2 : list Skill.t)
    (s : Skill.t) :
  ss = l1 ++ s :: l2 ->
  Skill._id s = id ->
  (forall d, In d l1 -> Skill._id d <> id) ->
  SkillQueries.findByIdAndDelete id ss = l1 ++ l2
  /\ (forall s', Skill._id s' = id -> Skill.updateOne s' ss = l1 ++ s' :: l2).
Proof.
  intros -> Hid Hl1.
  induction l1 as [|x l1 IH]; simpl.
  - rewrite Hid, String.eqb_refl. split; [reflexivity|].
    intros s' ->. rewrite String.eqb_refl. reflexivity.
  - assert (E : (Skill._id x =? id) = false).
    { apply String.eqb_neq. apply Hl1. left. reflexivity. }
    destruct IH as [IH1 IH2]; [intros d Hd; apply Hl1; right; exact Hd|].
    rewrite E, IH1. split; [reflexivity|].
    intros s' Hs'. rewrite Hs', E, (IH2 s' Hs'). reflexivity.
Qed.

Section SkillStoreProperties.

Variable isValid : string -> bool.
Variable regex_i : string -> option (string -> bool).

(** The skills are listed each once, in the order of their names. *)
Theorem getAllSkills_sorted (db : DB) :
  exists l, getAllSkills db = (200, Items l)
    /\ Permutation l (skills db)
    /\ StronglySorted byName l.
Proof.
  exists (SkillQueries.sortByName (skills db)).
  split; [reflexivity|]. split; [apply sortByName_perm|].
  induction (skills db) as [|s r IH]; simpl; [constructor|].
  apply insertByName_sorted. exact IH.
Qed.

Lemma updateSkill_success (id : string) (n : string) (db : DB) :
  JS.trim n <> "" -> isValid id = true ->
  Skill.findById id (skills db) <> None ->
  (forall d, In d (skills db) -> Skill._id d <> id -> Skill.name d <> JS.trim n) ->
  updateSkill isValid id (Some n) db
  = (json 200 (SkillJson (Skill.mk id (JS.trim n))),
     set_skills db (Skill.updateOne (Skill.mk id (JS.trim n)) (skills db))).
Proof.
  intros Hne Hv Hf Hother. unfold updateSkill.
  assert (Hb : blank (Some n) = false).
  { apply not_true_is_false. intro H. apply blank_trim in H. contradiction. }
  rewrite Hb, Hv. cbv beta iota delta [negb].
  unfold Skill.findByIdAndUpdate.
  destruct (Skill.findById id (skills db)); [|contradiction].
  cbn [Skill.name]. rewrite trim_idempotent.
  assert (He : existsb (fun d => negb (Skill._id d =? id)
                 && (Skill.name d =? JS.trim n)) (skills db) = false).
  { apply not_true_is_false. intro He. apply existsb_exists in He.
    destruct He as [d [Hd Hx]]. apply andb_true_iff in Hx. destruct Hx as [H1 H2].
    apply negb_true_iff in H1. apply String.eqb_neq in H1.
    apply String.eqb_eq in H2. exact (Hother d Hd H1 H2). }
  rewrite He. reflexivity.
Qed.

(** Renaming a skill, for an identifier in printed form: 200 exactly when
    the name given is not blank, the identifier is well formed and names a
    stored skill, and no other skill has exactly the trimmed name; that
    skill, and no other, then carries the trimmed name under the same
    identifier, in its place in the collection, and everything else is as
    it was.  Any other answer changes nothing. *)
Theorem updateSkill_contract (id : string) (name : option string) (db : DB) :
  canonicalId id = true ->
  let r := updateSkill isValid id name db in
  (code (fst r) = 200 <->
     exists n, name = Some n /\ JS.trim n <> "" /\ isValid id = true
       /\ Skill.findById id (skills db) <> None
       /\ (forall d, In d (skills db) -> Skill._id d <> id ->
             Skill.name d <> JS.trim n))
  /\ (forall n, name = Some n -> code (fst r) = 200 ->
        fst r = json 200 (SkillJson (Skill.mk id (JS.trim n)))
        /\ (exists l1 s l2,
              skills db = l1 ++ s :: l2
              /\ Skill._id s = id
              /\ (forall d, In d l1 -> Skill._id d <> id)
              /\ snd r = mkDB (users db) (l1 ++ Skill.mk id (JS.trim n) :: l2)
                           (connections db) (messages db))
        /\ Skill.findById id (skills (snd r)) = Some (Skill.mk id (JS.trim n))
        /\ (forall j, j <> id ->
              Skill.findById j (skills (snd r)) = Skill.findById j (skills db))
        /\ List.length (skills (snd r)) = List.length (skills db))
  /\ (code (fst r) <> 200 -> snd r = db).
Proof.
  intros _ r. subst r.
  destruct name as [n|].
  2:{ split; [split; [discriminate|intros [n [H _]]; discriminate H]|].
      split; [intros n H; discriminate H|reflexivity]. }
  destruct (String.eqb_spec (JS.trim n) "") as [Hb|Hb].
  { assert (E : updateSkill isValid id (Some n) db
                = (json 400 (Err "Skill name is required"), db)).
    { unfold updateSkill. apply blank_trim in Hb. rewrite Hb. reflexivity. }
    rewrite E. split; [split; [discriminate|]|split; [discriminate|reflexivity]].
    intros [n0 [H0 [H1 _]]]. injection H0 as <-. contradiction. }
  assert (Hbl : blank (Some n) = false).
  { apply not_true_is_false. intro H. apply blank_trim in H. contradiction. }
  destruct (isValid id) eqn:Hv.
  2:{ assert (E : updateSkill isValid id (Some n) db
                  = (json 500 (Err "Cast to ObjectId failed"), db)).
      { unfold updateSkill. rewrite Hbl, Hv. reflexivity. }
      rewrite E. split; [split; [discriminate|]|split; [discriminate|reflexivity]].
      intros [n0 [_ [_ [H _]]]]. discriminate H. }
  destruct (Skill.findById id (skills db)) as [s0|] eqn:Hf.
  2:{ assert (E : updateSkill isValid id (Some n) db
                  = (json 404 (Err "Skill not found"), db)).
      { unfold updateSkill, Skill.findByIdAndUpdate. rewrite Hbl, Hv, Hf. reflexivity. }
      rewrite E. split; [split; [discriminate|]|split; [discriminate|reflexivity]].
      intros [n0 [_ [_ [_ [H _]]]]]. contradiction. }
  destruct (existsb (fun d => negb (Skill._id d =? id)
              && (Skill.name d =? JS.trim n)) (skills db)) eqn:He.
  - assert (E : updateSkill isValid id (Some n) db
                = (json 500 (Err (err_message E11000)), db)).
    { unfold updateSkill, Skill.findByIdAndUpdate. rewrite Hbl, Hv, Hf.
      cbn [Skill.name negb]. rewrite trim_idempotent, He. reflexivity. }
    rewrite E. split; [split; [discriminate|]|split; [discriminate|reflexivity]].
    intros [n0 [H0 [_ [_ [_ H]]]]]. injection H0 as <-. exfalso.
    apply existsb_exists in He. destruct He as [d [Hd Hx]].
    apply andb_true_iff in Hx. destruct Hx as [H1 H2].
    apply negb_true_iff in H1. apply String.eqb_neq in H1.
    apply String.eqb_eq in H2. exact (H d Hd H1 H2).
  - assert (Hother : forall d, In d (skills db) -> Skill._id d <> id ->
                       Skill.name d <> JS.trim n).
    { intros d Hd H1 H2.
      assert (Ht : existsb (fun d => negb (Skill._id d =? id)
                     && (Skill.name d =? JS.trim n)) (skills db) = true).
      { apply existsb_exists. exists d. split; [exact Hd|].
        apply String.eqb_neq in H1. rewrite H1, H2, String.eqb_refl. reflexivity. }
      rewrite Ht in He. discriminate He. }
    assert (Hsome : Skill.findById id (skills db) <> None) by (rewrite Hf; discriminate).
    rewrite (updateSkill_success id n db Hb Hv Hsome Hother).
    cbn [fst snd code skills set_skills].
    split; [split; [intros _; exists n; repeat split; auto; discriminate|reflexivity]|].
    split; [|intro H; exfalso; apply H; reflexivity].
    intros n0 H0 _. injection H0 as <-.
    split; [reflexivity|].
    split.
    { destruct (skill_findById_split _ _ _ Hf) as [l1 [l2 [Hss [Hid [Hl1 [_ Hupd]]]]]].
      exists l1, s0, l2. split; [exact Hss|]. split; [exact Hid|].
      split; [exact Hl1|].
      unfold set_skills. rewrite (Hupd (Skill.mk id (JS.trim n)) eq_refl).
      reflexivity. }
    split; [apply skill_findById_updateOne; exact Hsome|].
    split; [intros j Hj; apply skill_findById_updateOne_other; exact Hj|].
    apply skill_updateOne_length.
Qed.

(** Deleting a skill, for an identifier in printed form: 200 exactly when
    the identifier is well formed and names a stored skill; that skill,
    and no other, is then taken out of the collection and everything else
    is as it was (in a collection of distinct identifiers a lookup of it
    answers 404, and every other skill is found as before).  Any other
    answer changes nothing. *)
Theorem deleteSkill_contract (id : string) (db : DB) :
  canonicalId id = true ->
  let r := deleteSkill isValid id db in
  (code (fst r) = 200 <-> isValid id = true /\ Skill.findById id (skills db) <> None)
  /\ (code (fst r) = 200 ->
        fst r = json 200 (Msg "Skill deleted")
        /\ (exists l1 s l2,
              skills db = l1 ++ s :: l2
              /\ Skill._id s = id
              /\ (forall d, In d l1 -> Skill._id d <> id)
              /\ snd r = mkDB (users db) (l1 ++ l2) (connections db) (messages db))
        /\ (skillIdsDistinct (skills db) = true ->
              getSkillById isValid id (snd r) = json 404 (Err "Skill not found"))
        /\ (forall j, j <> id ->
              Skill.findById j (skills (snd r)) = Skill.findById j (skills db)))
  /\ (code (fst r) <> 200 -> snd r = db).
Proof.
  intros _ r. subst r. unfold deleteSkill.
  destruct (isValid id) eqn:Hv; cbv beta iota delta [negb].
  2:{ split; [split; [discriminate|intros [H _]; discriminate H]|].
      split; [discriminate|reflexivity]. }
  destruct (Skill.findById id (skills db)) as [s|] eqn:Hf.
  2:{ split; [split; [discriminate|intros [_ H]; contradiction]|].
      split; [discriminate|reflexivity]. }
  split; [split; [intros _; split; [reflexivity|discriminate]|reflexivity]|].
  split; [|intro H; exfalso; apply H; reflexivity].
  intros _. split; [reflexivity|]. cbn [snd skills set_skills]. split; [|split].
  - destruct (skill_findById_split _ _ _ Hf) as [l1 [l2 [Hss [Hid [Hl1 [Hdel _]]]]]].
    exists l1, s, l2. split; [exact Hss|]. split; [exact Hid|].
    split; [exact Hl1|]. unfold set_skills. rewrite Hdel. reflexivity.
  - intro Hd. unfold getSkillById. rewrite Hv. cbv beta iota delta [negb].
    cbn [skills set_skills]. rewrite (skill_findById_delete_same id _ Hd). reflexivity.
  - intros j Hj. apply skill_findById_delete_other. exact Hj.
Qed.

(** What the store enforces on skills (distinct identifiers, distinct
    exact names, trimmed names) holds after creating, renaming or deleting
    a skill whenever it held before. *)
Theorem skill_constraints_are_kept (oid : ObjectId) (id : string)
    (name : option string) (db : DB) :
  skillIdsDistinct (skills db) = true ->
  skillNamesDistinct (skills db) = true ->
  namesTrimmed (skills db) = true ->
  forall db',
    db' = snd (createSkill oid name db)
    \/ db' = snd (updateSkill isValid id name db)
    \/ db' = snd (deleteSkill isValid id db) ->
    skillIdsDistinct (skills db') = true
    /\ skillNamesDistinct (skills db') = true
    /\ namesTrimmed (skills db') = true.
Proof.
  intros Hids Hnames Htrim db' Hdb'.
  assert (Hsame : skillIdsDistinct (skills db) = true
                  /\ skillNamesDistinct (skills db) = true
                  /\ namesTrimmed (skills db) = true) by auto.
  destruct Hdb' as [-> | [-> | ->]].
  - unfold createSkill.
    destruct name as [n|]; [|exact Hsame].
    destruct (blank (Some n)); [exact Hsame|].
    destruct (Skill.findOne _ _); [exact Hsame|].
    destruct (Skill.create oid (JS.trim n) (skills db)) as [[s ss']|e] eqn:Hc;
      [|exact Hsame].
    destruct (skill_create_ok _ _ _ _ _ Hc) as [-> [-> [_ [Hid Hnm]]]].
    cbn [snd skills set_skills].
    unfold skillIdsDistinct, skillNamesDistinct, namesTrimmed in *.
    rewrite !map_app, forallb_app, Htrim. cbn [map forallb Skill._id Skill.name].
    rewrite !trim_idempotent, String.eqb_refl. rewrite trim_idempotent in Hnm.
    split; [|split; [|reflexivity]].
    + apply distinctb_snoc; [exact Hids|].
      apply not_true_is_false. intro He. apply existsb_exists in He.
      destruct He as [y [Hy Hx]]. apply in_map_iff in Hy.
      destruct Hy as [d [<- Hd]]. apply String.eqb_eq in Hx.
      exact (Hid d Hd (eq_sym Hx)).
    + apply distinctb_snoc; [exact Hnames|].
      apply not_true_is_false. intro He. apply existsb_exists in He.
      destruct He as [y [Hy Hx]]. apply in_map_iff in Hy.
      destruct Hy as [d [<- Hd]]. apply String.eqb_eq in Hx.
      exact (Hnm d Hd (eq_sym Hx)).
  - unfold updateSkill.
    destruct name as [n|]; [|exact Hsame].
    destruct (blank (Some n)); [exact Hsame|].
    destruct (negb (isValid id)); [exact Hsame|].
    unfold Skill.findByIdAndUpdate.
    destruct (Skill.findById id (skills db)); [|exact Hsame].
    destruct (existsb _ (skills db)) eqn:He; [exact Hsame|].
    cbn [snd skills set_skills Skill.name].
    unfold skillIdsDistinct, skillNamesDistinct, namesTrimmed in *.
    rewrite skill_ids_updateOne.
    split; [exact Hids|]. split.
    + apply distinctb_NoDup. apply names_updateOne_NoDup.
      * apply distinctb_NoDup. exact Hids.
      * apply distinctb_NoDup. exact Hnames.
      * intros d Hd H1 H2.
        assert (Ht : existsb (fun d => negb (Skill._id d =? id)
                       && (Skill.name d =? JS.trim (JS.trim n))) (skills db) = true).
        { apply existsb_exists. exists d. split; [exact Hd|].
          apply String.eqb_neq in H1. rewrite H1, H2, String.eqb_refl. reflexivity. }
        cbn [Skill.name] in He. rewrite Ht in He. discriminate He.
    + rewrite forallb_forall in *. intros e Hin.
      destruct (skill_updateOne_In _ _ _ Hin) as [->|Hin']; [|exact (Htrim e Hin')].
      cbn [Skill.name]. rewrite trim_idempotent. apply String.eqb_refl.
  - unfold deleteSkill.
    destruct (negb (isValid id)); [exact Hsame|].
    destruct (Skill.findById id (skills db)); [|exact Hsame].
    cbn [snd skills set_skills].
    unfold skillIdsDistinct, skillNamesDistinct, namesTrimmed in *.
    split; [|split].
    + apply distinctb_NoDup. apply NoDup_map_delete. apply distinctb_NoDup. exact Hids.
    + apply distinctb_NoDup. apply NoDup_map_delete. apply distinctb_NoDup. exact Hnames.
    + rewrite forallb_forall in *. intros e Hin.
      exact (Htrim e (skill_delete_In id e _ Hin)).
Qed.

End SkillStoreProperties.

(** ** More of the resolver *)

Lemma sameName_sym (s d : Skill.t) : sameName s d = sameName d s.
Proof. unfold sameName, JS.eqb_ci. apply String.eqb_sym. Qed.

Lemma namesUnique_In (ss : list Skill.t) (s d : Skill.t) :
  namesUnique ss = true -> In s ss -> In d ss -> sameName s d = true -> s = d.
Proof.
  induction ss as [|x r IH]; simpl; [contradiction|].
  intros Hu Hs Hd Hsame.
  apply andb_true_iff in Hu. destruct Hu as [Hx Hr].
  rewrite forallb_forall in Hx.
  destruct Hs as [->|Hs], Hd as [->|Hd].
  - reflexivity.
  - specialize (Hx _ Hd). rewrite Hsame in Hx. discriminate Hx.
  - specialize (Hx _ Hs). rewrite sameName_sym, Hsame in Hx. discriminate Hx.
  - exact (IH Hr Hs Hd Hsame).
Qed.

Section MoreResolverProperties.

Variable isValid : string -> bool.
Variable regex_i : string -> option (string -> bool).

(** Resolving a name, alone: the collection is left as it was or gains
    exactly one skill, named by the trimmed token; an identifier that is
    returned is the identifier of a skill in the collection; a failure
    stores nothing; and what the store enforces on skills (distinct
    identifiers, distinct exact names, trimmed names) still holds. *)
Theorem resolve_name_result (oid : ObjectId) (skill : string) (ss : list Skill.t) :
  isValid skill = false ->
  let r := getOrCreateSkill isValid regex_i alone oid skill ss in
  (snd r = ss \/ snd r = ss ++ [Skill.mk oid (JS.trim skill)])
  /\ (forall id, fst r = Ok id -> exists s, In s (snd r) /\ Skill._id s = id)
  /\ (forall e, fst r = Throw e -> snd r = ss)
  /\ (skillIdsDistinct ss = true -> skillNamesDistinct ss = true ->
      namesTrimmed ss = true ->
      skillIdsDistinct (snd r) = true /\ skillNamesDistinct (snd r) = true
      /\ namesTrimmed (snd r) = true).
Proof.
  intros Hv r. subst r. unfold getOrCreateSkill. rewrite Hv.
  destruct (regex_i _) as [m|].
  2:{ cbn [fst snd]. repeat split; auto; discriminate. }
  destruct (Skill.findOne _ ss) as [s|] eqn:Hf.
  { cbn [fst snd]. split; [auto|]. split; [|split; [reflexivity|auto]].
    intros id H. injection H as <-. exists s. split; [|reflexivity].
    apply find_some in Hf. tauto. }
  unfold alone.
  destruct (Skill.create oid (JS.trim skill) ss) as [[s ss']|e] eqn:Hc.
  2:{ cbn [fst snd]. repeat split; auto; discriminate. }
  destruct (skill_create_ok _ _ _ _ _ Hc) as [-> [-> [_ [Hid Hnm]]]].
  rewrite trim_idempotent in *.
  cbn [fst snd Skill._id]. split; [auto|]. split; [|split; [discriminate|]].
  { intros id H. injection H as <-. exists (Skill.mk oid (JS.trim skill)).
    split; [|reflexivity]. apply in_or_app. right. left. reflexivity. }
  intros Hids Hnames Htrim.
  unfold skillIdsDistinct, skillNamesDistinct, namesTrimmed in *.
  rewrite !map_app, forallb_app, Htrim. cbn [map forallb Skill._id Skill.name].
  rewrite !trim_idempotent, String.eqb_refl.
  split; [|split; [|reflexivity]].
  - apply distinctb_snoc; [exact Hids|].
    apply not_true_is_false. intro He. apply existsb_exists in He.
    destruct He as [y [Hy Hx]]. apply in_map_iff in Hy.
    destruct Hy as [d [<- Hd]]. apply String.eqb_eq in Hx.
    exact (Hid d Hd (eq_sym Hx)).
  - apply distinctb_snoc; [exact Hnames|].
    apply not_true_is_false. intro He. apply existsb_exists in He.
    destruct He as [y [Hy Hx]]. apply in_map_iff in Hy.
    destruct Hy as [d [<- Hd]]. apply String.eqb_eq in Hx.
    exact (Hnm d Hd (eq_sym Hx)).
Qed.

(** A plain name that a stored skill spells, in whatever case and
    however spaced, resolves to that skill and creates nothing, in a
    collection of trimmed names that are unique up to case. *)
Theorem resolve_finds_existing (oid : ObjectId) (skill : string) (s : Skill.t)
    (ss : list Skill.t) :
  literalPatterns regex_i ->
  isValid skill = false ->
  plainName (JS.trim skill) = true ->
  namesTrimmed ss = true -> namesUnique ss = true ->
  In s ss -> JS.eqb_ci (JS.trim skill) (Skill.name s) = true ->
  getOrCreateSkill isValid regex_i alone oid skill ss = (Ok (Skill._id s), ss).
Proof.
  intros Hlit Hv Hplain Htrim Hu Hs Hci.
  destruct (Hlit _ Hplain) as [m [Hm Hspec]].
  unfold getOrCreateSkill. rewrite Hv, Hm.
  unfold namesTrimmed in Htrim. rewrite forallb_forall in Htrim.
  assert (Ht : forall d, In d ss -> JS.trim (Skill.name d) = Skill.name d).
  { intros d Hd. apply String.eqb_eq. exact (Htrim d Hd). }
  assert (Hp : (fun d => m (Skill.name d)) s = true).
  { cbv beta. rewrite (Hspec _ (Ht s Hs)). exact Hci. }
  destruct (find_some_of _ _ _ Hs Hp) as [d Hd].
  unfold Skill.findOne. rewrite Hd.
  apply find_some in Hd. destruct Hd as [Hin Hmd].
  rewrite (Hspec _ (Ht d Hin)) in Hmd.
  assert (E : d = s).
  { apply (namesUnique_In ss); auto.
    unfold sameName. rewrite (Ht d Hin), (Ht s Hs).
    unfold JS.eqb_ci in *. apply String.eqb_eq in Hci, Hmd.
    rewrite <- Hci, <- Hmd. apply String.eqb_refl. }
  rewrite E. reflexivity.
Qed.

(** A token of white space only that matches no stored skill is not
    turned into a skill: the creation fails validation (a name is
    required), the error is thrown to the caller and nothing is stored. *)
Theorem resolve_blank_token_fails (oid : ObjectId) (skill : string)
    (m : string -> bool) (ss : list Skill.t) :
  isValid skill = false ->
  JS.trim skill = "" ->
  regex_i "^$" = Some m ->
  (forall s, In s ss -> m (Skill.name s) = false) ->
  getOrCreateSkill isValid regex_i alone oid skill ss
  = (Throw (ValidationError "Skill validation failed: name: Path `name` is required."),
     ss).
Proof.
  intros Hv Hb Hm Hno. unfold getOrCreateSkill. rewrite Hv, Hb.
  change ("^" ++ "" ++ "$")%string with "^$". rewrite Hm.
  unfold Skill.findOne. rewrite (find_none_iff _ ss Hno).
  reflexivity.
Qed.

End MoreResolverProperties.

(** ** Conversations *)

Lemma insertAsc_perm (m : Message.t) (l : list Message.t) :
  Permutation (Conversation.insertAsc m l) (m :: l).
Proof.
  induction l as [|d r IH]; simpl; [apply Permutation_refl|].
  destruct (Message.createdAt m <=? Message.createdAt d)%nat.
  - apply Permutation_refl.
  - apply perm_trans with (d :: m :: r); [apply perm_skip; exact IH|apply perm_swap].
Qed.

Lemma sortAsc_perm (l : list Message.t) : Permutation (Conversation.sortAsc l) l.
Proof.
  induction l as [|c r IH]; simpl; [apply perm_nil|].
  apply perm_trans with (c :: Conversation.sortAsc r);
    [apply insertAsc_perm|apply perm_skip; exact IH].
Qed.

Lemma insertAsc_sorted (m : Message.t) (l : list Message.t) :
  StronglySorted oldestFirst l -> StronglySorted oldestFirst (Conversation.insertAsc m l).
Proof.
  induction 1 as [|d r Hr IH Hd]; simpl.
  - constructor; constructor.
  - destruct (Message.createdAt m <=? Message.createdAt d)%nat eqn:E.
    + apply Nat.leb_le in E. constructor; [constructor; assumption|].
      constructor; [exact E|].
      rewrite Forall_forall in *. intros e He. specialize (Hd e He).
      unfold oldestFirst in *. lia.
    + apply Nat.leb_gt in E. constructor; [exact IH|].
      rewrite Forall_forall in *. intros e He.
      apply (Permutation_in _ (insertAsc_perm m r)) in He.
      destruct He as [<-|He]; [unfold oldestFirst; lia|exact (Hd e He)].
Qed.

Lemma sortAsc_sorted (l : list Message.t) :
  StronglySorted oldestFirst (Conversation.sortAsc l).
Proof.
  induction l as [|c r IH]; simpl; [constructor|].
  apply insertAsc_sorted. exact IH.
Qed.

Lemma conversation_between_comm (a b : ObjectId) (m : Message.t) :
  Conversation.between a b m = Conversation.between b a m.
Proof. unfold Conversation.between. apply orb_comm. Qed.

Section ChatMoreProperties.

Variable isValid : string -> bool.

(** A malformed identifier of the other user is refused with 400.  For a
    well-formed identifier in printed form, the conversation of a user
    with the other is the stored messages from either of them to the
    other, each as often as it is stored, and no message that involves
    anyone else, oldest first, with sender and recipient populated; and
    both of them read the same conversation. *)
Theorem getMessages_conversation (userId : ObjectId) (otherUserId : string)
    (db : DB) :
  (isValid otherUserId = false ->
     getMessages isValid userId otherUserId db = (400, Failure "Invalid user ID"))
  /\ (isValid otherUserId = true -> canonicalId otherUserId = true ->
      exists docs,
        getMessages isValid userId otherUserId db = (200, Items docs)
        /\ Permutation (map Conversation.fields docs)
             (filter (fun m =>
                        (Message.sender m =? userId)
                        && (Message.recipient m =? otherUserId)
                        || (Message.sender m =? otherUserId)
                           && (Message.recipient m =? userId))
                     (messages db))
        /\ (forall m, In m (map Conversation.fields docs) <->
              In m (messages db)
              /\ ((Message.sender m = userId /\ Message.recipient m = otherUserId)
                  \/ (Message.sender m = otherUserId /\ Message.recipient m = userId)))
        /\ StronglySorted oldestFirst (map Conversation.fields docs)
        /\ Forall (fun d => d = Conversation.populate (users db) (Conversation.fields d))
             docs
        /\ (isValid userId = true -> canonicalId userId = true ->
              getMessages isValid otherUserId userId db = (200, Items docs))).
Proof.
  unfold getMessages. split; intro Hv; rewrite Hv; [reflexivity|].
  intros _.
  cbv beta iota delta [negb].
  eexists. split; [reflexivity|].
  rewrite map_map, map_id.
  split; [|split; [|split; [|split]]].
  - apply sortAsc_perm.
  - intro m. split.
    + intro H. apply (Permutation_in _ (sortAsc_perm _)) in H.
      apply filter_In in H. destruct H as [Hin Hq]. split; [exact Hin|].
      unfold Conversation.between in Hq. apply orb_true_iff in Hq.
      destruct Hq as [Hq|Hq]; apply andb_true_iff in Hq; destruct Hq as [H1 H2];
        apply String.eqb_eq in H1; apply String.eqb_eq in H2; auto.
    + intros [Hin Hq].
      apply (Permutation_in _ (Permutation_sym (sortAsc_perm _))).
      apply filter_In. split; [exact Hin|]. unfold Conversation.between.
      destruct Hq as [[-> ->]|[-> ->]]; rewrite !String.eqb_refl;
        [|rewrite orb_true_r]; reflexivity.
  - apply sortAsc_sorted.
  - apply Forall_forall. intros d Hd. apply in_map_iff in Hd.
    destruct Hd as [m [<- _]]. reflexivity.
  - intros Hu _. rewrite Hu. cbv beta iota delta [negb].
    rewrite (filter_ext (Conversation.between otherUserId userId)
               (Conversation.between userId otherUserId)
               (conversation_between_comm otherUserId userId)).
    reflexivity.
Qed.

Lemma sendMessage_success (oid : ObjectId) (now : nat) (A B : ObjectId)
    (s : string) (db : DB) :
  isValid B = true -> JS.trim s <> "" -> A <> B ->
  User.findById A (users db) <> None -> User.findById B (users db) <> None ->
  (forall m, In m (messages db) -> Message._id m <> oid) ->
  sendMessage isValid oid now A B (Some s) db
  = (json 201 (MessageJson (Message.mk oid A B (JS.trim s) false now)),
     set_messages db (messages db ++ [Message.mk oid A B (JS.trim s) false now])).
Proof.
  intros Hv Hne Hab HuA HuB Hfresh. unfold sendMessage.
  rewrite Hv. cbv beta iota delta [negb].
  assert (Hb : blank (Some s) = false).
  { apply not_true_is_false. intro H. apply blank_trim in H. contradiction. }
  assert (E : (A =? B) = false) by (apply String.eqb_neq; exact Hab).
  rewrite Hb, E.
  destruct (User.findById A (users db)); [|contradiction].
  destruct (User.findById B (users db)); [|contradiction].
  unfold Message.create.
  apply String.eqb_neq in Hne. rewrite Hne.
  assert (He : existsb (fun d => Message._id d =? oid) (messages db) = false).
  { apply not_true_is_false. intro He. apply existsb_exists in He.
    destruct He as [m [Hm Hx]]. apply String.eqb_eq in Hx. exact (Hfresh m Hm Hx). }
  rewrite He. reflexivity.
Qed.

(** A message that was sent is in the conversation that either party
    reads afterwards, with its content trimmed. *)
Theorem sendMessage_then_getMessages (oid : ObjectId) (now : nat) (A B : ObjectId)
    (s : string) (db : DB) :
  isValid A = true -> isValid B = true -> JS.trim s <> "" -> A <> B ->
  User.findById A (users db) <> None -> User.findById B (users db) <> None ->
  (forall m, In m (messages db) -> Message._id m <> oid) ->
  let db' := snd (sendMessage isValid oid now A B (Some s) db) in
  let sent := Conversation.populate (users db)
                (Message.mk oid A B (JS.trim s) false now) in
  exists docs,
    getMessages isValid A B db' = (200, Items docs)
    /\ getMessages isValid B A db' = (200, Items docs)
    /\ In sent docs.
Proof.
  intros HvA HvB Hne Hab HuA HuB Hfresh db' sent. subst db' sent.
  rewrite (sendMessage_success oid now A B s db HvB Hne Hab HuA HuB Hfresh).
  cbn [snd]. unfold getMessages. rewrite HvA, HvB. cbv beta iota delta [negb].
  cbn [users messages set_messages].
  eexists. split; [reflexivity|]. split.
  - rewrite (filter_ext (Conversation.between B A) (Conversation.between A B)
               (conversation_between_comm B A)).
    reflexivity.
  - apply in_map.
    apply (Permutation_in _ (Permutation_sym (sortAsc_perm _))).
    apply filter_In. split; [apply in_or_app; right; left; reflexivity|].
    unfold Conversation.between. cbn [Message.sender Message.recipient].
    rewrite !String.eqb_refl. reflexivity.
Qed.

End ChatMoreProperties.

(** ** Online users and the socket handlers *)

Lemma online_get_set_same (k v : string) (m : OnlineUsers.t) :
  OnlineUsers.get k (OnlineUsers.set k v m) = Some v.
Proof.
  unfold OnlineUsers.get.
  induction m as [|e r IH]; simpl.
  - rewrite String.eqb_refl. reflexivity.
  - destruct (fst e =? k) eqn:E; simpl.
    + rewrite String.eqb_refl. reflexivity.
    + rewrite E. exact IH.
Qed.

Lemma online_get_set_other (k j v : string) (m : OnlineUsers.t) :
  j <> k -> OnlineUsers.get j (OnlineUsers.set k v m) = OnlineUsers.get j m.
Proof.
  unfold OnlineUsers.get. intro Hne.
  assert (Ek : (k =? j) = false) by (apply String.eqb_neq; congruence).
  induction m as [|e r IH]; simpl.
  - rewrite Ek. reflexivity.
  - destruct (fst e =? k) eqn:E; simpl.
    + apply String.eqb_eq in E. rewrite E, Ek. reflexivity.
    + destruct (fst e =? j); [reflexivity|exact IH].
Qed.

Lemma online_keys_set (k v : string) (m : OnlineUsers.t) :
  NoDup (map fst m) -> NoDup (map fst (OnlineUsers.set k v m)).
Proof.
  induction m as [|e r IH]; simpl; intro H.
  - constructor; [intros []|constructor].
  - inversion H as [|? ? He Hr]; subst.
    destruct (String.eqb_spec (fst e) k) as [E|E]; simpl.
    + rewrite <- E. constructor; assumption.
    + constructor; [|exact (IH Hr)].
      intro Hin. apply in_map_iff in Hin. destruct Hin as [x [Hx Hin]].
      assert (Hk : forall y, In y (OnlineUsers.set k v r) -> y = (k, v) \/ In y r).
      { clear. induction r as [|d r IHr]; simpl; [intros y [<-|[]]; auto|].
        destruct (fst d =? k); simpl; intros y [<-|Hy]; auto.
        destruct (IHr y Hy); auto. }
      destruct (Hk x Hin) as [->|Hx'].
      * simpl in Hx. congruence.
      * apply He. rewrite <- Hx. apply in_map. exact Hx'.
Qed.

Lemma online_delete_In (k : string) (m : OnlineUsers.t) (e : string * string) :
  In e (OnlineUsers.delete k m) -> In e m.
Proof.
  induction m as [|d r IH]; simpl; [tauto|].
  destruct (fst d =? k); [tauto|].
  intros [<-|H]; auto.
Qed.

Lemma online_get_delete_other (k j : string) (m : OnlineUsers.t) :
  j <> k -> OnlineUsers.get j (OnlineUsers.delete k m) = OnlineUsers.get j m.
Proof.
  unfold OnlineUsers.get. intro Hne.
  induction m as [|e r IH]; simpl; [reflexivity|].
  destruct (fst e =? k) eqn:E; simpl.
  - apply String.eqb_eq in E.
    assert (Ej : (fst e =? j) = false) by (apply String.eqb_neq; congruence).
    rewrite Ej. reflexivity.
  - destruct (fst e =? j); [reflexivity|exact IH].
Qed.

Lemma online_get_delete_same (k : string) (m : OnlineUsers.t) :
  NoDup (map fst m) -> OnlineUsers.get k (OnlineUsers.delete k m) = None.
Proof.
  unfold OnlineUsers.get.
  induction m as [|e r IH]; simpl; intro H; [reflexivity|].
  inversion H as [|? ? He Hr]; subst.
  destruct (fst e =? k) eqn:E; simpl.
  - apply String.eqb_eq in E. rewrite find_none_iff; [reflexivity|].
    intros x Hx. apply String.eqb_neq. intro Hk. apply He.
    rewrite E, <- Hk. apply in_map. exact Hx.
  - rewrite E. exact (IH Hr).
Qed.

Lemma online_keys_delete (k : string) (m : OnlineUsers.t) :
  NoDup (map fst m) -> NoDup (map fst (OnlineUsers.delete k m)).
Proof.
  induction m as [|e r IH]; simpl; intro H; [constructor|].
  inversion H as [|? ? He Hr]; subst.
  destruct (fst e =? k); [exact Hr|].
  simpl. constructor; [|exact (IH Hr)].
  intro Hin. apply in_map_iff in Hin. destruct Hin as [x [Hx Hin]].
  apply He. rewrite <- Hx. apply in_map. exact (online_delete_In k r x Hin).
Qed.

Lemma online_get_In (k v : string) (m : OnlineUsers.t) :
  OnlineUsers.get k m = Some v -> In (k, v) m.
Proof.
  unfold OnlineUsers.get. intro H.
  destruct (find _ m) as [e|] eqn:E; [|discriminate H].
  apply find_some in E. destruct E as [Hin Hk]. apply String.eqb_eq in Hk.
  injection H as <-. destruct e as [a b]. simpl in *. subst a. exact Hin.
Qed.

(** Identifying a user on a socket: the user is then found on that
    socket, whatever socket the user was on before; every other user is
    found as before; and the map keeps one entry per user. *)
Theorem identify_then_lookup (userId socketId : string) (m : OnlineUsers.t) :
  OnlineUsers.get userId (OnlineUsers.identify userId socketId m) = Some socketId
  /\ (forall v, v <> userId ->
        OnlineUsers.get v (OnlineUsers.identify userId socketId m)
        = OnlineUsers.get v m)
  /\ (NoDup (map fst m) ->
        NoDup (map fst (OnlineUsers.identify userId socketId m))).
Proof.
  unfold OnlineUsers.identify.
  split; [apply online_get_set_same|].
  split; [intros v Hv; apply online_get_set_other; exact Hv|].
  apply online_keys_set.
Qed.

(** A disconnecting socket, in a map with one entry per user: users on
    other sockets stay as they are, at most one entry is removed, and when
    at most one user was on the socket no user is found on it
    afterwards. *)
Theorem disconnect_removes_socket (socketId : string) (m : OnlineUsers.t) :
  NoDup (map fst m) ->
  (forall v s, OnlineUsers.get v m = Some s -> s <> socketId ->
     OnlineUsers.get v (OnlineUsers.disconnect socketId m) = Some s)
  /\ List.length m <= S (List.length (OnlineUsers.disconnect socketId m))
  /\ NoDup (map fst (OnlineUsers.disconnect socketId m))
  /\ ((forall u v, OnlineUsers.get u m = Some socketId ->
         OnlineUsers.get v m = Some socketId -> u = v) ->
      forall u, OnlineUsers.get u (OnlineUsers.disconnect socketId m)
                <> Some socketId).
Proof.
  intro Hk. unfold OnlineUsers.disconnect.
  destruct (find (fun e => snd e =? socketId) m) as [e|] eqn:Hf.
  2:{ split; [auto|]. split; [lia|]. split; [exact Hk|].
      intros _ u Hu. apply online_get_In in Hu.
      pose proof (find_none _ _ Hf _ Hu) as Hn. simpl in Hn.
      rewrite String.eqb_refl in Hn. discriminate Hn. }
  apply find_some in Hf. destruct Hf as [Hin Hs]. apply String.eqb_eq in Hs.
  assert (Hget : OnlineUsers.get (fst e) m = Some socketId).
  { unfold OnlineUsers.get.
    assert (Hp : (fun x : string * string => fst x =? fst e) e = true)
      by apply String.eqb_refl.
    destruct (find_some_of _ _ _ Hin Hp) as [y Hy]. rewrite Hy.
    apply find_some in Hy. destruct Hy as [Hy1 Hy2]. apply String.eqb_eq in Hy2.
    assert (E : y = e).
    { clear - Hk Hin Hy1 Hy2. induction m as [|d r IH]; [contradiction|].
      simpl in Hk. inversion Hk as [|? ? Hd Hr]; subst.
      destruct Hin as [->|Hin], Hy1 as [->|Hy1]; auto.
      - exfalso. apply Hd. rewrite <- Hy2. apply in_map. exact Hy1.
      - exfalso. apply Hd. rewrite Hy2. apply in_map. exact Hin. }
    rewrite E. simpl. rewrite Hs. reflexivity. }
  split; [|split; [|split]].
  - intros v s Hv Hne. rewrite online_get_delete_other; [exact Hv|].
    intro E. subst v. rewrite Hget in Hv. injection Hv as <-. apply Hne. reflexivity.
  - clear. induction m as [|d r IH]; simpl; [lia|].
    destruct (fst d =? fst e); simpl; lia.
  - apply online_keys_delete. exact Hk.
  - intros Hone u Hu.
    destruct (String.eqb_spec u (fst e)) as [E|E].
    + subst u. rewrite (online_get_delete_same _ _ Hk) in Hu. discriminate Hu.
    + rewrite (online_get_delete_other _ _ _ E) in Hu.
      exact (E (Hone _ _ Hu Hget)).
Qed.

Section SocketProperties.

Variable isValid : string -> bool.

(** A chat message over the socket is stored exactly when both
    identifiers are well formed, a content is given that is not empty and
    the new identifier is fresh.  It is then stored with the content as
    it came (untrimmed), whoever the two users are (the same user, or users
    that do not exist); it is emitted to the recipient's socket when the
    recipient is online, and last to the sending socket.  Otherwise the
    sending socket alone receives an error and nothing is stored. *)
Theorem onChatMessage_contract (oid : ObjectId) (now : nat) (socketId : string)
    (senderId recipientId : string) (content : option string)
    (online : OnlineUsers.t) (db : DB) :
  let r := onChatMessage isValid oid now socketId senderId recipientId content
             online db in
  let ok :=
    isValid senderId = true /\ isValid recipientId = true
    /\ (exists c, content = Some c /\ c <> "")
    /\ (forall m, In m (messages db) -> Message._id m <> oid) in
  (ok ->
     forall c, content = Some c ->
       snd r = set_messages db
                 (messages db ++ [Message.mk oid senderId recipientId c false now])
       /\ exists toRecipient,
            fst r = toRecipient ++ [ChatMessage socketId oid senderId recipientId c now]
            /\ (forall s, s <> "" ->
                  (OnlineUsers.get recipientId online = Some s <->
                   toRecipient = [ChatMessage s oid senderId recipientId c now]))
            /\ (OnlineUsers.get recipientId online = None \/
                OnlineUsers.get recipientId online = Some "" <-> toRecipient = []))
  /\ (~ ok -> r = ([ErrorEvent socketId "Failed to send message"], db)).
Proof.
  intros r ok. subst r ok. unfold onChatMessage.
  destruct (isValid senderId) eqn:Hs; cbv beta iota delta [negb orb].
  2:{ split; [intros [H _]; discriminate H|reflexivity]. }
  destruct (isValid recipientId) eqn:Hr; cbv beta iota delta [negb orb].
  2:{ split; [intros [_ [H _]]; discriminate H|reflexivity]. }
  unfold Message.create.
  destruct content as [c|].
  2:{ cbn [String.eqb]. split; [|reflexivity].
      intros [_ [_ [[c [H _]] _]]]. discriminate H. }
  destruct (String.eqb_spec c "") as [Hc|Hc].
  { split; [|reflexivity].
    intros [_ [_ [[c0 [H0 H1]] _]]]. injection H0 as <-. contradiction. }
  destruct (existsb (fun d => Message._id d =? oid) (messages db)) eqn:He.
  { split; [|reflexivity].
    intros [_ [_ [_ Hfresh]]]. exfalso.
    apply existsb_exists in He. destruct He as [m [Hm Hx]].
    apply String.eqb_eq in Hx. exact (Hfresh m Hm Hx). }
  split.
  2:{ intro Hno. exfalso. apply Hno. repeat split; auto.
      - exists c. auto.
      - intros m Hm Hx.
        assert (Ht : existsb (fun d => Message._id d =? oid) (messages db) = true).
        { apply existsb_exists. exists m. split; [exact Hm|].
          rewrite Hx. apply String.eqb_refl. }
        rewrite Ht in He. discriminate He. }
  intros _ c0 H0. injection H0 as <-.
  cbn [fst snd Message._id Message.createdAt].
  split; [reflexivity|].
  eexists. split; [reflexivity|].
  destruct (OnlineUsers.get recipientId online) as [s0|].
  - unfold JS.truthy. destruct (String.eqb_spec s0 "") as [E|E]; cbn [negb].
    + subst s0. split.
      * intros s Hs0. split; [|discriminate].
        intro H. injection H as H1. exfalso. apply Hs0. symmetry. exact H1.
      * split; [reflexivity|auto].
    + split.
      * intros s Hs0. split; intro H; injection H as H1; rewrite H1; reflexivity.
      * split; [|discriminate].
        intros [H|H]; [discriminate H|]. injection H as H1. contradiction.
  - split.
    + intros s Hs0. split; discriminate.
    + split; [reflexivity|auto].
Qed.

(** A message whose recipient is spelled exactly as its sender, an
    identifier in printed form: the HTTP endpoint answers 400 and stores
    nothing, the socket handler stores the message, at the end of the
    collection, with its content as it came. *)
Theorem socket_stores_message_to_self (oid : ObjectId) (now : nat)
    (socketId userId c : string) (online : OnlineUsers.t) (db : DB) :
  isValid userId = true -> canonicalId userId = true -> c <> "" ->
  (forall m, In m (messages db) -> Message._id m <> oid) ->
  snd (sendMessage isValid oid now userId userId (Some c) db) = db
  /\ code (fst (sendMessage isValid oid now userId userId (Some c) db)) = 400
  /\ snd (onChatMessage isValid oid now socketId userId userId (Some c) online db)
     = mkDB (users db) (skills db) (connections db)
         (messages db ++ [Message.mk oid userId userId c false now]).
Proof.
  intros Hv _ Hc Hfresh. split; [|split].
  - unfold sendMessage. rewrite Hv, String.eqb_refl. cbv beta iota delta [negb].
    destruct (blank (Some c)); reflexivity.
  - unfold sendMessage. rewrite Hv, String.eqb_refl. cbv beta iota delta [negb].
    destruct (blank (Some c)); reflexivity.
  - unfold onChatMessage. rewrite Hv. cbv beta iota delta [negb orb].
    unfold Message.create. apply String.eqb_neq in Hc. rewrite Hc.
    assert (He : existsb (fun d => Message._id d =? oid) (messages db) = false).
    { apply not_true_is_false. intro He. apply existsb_exists in He.
      destruct He as [m [Hm Hx]]. apply String.eqb_eq in Hx. exact (Hfresh m Hm Hx). }
    rewrite He. reflexivity.
Qed.

(** Once a user's socket has disconnected, a chat message to that user is
    emitted to the sending socket only. *)
Theorem disconnected_user_gets_no_emit (oid : ObjectId) (now : nat)
    (socketId senderId recipientId recipientSocket c : string)
    (online : OnlineUsers.t) (db : DB) :
  NoDup (map fst online) ->
  isValid senderId = true -> isValid recipientId = true -> c <> "" ->
  (forall m, In m (messages db) -> Message._id m <> oid) ->
  let online' :=
    OnlineUsers.disconnect recipientSocket
      (OnlineUsers.identify recipientId recipientSocket online) in
  (forall u, OnlineUsers.get u online = Some recipientSocket -> u = recipientId) ->
  fst (onChatMessage isValid oid now socketId senderId recipientId (Some c) online' db)
  = [ChatMessage socketId oid senderId recipientId c now].
Proof.
  intros Hk Hs Hr Hc Hfresh online' Honly.
  assert (Hnone : OnlineUsers.get recipientId online' = None).
  { subst online'. unfold OnlineUsers.disconnect, OnlineUsers.identify.
    pose proof (online_get_set_same recipientId recipientSocket online) as Hget.
    pose proof (online_keys_set recipientId recipientSocket online Hk) as Hk'.
    destruct (find _ (OnlineUsers.set recipientId recipientSocket online))
      as [e|] eqn:Hf.
    - apply find_some in Hf. destruct Hf as [Hin He]. apply String.eqb_eq in He.
      assert (E : fst e = recipientId).
      { destruct (String.eqb_spec (fst e) recipientId) as [E|E]; [exact E|].
        apply Honly. rewrite <- (online_get_set_other recipientId (fst e)
                                  recipientSocket online E).
        unfold OnlineUsers.get.
        assert (Hp : (fun x : string * string => fst x =? fst e) e = true)
          by apply String.eqb_refl.
        destruct (find_some_of _ _ _ Hin Hp) as [y Hy]. rewrite Hy.
        apply find_some in Hy. destruct Hy as [Hy1 Hy2]. apply String.eqb_eq in Hy2.
        assert (Ey : y = e).
        { clear - Hk' Hin Hy1 Hy2.
          induction (OnlineUsers.set recipientId recipientSocket online)
            as [|d r IH]; [contradiction|].
          simpl in Hk'. inversion Hk' as [|? ? Hd Hr]; subst.
          destruct Hin as [->|Hin], Hy1 as [->|Hy1]; auto.
          - exfalso. apply Hd. rewrite <- Hy2. apply in_map. exact Hy1.
          - exfalso. apply Hd. rewrite Hy2. apply in_map. exact Hin. }
        rewrite Ey. simpl. rewrite He. reflexivity. }
      rewrite E. apply online_get_delete_same. exact Hk'.
    - apply online_get_In in Hget.
      pose proof (find_none _ _ Hf _ Hget) as Hn. simpl in Hn.
      rewrite String.eqb_refl in Hn. discriminate Hn. }
  unfold onChatMessage. rewrite Hs, Hr, Hnone. cbv beta iota delta [negb orb].
  unfold Message.create. apply String.eqb_neq in Hc. rewrite Hc.
  assert (He : existsb (fun d => Message._id d =? oid) (messages db) = false).
  { apply not_true_is_false. intro He. apply existsb_exists in He.
    destruct He as [m [Hm Hx]]. apply String.eqb_eq in Hx. exact (Hfresh m Hm Hx). }
  rewrite He. reflexivity.
Qed.

End SocketProperties.

(** ** The further properties at work on the sample data *)

Lemma reject_guards_witness :
  rejectConnectionRequest isHex24 20 bobId conn1Id dbThree
  = (json 200 (MsgConnection "Connection request rejected successfully"
                 (Connection.mkdoc
                    (Connection.mk conn1Id aliceId bobId REJECTED (Some "hi") 10 20)
                    (Connection.Id aliceId) (Connection.Id bobId))),
     mkDB [alice; bob; carol] []
       [conn3; Connection.mk conn1Id aliceId bobId REJECTED (Some "hi") 10 20; conn2]
       [])
  /\ rejectConnectionRequest isHex24 20 aliceId conn1Id dbThree
     = (json 403 (Err "You can only reject requests sent to you"), dbThree).
Proof.
  pose proof (reject_guards isHex24 20 bobId conn1Id dbThree eq_refl eq_refl) as H.
  cbv zeta in H. destruct H as [_ [_ [H _]]].
  destruct (H conn1 eq_refl) as [_ [_ H3]].
  assert (Hne : Connection.requester conn1 <> Connection.recipient conn1)
    by (vm_compute; discriminate).
  destruct (H3 eq_refl eq_refl Hne) as [l1 [l2 [Hcs [Hl1 [Hr _]]]]].
  split.
  { rewrite Hr. f_equal. f_equal.
    transitivity (Connection.updateOne
                    (Connection.mk conn1Id aliceId bobId REJECTED (Some "hi") 10 20)
                    (connections dbThree)); [|reflexivity].
    symmetry.
    exact (proj2 (split_determined conn1Id _ l1 l2 conn1 Hcs Hl1 eq_refl)
             (Connection.mk conn1Id aliceId bobId REJECTED (Some "hi") 10 20)
             eq_refl). }
  pose proof (reject_guards isHex24 20 aliceId conn1Id dbThree eq_refl eq_refl) as G.
  cbv zeta in G. destruct G as [_ [_ [G _]]].
  destruct (G conn1 eq_refl) as [G1 _].
  apply G1. vm_compute. discriminate.
Defined.

Lemma cancel_contract_witness :
  cancelConnectionRequest isHex24 aliceId conn1Id dbThree
  = (json 200 (Msg "Connection request cancelled successfully"),
     mkDB [alice; bob; carol] [] [conn3; conn2] [])
  /\ getConnectionStatus isHex24 bobId aliceId
       (snd (cancelConnectionRequest isHex24 aliceId conn1Id dbThree))
     = (json 200 (StatusNone "none" "No connection exists"),
        snd (cancelConnectionRequest isHex24 aliceId conn1Id dbThree))
  /\ snd (cancelConnectionRequest isHex24 bobId conn1Id dbThree) = dbThree.
Proof.
  pose proof (cancel_contract isHex24 aliceId conn1Id dbThree
                eq_refl eq_refl eq_refl) as H.
  cbv zeta in H. destruct H as [_ [[_ H1] [H2 _]]].
  assert (H200 : code (fst (cancelConnectionRequest isHex24 aliceId conn1Id dbThree))
                 = 200).
  { apply H1. exists conn1. split; [reflexivity|]. split; reflexivity. }
  destruct (H2 conn1 eq_refl H200) as [[l1 [l2 [Hcs [Hl1 Hdb]]]] [_ [_ Hst]]].
  split.
  { rewrite Hdb. f_equal. f_equal.
    transitivity (Connection.findByIdAndDelete conn1Id (connections dbThree));
      [|reflexivity].
    symmetry.
    exact (proj1 (split_determined conn1Id _ l1 l2 conn1 Hcs Hl1 eq_refl)). }
  split.
  { apply Hst; [right; split; reflexivity|reflexivity|].
    vm_compute. discriminate. }
  pose proof (cancel_contract isHex24 bobId conn1Id dbThree
                eq_refl eq_refl eq_refl) as G.
  cbv zeta in G. destruct G as [_ [[G1 _] [_ G3]]].
  apply G3. intro Hc. destruct (G1 Hc) as [c [Hf [Hu _]]].
  injection Hf as <-. discriminate Hu.
Defined.

Lemma send_contract_witness :
  sendConnectionRequest isHex24 conn1Id 10 aliceId bobId (Some "  hi ") dbUsers
  = (json 201 (MsgConnection "Connection request sent successfully"
                 (Connection.mkdoc conn1 (Connection.Populated (Some alice))
                    (Connection.Populated (Some bob)))),
     dbPending)
  /\ snd (sendConnectionRequest isHex24 conn2Id 11 bobId aliceId None dbPending)
     = dbPending.
Proof.
  pose proof (send_contract isHex24 conn1Id 10 aliceId bobId (Some "  hi ") dbUsers
                eq_refl) as H.
  cbv zeta in H. destruct H as [[_ H1] [H2 _]].
  assert (H201 : code (fst (sendConnectionRequest isHex24 conn1Id 10 aliceId bobId
                              (Some "  hi ") dbUsers)) = 201).
  { apply H1. split; [reflexivity|]. split; [vm_compute; discriminate|].
    split; [vm_compute; discriminate|]. split; [reflexivity|].
    split; [intros t Ht; vm_compute in Ht; injection Ht as <-; vm_compute; lia
           |intros d []]. }
  destruct (H2 H201) as [H3 H4].
  split.
  { rewrite (surjective_pairing (sendConnectionRequest isHex24 conn1Id 10 aliceId
                                   bobId (Some "  hi ") dbUsers)).
    rewrite H3, H4. reflexivity. }
  pose proof (send_contract isHex24 conn2Id 11 bobId aliceId None dbPending
                eq_refl) as G.
  cbv zeta in G. destruct G as [[G1 _] [_ G3]].
  apply G3. intro Hc. destruct (G1 Hc) as [_ [_ [_ [Hg _]]]].
  vm_compute in Hg. discriminate Hg.
Defined.

Lemma send_then_status_witness :
  getConnectionStatus isHex24 aliceId bobId dbPending
  = (json 200 (StatusOf PENDING "request_sent" (Connection.plain conn1)), dbPending)
  /\ getConnectionStatus isHex24 bobId aliceId dbPending
     = (json 200 (StatusOf PENDING "request_received" (Connection.plain conn1)),
        dbPending).
Proof.
  refine (send_then_status isHex24 conn1Id 10 aliceId bobId (Some "hi") dbUsers
            eq_refl eq_refl _ _ _ eq_refl _ _).
  - vm_compute. discriminate.
  - vm_compute. discriminate.
  - vm_compute. discriminate.
  - intros t Ht. injection Ht as <-. vm_compute. lia.
  - intros d [].
Defined.

Lemma accept_then_connected_witness :
  getConnectionStatus isHex24 aliceId bobId dbAccepted
  = (json 200 (StatusOf ACCEPTED "connected"
                 (Connection.plain
                    (Connection.touch (Connection.set_status conn1 ACCEPTED) 20))),
     dbAccepted).
Proof.
  refine (proj1 (accept_then_connected isHex24 20 conn1Id conn1 dbPending
                   eq_refl eq_refl eq_refl eq_refl _ eq_refl eq_refl _ _)).
  - vm_compute. discriminate.
  - vm_compute. discriminate.
  - vm_compute. discriminate.
Defined.

Lemma settled_record_is_frozen_witness :
  snd (acceptConnectionRequest isHex24 30 bobId conn1Id dbRejected) = dbRejected
  /\ snd (removeConnection isHex24 aliceId conn1Id dbRejected) = dbRejected.
Proof.
  pose proof (settled_record_is_frozen isHex24 conn1Id
                (Connection.touch (Connection.set_status conn1 REJECTED) 20)
                dbRejected eq_refl (or_introl eq_refl) 30 bobId) as Hb.
  pose proof (settled_record_is_frozen isHex24 conn1Id
                (Connection.touch (Connection.set_status conn1 REJECTED) 20)
                dbRejected eq_refl (or_introl eq_refl) 30 aliceId) as Ha.
  destruct Hb as [[_ H1] _]. destruct Ha as [_ [_ [_ [_ H4]]]].
  split; assumption.
Defined.

Lemma transitions_keep_pairs_unique_witness :
  pairUnique (connections (snd (acceptConnectionRequest isHex24 20 bobId conn1Id
                                  dbPending))) = true.
Proof.
  exact (proj1 (transitions_keep_pairs_unique isHex24 20 bobId conn1Id dbPending
                  eq_refl)).
Defined.

Lemma connection_ids_stay_distinct_witness :
  connectionIdsDistinct
    (connections (snd (sendConnectionRequest isHex24 conn2Id 11 carolId bobId None
                         dbPending))) = true.
Proof.
  exact (proj1 (connection_ids_stay_distinct isHex24 conn2Id 11 carolId bobId None
                  dbPending eq_refl)).
Defined.

Lemma no_self_connection_is_kept_witness :
  noSelfConnection
    (connections (snd (sendConnectionRequest isHex24 conn2Id 11 carolId bobId None
                         dbPending))) = true.
Proof.
  exact (proj1 (no_self_connection_is_kept isHex24 conn2Id 11 carolId bobId None
                  dbPending eq_refl)).
Defined.

Lemma all_requests_fail_on_missing_party_witness :
  code (fst (getAllConnectionRequests bobId None dbOrphan)) = 500.
Proof.
  refine (proj1 (all_requests_fail_on_missing_party bobId None conn1 dbOrphan
                   _ (or_intror eq_refl) (or_introl eq_refl) (or_introl eq_refl))).
  left. reflexivity.
Defined.

Lemma all_requests_lists_empty_witness :
  (@nil Connection.doc) = [] /\ (@nil Connection.doc) = []
  /\ 1 = List.length [populateBoth dbPending conn1].
Proof.
  exact (all_requests_lists_empty aliceId None dbPending 1 [] []
           [populateBoth dbPending conn1] dbPending eq_refl eq_refl).
Defined.

Lemma createSkill_contract_witness :
  createSkill skill2Id (Some "  React  ") dbPython
  = (json 201 (SkillJson (Skill.mk skill2Id "React")),
     set_skills dbPython [Skill.mk skill1Id "python"; Skill.mk skill2Id "React"]).
Proof.
  pose proof (createSkill_contract skill2Id (Some "  React  ") dbPython) as H.
  cbv zeta in H. destruct H as [[_ H1] [H2 _]].
  apply (H2 "  React  " eq_refl). apply H1.
  exists "  React  ". split; [reflexivity|]. split; [vm_compute; discriminate|].
  split; intros d [<-|[]]; vm_compute; discriminate.
Defined.

Lemma createSkill_then_get_witness :
  getSkillById isHex24 skill2Id (snd (createSkill skill2Id (Some "React") dbPython))
  = json 200 (SkillJson (Skill.mk skill2Id "React"))
  /\ createSkill skill3Id (Some " React")
       (snd (createSkill skill2Id (Some "React") dbPython))
     = (json 400 (Err "Skill already exists"),
        snd (createSkill skill2Id (Some "React") dbPython)).
Proof.
  refine (createSkill_then_get isHex24 skill2Id skill3Id "React" " React" dbPython
            eq_refl _ _ _ eq_refl).
  - vm_compute. discriminate.
  - intros d [<-|[]]. vm_compute. discriminate.
  - intros d [<-|[]]. vm_compute. discriminate.
Defined.

Lemma updateSkill_contract_witness :
  updateSkill isHex24 skill2Id (Some " Kotlin ") dbThreeSkills
  = (json 200 (SkillJson (Skill.mk skill2Id "Kotlin")),
     mkDB [alice]
       [Skill.mk skill1Id "Python"; Skill.mk skill2Id "Kotlin";
        Skill.mk skill3Id "Rust"] [] [])
  /\ snd (updateSkill isHex24 skill2Id (Some "Rust") dbThreeSkills) = dbThreeSkills.
Proof.
  pose proof (updateSkill_contract isHex24 skill2Id (Some " Kotlin ") dbThreeSkills
                eq_refl) as H.
  cbv zeta in H. destruct H as [[_ H1] [H2 _]].
  assert (H200 : code (fst (updateSkill isHex24 skill2Id (Some " Kotlin ")
                              dbThreeSkills)) = 200).
  { apply H1. exists " Kotlin ". split; [reflexivity|].
    split; [vm_compute; discriminate|]. split; [reflexivity|].
    split; [vm_compute; discriminate|].
    intros d [<-|[<-|[<-|[]]]] Hid; vm_compute; discriminate. }
  destruct (H2 " Kotlin " eq_refl H200)
    as [H3 [[l1 [s [l2 [Hss [Hid [Hl1 Hdb]]]]]] _]].
  split.
  { rewrite (surjective_pairing (updateSkill isHex24 skill2Id (Some " Kotlin ")
                                   dbThreeSkills)).
    rewrite H3, Hdb. f_equal. f_equal.
    transitivity (Skill.updateOne (Skill.mk skill2Id "Kotlin") (skills dbThreeSkills));
      [|reflexivity].
    symmetry.
    exact (proj2 (skill_split_determined skill2Id _ l1 l2 s Hss Hid Hl1)
             (Skill.mk skill2Id "Kotlin") eq_refl). }
  pose proof (updateSkill_contract isHex24 skill2Id (Some "Rust") dbThreeSkills
                eq_refl) as G.
  cbv zeta in G. destruct G as [[G1 _] [_ G3]].
  apply G3. intro Hc. destruct (G1 Hc) as [n [Hn [_ [_ [_ Hother]]]]].
  injection Hn as <-.
  apply (Hother (Skill.mk skill3Id "Rust")).
  - right. right. left. reflexivity.
  - vm_compute. discriminate.
  - reflexivity.
Defined.

Lemma deleteSkill_contract_witness :
  deleteSkill isHex24 skill2Id dbThreeSkills
  = (json 200 (Msg "Skill deleted"),
     mkDB [alice] [Skill.mk skill1Id "Python"; Skill.mk skill3Id "Rust"] [] [])
  /\ getSkillById isHex24 skill2Id (snd (deleteSkill isHex24 skill2Id dbThreeSkills))
     = json 404 (Err "Skill not found").
Proof.
  pose proof (deleteSkill_contract isHex24 skill2Id dbThreeSkills eq_refl) as H.
  cbv zeta in H. destruct H as [[_ H1] [H2 _]].
  assert (H200 : code (fst (deleteSkill isHex24 skill2Id dbThreeSkills)) = 200).
  { apply H1. split; [reflexivity|vm_compute; discriminate]. }
  destruct (H2 H200) as [H3 [[l1 [s [l2 [Hss [Hid [Hl1 Hdb]]]]]] [H4 _]]].
  split; [|exact (H4 eq_refl)].
  rewrite (surjective_pairing (deleteSkill isHex24 skill2Id dbThreeSkills)).
  rewrite H3, Hdb. f_equal. f_equal.
  transitivity (SkillQueries.findByIdAndDelete skill2Id (skills dbThreeSkills));
    [|reflexivity].
  symmetry.
  exact (proj1 (skill_split_determined skill2Id _ l1 l2 s Hss Hid Hl1)).
Defined.

Lemma skill_constraints_are_kept_witness :
  skillNamesDistinct
    (skills (snd (updateSkill isHex24 skill2Id (Some "Kotlin") dbTwoSkills))) = true.
Proof.
  exact (proj1 (proj2 (skill_constraints_are_kept isHex24 skill3Id skill2Id
                         (Some "Kotlin") dbTwoSkills eq_refl eq_refl eq_refl _
                         (or_intror (or_introl eq_refl))))).
Defined.

Lemma resolve_name_result_witness :
  snd (getOrCreateSkill isHex24 literal_i alone skill3Id " Rust " (skills dbTwoSkills))
  = skills dbTwoSkills
  \/ snd (getOrCreateSkill isHex24 literal_i alone skill3Id " Rust "
            (skills dbTwoSkills))
     = skills dbTwoSkills ++ [Skill.mk skill3Id (JS.trim " Rust ")].
Proof.
  pose proof (resolve_name_result isHex24 literal_i skill3Id " Rust "
                (skills dbTwoSkills) eq_refl) as H.
  cbv zeta in H. destruct H as [H _]. exact H.
Defined.

Lemma resolve_finds_existing_witness :
  getOrCreateSkill isHex24 literal_i alone skill3Id "  PYTHON " (skills dbTwoSkills)
  = (Ok skill1Id, skills dbTwoSkills).
Proof.
  refine (resolve_finds_existing isHex24 literal_i skill3Id "  PYTHON "
            (Skill.mk skill1Id "Python") (skills dbTwoSkills)
            literal_i_literalPatterns eq_refl eq_refl eq_refl eq_refl _ eq_refl).
  left. reflexivity.
Defined.

Lemma resolve_blank_token_fails_witness :
  getOrCreateSkill isHex24 literal_i alone skill3Id "   " (skills dbTwoSkills)
  = (Throw (ValidationError "Skill validation failed: name: Path `name` is required."),
     skills dbTwoSkills).
Proof.
  refine (resolve_blank_token_fails isHex24 literal_i skill3Id "   "
            (fun nm => JS.eqb_ci "" nm) (skills dbTwoSkills)
            eq_refl eq_refl eq_refl _).
  intros s [<-|[<-|[]]]; reflexivity.
Defined.

Lemma getMessages_conversation_witness :
  exists docs,
    getMessages isHex24 aliceId bobId dbChat = (200, Items docs)
    /\ getMessages isHex24 bobId aliceId dbChat = (200, Items docs)
    /\ docs = [Conversation.mkdoc msgBA
                 (Some (Conversation.mkparty bobId "Bob" "bob@example.com"))
                 (Some (Conversation.mkparty aliceId "Alice" "alice@example.com"));
               Conversation.mkdoc msgAB
                 (Some (Conversation.mkparty aliceId "Alice" "alice@example.com"))
                 (Some (Conversation.mkparty bobId "Bob" "bob@example.com"))].
Proof.
  pose proof (getMessages_conversation isHex24 aliceId bobId dbChat) as H.
  destruct H as [_ H].
  destruct (H eq_refl eq_refl) as [docs [H1 [_ [_ [_ [_ H5]]]]]].
  exists docs. split; [exact H1|]. split; [exact (H5 eq_refl eq_refl)|].
  vm_compute in H1. injection H1 as <-. reflexivity.
Defined.

Lemma sendMessage_then_getMessages_witness :
  exists docs,
    getMessages isHex24 aliceId bobId
      (snd (sendMessage isHex24 msg1Id 30 aliceId bobId (Some " hello ") dbUsers))
    = (200, Items docs)
    /\ getMessages isHex24 bobId aliceId
         (snd (sendMessage isHex24 msg1Id 30 aliceId bobId (Some " hello ") dbUsers))
       = (200, Items docs)
    /\ In (Conversation.populate (users dbUsers)
             (Message.mk msg1Id aliceId bobId (JS.trim " hello ") false 30)) docs.
Proof.
  refine (sendMessage_then_getMessages isHex24 msg1Id 30 aliceId bobId " hello "
            dbUsers eq_refl eq_refl _ _ _ _ _).
  - vm_compute. discriminate.
  - vm_compute. discriminate.
  - vm_compute. discriminate.
  - vm_compute. discriminate.
  - intros m [].
Defined.

Lemma onlineBob_keys : NoDup (map fst onlineBob).
Proof. constructor; [intros []|constructor]. Qed.

Lemma identify_then_lookup_witness :
  NoDup (map fst (OnlineUsers.identify aliceId sockA onlineBob)).
Proof.
  exact (proj2 (proj2 (identify_then_lookup aliceId sockA onlineBob)) onlineBob_keys).
Defined.

Lemma disconnect_removes_socket_witness :
  OnlineUsers.get bobId (OnlineUsers.disconnect sockB onlineBob) <> Some sockB.
Proof.
  refine (proj2 (proj2 (proj2 (disconnect_removes_socket sockB onlineBob
                                 onlineBob_keys))) _ bobId).
  intros u v Hu Hv. apply online_get_In in Hu. apply online_get_In in Hv.
  destruct Hu as [Hu|[]]. destruct Hv as [Hv|[]].
  injection Hu as Hu. injection Hv as Hv. rewrite <- Hu, <- Hv. reflexivity.
Defined.

Lemma onChatMessage_contract_witness :
  snd (onChatMessage isHex24 msg1Id 30 sockA aliceId bobId (Some " hi ") onlineBob
         dbUsers)
  = set_messages dbUsers [Message.mk msg1Id aliceId bobId " hi " false 30].
Proof.
  pose proof (onChatMessage_contract isHex24 msg1Id 30 sockA aliceId bobId
                (Some " hi ") onlineBob dbUsers) as H.
  cbv zeta in H. destruct H as [H _].
  refine (proj1 (H _ " hi " eq_refl)).
  split; [reflexivity|]. split; [reflexivity|].
  split; [exists " hi "; split; [reflexivity|discriminate]|intros m []].
Defined.

Lemma socket_stores_message_to_self_witness :
  sendMessage isHex24 msg1Id 30 aliceId aliceId (Some " note ") dbUsers
  = (json 400 (Err "Cannot send message to yourself"), dbUsers)
  /\ snd (onChatMessage isHex24 msg1Id 30 sockA aliceId aliceId (Some " note ")
            onlineBob dbUsers)
     = mkDB [alice; bob; carol] [] []
         [Message.mk msg1Id aliceId aliceId " note " false 30].
Proof.
  destruct (socket_stores_message_to_self isHex24 msg1Id 30 sockA
              aliceId " note " onlineBob dbUsers eq_refl eq_refl)
    as [H1 [H2 H3]].
  - discriminate.
  - intros m [].
  - split; [|exact H3].
    rewrite (surjective_pairing (sendMessage isHex24 msg1Id 30 aliceId aliceId
                                   (Some " note ") dbUsers)).
    rewrite H1. f_equal.
Defined.

Lemma disconnected_user_gets_no_emit_witness :
  fst (onChatMessage isHex24 msg1Id 30 sockA aliceId bobId (Some "hi")
         (OnlineUsers.disconnect sockB (OnlineUsers.identify bobId sockB [])) dbUsers)
  = [ChatMessage sockA msg1Id aliceId bobId "hi" 30].
Proof.
  refine (disconnected_user_gets_no_emit isHex24 msg1Id 30 sockA aliceId bobId sockB
            "hi" [] dbUsers _ eq_refl eq_refl _ _ _).
  - constructor.
  - discriminate.
  - intros m [].
  - intros u Hu. discriminate Hu.
Defined.
